(** * libde265dec: the libde265 / FFmpeg bridge (src/libde265dec.c)

    A shallow embedding of the bridge between the libde265 HEVC engine and
    FFmpeg: the pixel format resolver, the buffer allocation callbacks with
    their two recycling pools, the bitstream demuxer (out-of-band
    configuration block and per-packet framing), the deferred cropping of
    zero-copy pictures and the bit-depth aware plane copy.

    C [int] values are integers of [Z] normalised to 32 bits by [to_int];
    bytes are [Byte.byte]; pointers are offsets or addresses of [Z]. *)

From Stdlib Require Import ZArith List Bool Lia Strings.Byte.
Import ListNotations.
Local Open Scope Z_scope.

(** ** Machine integers *)

Module CInt.

Definition INT_MIN : Z := - 2 ^ 31.
Definition INT_MAX : Z := 2 ^ 31 - 1.

(** Two's complement normalisation of a value to a 32-bit [int]. *)
Definition to_int (x : Z) : Z := (x + 2 ^ 31) mod 2 ^ 32 - 2 ^ 31.

(** Truncation to [uint16_t]. *)
Definition to_u16 (x : Z) : Z := x mod 2 ^ 16.

Definition in_int (x : Z) : Prop := INT_MIN <= x <= INT_MAX.

Definition add (a b : Z) : Z := to_int (a + b).
Definition sub (a b : Z) : Z := to_int (a - b).
Definition mul (a b : Z) : Z := to_int (a * b).
Definition shl (a n : Z) : Z := to_int (Z.shiftl a n).
Definition shr (a n : Z) : Z := Z.shiftr a n.

(** C division truncates towards zero. *)
Definition div (a b : Z) : Z := to_int (Z.quot a b).

Definition max (a b : Z) : Z := if a >? b then a else b.
Definition min (a b : Z) : Z := if a <? b then a else b.

End CInt.

(** The value of a byte as an [unsigned char]. *)
Definition u8 (b : byte) : Z := Z.of_N (Byte.to_N b).

(** The byte holding the low eight bits of a value. *)
Definition byte_of_Z (z : Z) : byte :=
  match Byte.of_N (Z.to_N (z mod 256)) with
  | Some b => b
  | None => x00
  end.

(** ** Engine and host enumerations *)

(** [enum de265_chroma]; a value outside the four layouts keeps its number. *)
Inductive de265_chroma : Type :=
| de265_chroma_mono
| de265_chroma_420
| de265_chroma_422
| de265_chroma_444
| de265_chroma_other (raw : Z).

(** The members of [enum AVPixelFormat] this file names. *)
Inductive AVPixelFormat : Type :=
| AV_PIX_FMT_NONE
| AV_PIX_FMT_GRAY8
| AV_PIX_FMT_YUV420P
| AV_PIX_FMT_YUV422P
| AV_PIX_FMT_YUV444P
| AV_PIX_FMT_YUV420P9LE
| AV_PIX_FMT_YUV422P9LE
| AV_PIX_FMT_YUV444P9LE
| AV_PIX_FMT_YUV420P10LE
| AV_PIX_FMT_YUV422P10LE
| AV_PIX_FMT_YUV444P10LE
| AV_PIX_FMT_YUV420P12LE
| AV_PIX_FMT_YUV422P12LE
| AV_PIX_FMT_YUV444P12LE
| AV_PIX_FMT_YUV420P14LE
| AV_PIX_FMT_YUV422P14LE
| AV_PIX_FMT_YUV444P14LE
| AV_PIX_FMT_YUV420P16LE
| AV_PIX_FMT_YUV422P16LE
| AV_PIX_FMT_YUV444P16LE.

Definition AVPixelFormat_eqb (a b : AVPixelFormat) : bool :=
  match a, b with
  | AV_PIX_FMT_NONE, AV_PIX_FMT_NONE
  | AV_PIX_FMT_GRAY8, AV_PIX_FMT_GRAY8
  | AV_PIX_FMT_YUV420P, AV_PIX_FMT_YUV420P
  | AV_PIX_FMT_YUV422P, AV_PIX_FMT_YUV422P
  | AV_PIX_FMT_YUV444P, AV_PIX_FMT_YUV444P
  | AV_PIX_FMT_YUV420P9LE, AV_PIX_FMT_YUV420P9LE
  | AV_PIX_FMT_YUV422P9LE, AV_PIX_FMT_YUV422P9LE
  | AV_PIX_FMT_YUV444P9LE, AV_PIX_FMT_YUV444P9LE
  | AV_PIX_FMT_YUV420P10LE, AV_PIX_FMT_YUV420P10LE
  | AV_PIX_FMT_YUV422P10LE, AV_PIX_FMT_YUV422P10LE
  | AV_PIX_FMT_YUV444P10LE, AV_PIX_FMT_YUV444P10LE
  | AV_PIX_FMT_YUV420P12LE, AV_PIX_FMT_YUV420P12LE
  | AV_PIX_FMT_YUV422P12LE, AV_PIX_FMT_YUV422P12LE
  | AV_PIX_FMT_YUV444P12LE, AV_PIX_FMT_YUV444P12LE
  | AV_PIX_FMT_YUV420P14LE, AV_PIX_FMT_YUV420P14LE
  | AV_PIX_FMT_YUV422P14LE, AV_PIX_FMT_YUV422P14LE
  | AV_PIX_FMT_YUV444P14LE, AV_PIX_FMT_YUV444P14LE
  | AV_PIX_FMT_YUV420P16LE, AV_PIX_FMT_YUV420P16LE
  | AV_PIX_FMT_YUV422P16LE, AV_PIX_FMT_YUV422P16LE
  | AV_PIX_FMT_YUV444P16LE, AV_PIX_FMT_YUV444P16LE => true
  | _, _ => false
  end.

(** ** PixelFormatResolver *)

(** The inner [switch (bits_per_pixel)] of one colour layout: the six exact
    cases, then the [default] with its range test. *)
Definition switch_bits_per_pixel
    (f8 f9 f10 f12 f14 f16 : AVPixelFormat) (bits_per_pixel : Z)
    : AVPixelFormat :=
  if bits_per_pixel =? 8 then f8
  else if bits_per_pixel =? 9 then f9
  else if bits_per_pixel =? 10 then f10
  else if bits_per_pixel =? 12 then f12
  else if bits_per_pixel =? 14 then f14
  else if bits_per_pixel =? 16 then f16
  else if (bits_per_pixel <? 8) || (bits_per_pixel >? 16)
       then AV_PIX_FMT_NONE
       else f16.

Definition get_pixel_format (chroma : de265_chroma) (bits_per_pixel : Z)
    : AVPixelFormat :=
  match chroma with
  | de265_chroma_mono => AV_PIX_FMT_GRAY8
  | de265_chroma_420 =>
      switch_bits_per_pixel AV_PIX_FMT_YUV420P AV_PIX_FMT_YUV420P9LE
        AV_PIX_FMT_YUV420P10LE AV_PIX_FMT_YUV420P12LE AV_PIX_FMT_YUV420P14LE
        AV_PIX_FMT_YUV420P16LE bits_per_pixel
  | de265_chroma_422 =>
      switch_bits_per_pixel AV_PIX_FMT_YUV422P AV_PIX_FMT_YUV422P9LE
        AV_PIX_FMT_YUV422P10LE AV_PIX_FMT_YUV422P12LE AV_PIX_FMT_YUV422P14LE
        AV_PIX_FMT_YUV422P16LE bits_per_pixel
  | de265_chroma_444 =>
      switch_bits_per_pixel AV_PIX_FMT_YUV444P AV_PIX_FMT_YUV444P9LE
        AV_PIX_FMT_YUV444P10LE AV_PIX_FMT_YUV444P12LE AV_PIX_FMT_YUV444P14LE
        AV_PIX_FMT_YUV444P16LE bits_per_pixel
  | de265_chroma_other _ => AV_PIX_FMT_NONE
  end.

Definition get_output_bits_per_pixel (format : AVPixelFormat) : Z :=
  match format with
  | AV_PIX_FMT_GRAY8 => 8
  | AV_PIX_FMT_YUV420P | AV_PIX_FMT_YUV422P | AV_PIX_FMT_YUV444P => 8
  | AV_PIX_FMT_YUV420P9LE | AV_PIX_FMT_YUV422P9LE | AV_PIX_FMT_YUV444P9LE => 9
  | AV_PIX_FMT_YUV420P10LE | AV_PIX_FMT_YUV422P10LE
  | AV_PIX_FMT_YUV444P10LE => 10
  | AV_PIX_FMT_YUV420P12LE | AV_PIX_FMT_YUV422P12LE
  | AV_PIX_FMT_YUV444P12LE => 12
  | AV_PIX_FMT_YUV420P14LE | AV_PIX_FMT_YUV422P14LE
  | AV_PIX_FMT_YUV444P14LE => 14
  | AV_PIX_FMT_YUV420P16LE | AV_PIX_FMT_YUV422P16LE
  | AV_PIX_FMT_YUV444P16LE => 16
  | AV_PIX_FMT_NONE => -1
  end.

(** The 16-bit format of a colour layout, as the resolver's [default] cases
    name it. *)
Definition format_16bit (chroma : de265_chroma) : AVPixelFormat :=
  match chroma with
  | de265_chroma_420 => AV_PIX_FMT_YUV420P16LE
  | de265_chroma_422 => AV_PIX_FMT_YUV422P16LE
  | de265_chroma_444 => AV_PIX_FMT_YUV444P16LE
  | _ => AV_PIX_FMT_NONE
  end.

Definition is_colour_layout (chroma : de265_chroma) : bool :=
  match chroma with
  | de265_chroma_420 | de265_chroma_422 | de265_chroma_444 => true
  | _ => false
  end.

Definition is_mono (chroma : de265_chroma) : bool :=
  match chroma with
  | de265_chroma_mono => true
  | _ => false
  end.

(** [chroma == de265_chroma_mono ? 1 : 3] *)
Definition numplanes_of (chroma : de265_chroma) : nat :=
  if is_mono chroma then 1%nat else 3%nat.

(** ** Data model *)

(** The fields of [struct de265_image_spec] the bridge reads. *)
Record de265_image_spec : Type := {
  spec_chroma : de265_chroma;
  spec_width : Z;
  spec_height : Z;
  spec_alignment : Z;
  crop_left : Z;
  crop_top : Z;
  visible_width : Z;
  visible_height : Z;
  luma_bits_per_pixel : Z;
  chroma_bits_per_pixel : Z
}.

(** The fields of [AVFrame] the bridge touches.  The plane arrays [data] and
    [linesize] are indexed by plane; [opaque] is [NULL] or the attached copy
    of the image spec. *)
Record AVFrame : Type := {
  frame_width : Z;
  frame_height : Z;
  frame_format : AVPixelFormat;
  frame_data : nat -> Z;
  frame_linesize : nat -> Z;
  frame_opaque : option de265_image_spec
}.

Definition set_frame_dims (w h : Z) (fmt : AVPixelFormat) (f : AVFrame)
    : AVFrame :=
  {| frame_width := w; frame_height := h; frame_format := fmt;
     frame_data := frame_data f; frame_linesize := frame_linesize f;
     frame_opaque := frame_opaque f |}.

Definition set_frame_size (w h : Z) (f : AVFrame) : AVFrame :=
  set_frame_dims w h (frame_format f) f.

Definition set_frame_opaque (o : option de265_image_spec) (f : AVFrame)
    : AVFrame :=
  {| frame_width := frame_width f; frame_height := frame_height f;
     frame_format := frame_format f; frame_data := frame_data f;
     frame_linesize := frame_linesize f; frame_opaque := o |}.

Definition set_frame_data (d : nat -> Z) (f : AVFrame) : AVFrame :=
  {| frame_width := frame_width f; frame_height := frame_height f;
     frame_format := frame_format f; frame_data := d;
     frame_linesize := frame_linesize f; frame_opaque := frame_opaque f |}.

(** What [av_frame_alloc] returns when it succeeds: a frame with no buffers. *)
Definition blank_frame : AVFrame :=
  {| frame_width := 0; frame_height := 0; frame_format := AV_PIX_FMT_NONE;
     frame_data := fun _ => 0; frame_linesize := fun _ => 0;
     frame_opaque := None |}.

(** The fields of [AVCodecContext] the bridge touches.  [get_buffer2] is the
    host's optional allocation hook: it returns its result code and the frame
    with the buffers it attached. *)
Record AVCodecContext : Type := {
  extradata : option (list byte);
  extradata_size : Z;
  reordered_opaque : Z;
  get_buffer2 : option (AVFrame -> Z * AVFrame);
  coded_width : Z;
  coded_height : Z;
  pix_fmt : AVPixelFormat;
  avctx_width : Z;
  avctx_height : Z
}.

Definition set_coded (cw ch : Z) (fmt : AVPixelFormat) (a : AVCodecContext)
    : AVCodecContext :=
  {| extradata := extradata a; extradata_size := extradata_size a;
     reordered_opaque := reordered_opaque a; get_buffer2 := get_buffer2 a;
     coded_width := cw; coded_height := ch; pix_fmt := fmt;
     avctx_width := avctx_width a; avctx_height := avctx_height a |}.

Definition MAX_FRAME_QUEUE : Z := 16.
Definition MAX_SPEC_QUEUE : Z := 16.

(** [DE265Context] without the engine handle, which is threaded apart.  Each
    queue array with its length field is the list of its live entries, in
    array order: [frame_queue_len] is the length of [frame_queue]. *)
Record DE265Context : Type := {
  check_extra : Z;
  packetized : Z;
  length_size : Z;
  deblocking : Z;
  decode_ratio : Z;
  frame_queue : list AVFrame;
  spec_queue : list de265_image_spec
}.

Definition frame_queue_len (ctx : DE265Context) : Z :=
  Z.of_nat (length (frame_queue ctx)).

Definition spec_queue_len (ctx : DE265Context) : Z :=
  Z.of_nat (length (spec_queue ctx)).

Definition set_frame_queue (q : list AVFrame) (ctx : DE265Context)
    : DE265Context :=
  {| check_extra := check_extra ctx; packetized := packetized ctx;
     length_size := length_size ctx; deblocking := deblocking ctx;
     decode_ratio := decode_ratio ctx; frame_queue := q;
     spec_queue := spec_queue ctx |}.

Definition set_spec_queue (q : list de265_image_spec) (ctx : DE265Context)
    : DE265Context :=
  {| check_extra := check_extra ctx; packetized := packetized ctx;
     length_size := length_size ctx; deblocking := deblocking ctx;
     decode_ratio := decode_ratio ctx; frame_queue := frame_queue ctx;
     spec_queue := q |}.

Definition set_framing (ce pk ls : Z) (ctx : DE265Context) : DE265Context :=
  {| check_extra := ce; packetized := pk; length_size := ls;
     deblocking := deblocking ctx; decode_ratio := decode_ratio ctx;
     frame_queue := frame_queue ctx; spec_queue := spec_queue ctx |}.

(** The context fields [ff_libde265dec_ctx_init] sets. *)
Definition ff_libde265dec_ctx_init : DE265Context :=
  {| check_extra := 1; packetized := 1; length_size := 4; deblocking := 1;
     decode_ratio := 100; frame_queue := []; spec_queue := [] |}.

(** One plane of an engine image as [de265_set_image_plane_intern] records
    it: base pointer, stride and the user data (the frame, or [NULL] for a
    plane of the engine's own allocator). *)
Record image_plane : Type := {
  plane_data : Z;
  plane_stride : Z;
  plane_user_data : option AVFrame
}.

(** [struct de265_image_intern]: the planes registered so far, by index. *)
Definition de265_image_intern : Type := nat -> option image_plane.

Definition de265_set_image_plane_intern (img : de265_image_intern) (i : nat)
    (data stride : Z) (frame : AVFrame) : de265_image_intern :=
  fun j =>
    if Nat.eqb j i
    then Some {| plane_data := data; plane_stride := stride;
                 plane_user_data := Some frame |}
    else img j.

Definition de265_get_image_plane_user_data_intern (img : de265_image_intern)
    (i : nat) : option AVFrame :=
  match img i with
  | Some plane => plane_user_data plane
  | None => None
  end.

(** Allocations and releases the bridge performs, in program order. *)
Inductive pool_event : Type :=
| EvFrameAlloc
| EvFrameFree (f : AVFrame)
| EvSpecMalloc
| EvSpecFree (s : de265_image_spec)
| EvDefaultRelease.

(** ** The engine *)

Definition DE265_OK : Z := 0.

(** [AVERROR_INVALIDDATA] is [FFERRTAG('I','N','D','A')] negated. *)
Definition AVERROR_INVALIDDATA : Z := -1094995529.

Definition AV_NOPTS_VALUE : Z := - 2 ^ 63.

(** The libde265 calls of the bridge.  A push receives the buffer its pointer
    points into, the pointer as an offset into that buffer, the size, and the
    timestamp; it returns the engine's next state and its [de265_error]. *)
Class Engine : Type := {
  decoder : Type;
  de265_push_NAL : decoder -> list byte -> Z -> Z -> Z -> decoder * Z;
  de265_push_data : decoder -> list byte -> Z -> Z -> Z -> decoder * Z;
  de265_push_end_of_NAL : decoder -> decoder;
  de265_push_end_of_stream : decoder -> decoder;
  default_get_buffer :
    de265_image_intern -> de265_image_spec -> de265_image_intern * Z
}.

(** What the bridge handed to the engine, in program order. *)
Inductive submission : Type :=
| PushNAL (off size pts : Z)
| PushData (off size pts : Z)
| EndOfNAL
| EndOfStream.

(** The bytes of a buffer a submission covers when it lies inside it. *)
Definition slice (buf : list byte) (off size : Z) : list byte :=
  firstn (Z.to_nat size) (skipn (Z.to_nat off) buf).

(** A submission lies inside a buffer of [len] bytes. *)
Definition in_bounds (len off size : Z) : bool :=
  (0 <=? off) && (0 <=? size) && (off + size <=? len).

(** [buf[i]]; a read outside the buffer has no defined value in C and yields
    a zero byte here. *)
Definition byte_at (buf : list byte) (i : Z) : byte :=
  if i <? 0 then x00 else nth (Z.to_nat i) buf x00.

(** ** BitstreamDemuxer *)

(** How a stretch of [ff_libde265dec_decode] ends: by a [return] with its
    code, or by falling through to the statements after it. *)
Inductive flow (A : Type) : Type :=
| Return (code : Z)
| Proceed (a : A).

Arguments Return {A} code.
Arguments Proceed {A} a.

Section Demuxer.

Context {E : Engine}.

(** The engine state with the log of what was handed to it. *)
Record Feed : Type := {
  feed_decoder : decoder;
  feed_log : list submission
}.

Definition push_NAL (fd : Feed) (buf : list byte) (off size pts : Z)
    : Feed * Z :=
  let (d, err) := de265_push_NAL (feed_decoder fd) buf off size pts in
  ({| feed_decoder := d; feed_log := feed_log fd ++ [PushNAL off size pts] |},
   err).

Definition push_data (fd : Feed) (buf : list byte) (off size pts : Z)
    : Feed * Z :=
  let (d, err) := de265_push_data (feed_decoder fd) buf off size pts in
  ({| feed_decoder := d; feed_log := feed_log fd ++ [PushData off size pts] |},
   err).

Definition push_end_of_NAL (fd : Feed) : Feed :=
  {| feed_decoder := de265_push_end_of_NAL (feed_decoder fd);
     feed_log := feed_log fd ++ [EndOfNAL] |}.

Definition push_end_of_stream (fd : Feed) : Feed :=
  {| feed_decoder := de265_push_end_of_stream (feed_decoder fd);
     feed_log := feed_log fd ++ [EndOfStream] |}.

(** [extradata[pos] << 8 | extradata[pos+1]], in [int]. *)
Definition read_be16 (buf : list byte) (pos : Z) : Z :=
  Z.lor (CInt.shl (u8 (byte_at buf pos)) 8)
        (u8 (byte_at buf (CInt.add pos 1))).

(** The loop [for (j = 0; j < nal_count; j++)] of the configuration record
    (lines 398-414), [count] iterations from [pos]: the position after the
    last unit, or the code of the [return] that left the loop. *)
Fixpoint extra_nal_loop (extradata : list byte) (extradata_size : Z)
    (count : nat) (pos : Z) (fd : Feed) : Feed * flow Z :=
  match count with
  | O => (fd, Proceed pos)
  | S count' =>
      if CInt.add pos 2 >? extradata_size
      then (fd, Return AVERROR_INVALIDDATA)
      else
        let nal_size := read_be16 extradata pos in
        if CInt.add (CInt.add pos 2) nal_size >? extradata_size
        then (fd, Return AVERROR_INVALIDDATA)
        else
          let (fd', err) := push_NAL fd extradata (pos + 2) nal_size 0 in
          if negb (err =? 0)
          then (fd', Return AVERROR_INVALIDDATA)
          else extra_nal_loop extradata extradata_size count'
                 (CInt.add pos (CInt.add 2 nal_size)) fd'
  end.

(** The loop [for (i = 0; i < num_param_sets; i++)] (lines 390-415). *)
Fixpoint extra_set_loop (extradata : list byte) (extradata_size : Z)
    (count : nat) (pos : Z) (fd : Feed) : Feed * flow Z :=
  match count with
  | O => (fd, Proceed pos)
  | S count' =>
      if CInt.add pos 3 >? extradata_size
      then (fd, Return AVERROR_INVALIDDATA)
      else
        let nal_count := read_be16 extradata (CInt.add pos 1) in
        match extra_nal_loop extradata extradata_size (Z.to_nat nal_count)
                (CInt.add pos 3) fd with
        | (fd', Return code) => (fd', Return code)
        | (fd', Proceed pos') =>
            extra_set_loop extradata extradata_size count' pos' fd'
        end
  end.

(** The test that takes the block for a configuration record (line 381):
    [extradata_size > 3 && extradata != NULL &&
     (extradata[0] || extradata[1] || extradata[2] > 1)]. *)
Definition looks_packetized (avctx : AVCodecContext) : bool :=
  match extradata avctx with
  | Some block =>
      (extradata_size avctx >? 3)
      && (negb (u8 (byte_at block 0) =? 0)
          || negb (u8 (byte_at block 1) =? 0)
          || (u8 (byte_at block 2) >? 1))
  | None => false
  end.

(** The buffer behind [avctx->extradata]; a [NULL] pointer has no bytes. *)
Definition extradata_bytes (avctx : AVCodecContext) : list byte :=
  match extradata avctx with
  | Some block => block
  | None => []
  end.

(** Lines 376-430: the out-of-band block, looked at on the first call. *)
Definition check_extradata (avctx : AVCodecContext) (ctx : DE265Context)
    (fd : Feed) : DE265Context * Feed * flow unit :=
  if negb (check_extra ctx =? 0) then
    let extradata_size := extradata_size avctx in
    let ctx := set_framing 0 (packetized ctx) (length_size ctx) ctx in
    if extradata_size >? 0 then
      let block := extradata_bytes avctx in
      if looks_packetized avctx then
        let ctx := set_framing 0 1 (length_size ctx) ctx in
        if extradata_size >? 22 then
          let ctx :=
            set_framing 0 1
              (CInt.add (Z.land (u8 (byte_at block 21)) 3) 1) ctx in
          let num_param_sets := u8 (byte_at block 22) in
          match extra_set_loop block extradata_size
                  (Z.to_nat num_param_sets) 23 fd with
          | (fd', Return code) => (ctx, fd', Return code)
          | (fd', Proceed _) => (ctx, push_end_of_NAL fd', Proceed tt)
          end
        else (ctx, push_end_of_NAL fd, Proceed tt)
      else
        let ctx := set_framing 0 0 (length_size ctx) ctx in
        let (fd', err) := push_data fd block 0 extradata_size 0 in
        if negb (err =? 0)
        then (ctx, fd', Return AVERROR_INVALIDDATA)
        else (ctx, push_end_of_NAL fd', Proceed tt)
    else (ctx, fd, Proceed tt)
  else (ctx, fd, Proceed tt).

(** [AVPacket]: the payload, its declared size and its timestamp. *)
Record AVPacket : Type := {
  avpkt_data : list byte;
  avpkt_size : Z;
  avpkt_pts : Z
}.

(** The loop [for (i = 0; i < ctx->length_size; i++)
    nal_size = (nal_size << 8) | avpkt_data[i]] (lines 445-447), [count]
    iterations reading from offset [pos]. *)
Fixpoint read_nal_size (buf : list byte) (count : nat) (pos : Z)
    (nal_size : Z) : Z :=
  match count with
  | O => nal_size
  | S count' =>
      read_nal_size buf count' (pos + 1)
        (CInt.to_int (Z.lor (Z.shiftl nal_size 8) (u8 (byte_at buf pos))))
  end.

(** The loop [while (avpkt_data + ctx->length_size <= avpkt_end)] (lines
    442-455); [pos] is [avpkt_data] as an offset into the payload, and the
    step [avpkt_data += ctx->length_size + nal_size] adds the [int] sum of
    the two to the pointer.  The loop has no bound of its own in the
    source: [None] is the fuel running out. *)
Fixpoint packet_nal_loop (fuel : nat) (length_size : Z) (avpkt : AVPacket)
    (pts : Z) (pos : Z) (fd : Feed) : option (Feed * flow Z) :=
  match fuel with
  | O => None
  | S fuel' =>
      if pos + length_size <=? avpkt_size avpkt then
        let nal_size :=
          read_nal_size (avpkt_data avpkt) (Z.to_nat length_size) pos 0 in
        let (fd', err) :=
          push_NAL fd (avpkt_data avpkt) (pos + length_size) nal_size pts in
        if negb (err =? DE265_OK)
        then Some (fd', Return AVERROR_INVALIDDATA)
        else packet_nal_loop fuel' length_size avpkt pts
               (pos + CInt.add length_size nal_size) fd'
      else Some (fd, Proceed pos)
  end.

(** Lines 432-466: the packet is fed to the engine. *)
Definition feed_packet (fuel : nat) (avctx : AVCodecContext)
    (ctx : DE265Context) (avpkt : AVPacket) (fd : Feed)
    : option (Feed * flow unit) :=
  if avpkt_size avpkt >? 0 then
    let pts :=
      if negb (avpkt_pts avpkt =? AV_NOPTS_VALUE)
      then avpkt_pts avpkt
      else reordered_opaque avctx in
    if negb (packetized ctx =? 0) then
      match packet_nal_loop fuel (length_size ctx) avpkt pts 0 fd with
      | Some (fd', Return code) => Some (fd', Return code)
      | Some (fd', Proceed _) => Some (fd', Proceed tt)
      | None => None
      end
    else
      let (fd', err) :=
        push_data fd (avpkt_data avpkt) 0 (avpkt_size avpkt) pts in
      if negb (err =? DE265_OK)
      then Some (fd', Return AVERROR_INVALIDDATA)
      else Some (fd', Proceed tt)
  else Some (push_end_of_stream fd, Proceed tt).

(** Lines 376-466 of [ff_libde265dec_decode]: everything the function does
    with its input before it polls the engine for a picture. *)
Definition decode_input (fuel : nat) (avctx : AVCodecContext)
    (ctx : DE265Context) (avpkt : AVPacket) (fd : Feed)
    : option (DE265Context * Feed * flow unit) :=
  match check_extradata avctx ctx fd with
  | (ctx', fd', Return code) => Some (ctx', fd', Return code)
  | (ctx', fd', Proceed _) =>
      match feed_packet fuel avctx ctx' avpkt fd' with
      | Some (fd'', r) => Some (ctx', fd'', r)
      | None => None
      end
  end.

End Demuxer.

(** ** RecyclingPools and BufferAllocationBridge *)

Definition align_value (value alignment : Z) : Z :=
  Z.land (CInt.add value (CInt.sub alignment 1))
         (Z.lnot (CInt.sub alignment 1)).

(** [free_spec]: the descriptor goes back to the pool, or is freed when the
    pool is full. *)
Definition free_spec (ctx : DE265Context) (spec : de265_image_spec)
    : DE265Context * list pool_event :=
  if spec_queue_len ctx <? MAX_SPEC_QUEUE
  then (set_spec_queue (spec_queue ctx ++ [spec]) ctx, [])
  else (ctx, [EvSpecFree spec]).

(** What the host's allocator answers during one call of the allocate
    callback: whether [av_frame_alloc] and [malloc] succeed, what
    [av_frame_get_buffer] returns for a frame and an alignment (its code and
    the frame with its buffers), and what [av_frame_make_writable] leaves. *)
Record Host : Type := {
  host_frame_alloc : bool;
  host_frame_get_buffer : AVFrame -> Z -> Z * AVFrame;
  host_make_writable : AVFrame -> AVFrame;
  host_malloc : bool
}.

(** The state the allocate callback works on. *)
Record AllocState : Type := {
  as_avctx : AVCodecContext;
  as_dectx : DE265Context;
  as_img : de265_image_intern;
  as_events : list pool_event
}.

Definition with_avctx (a : AVCodecContext) (s : AllocState) : AllocState :=
  {| as_avctx := a; as_dectx := as_dectx s; as_img := as_img s;
     as_events := as_events s |}.

Definition with_dectx (c : DE265Context) (s : AllocState) : AllocState :=
  {| as_avctx := as_avctx s; as_dectx := c; as_img := as_img s;
     as_events := as_events s |}.

Definition with_img (i : de265_image_intern) (s : AllocState) : AllocState :=
  {| as_avctx := as_avctx s; as_dectx := as_dectx s; as_img := i;
     as_events := as_events s |}.

Definition emit (ev : list pool_event) (s : AllocState) : AllocState :=
  {| as_avctx := as_avctx s; as_dectx := as_dectx s; as_img := as_img s;
     as_events := as_events s ++ ev |}.

(** Lines 222-237: the format of the spec, or [None] for [goto fallback]. *)
Definition negotiate_format (spec : de265_image_spec)
    : option AVPixelFormat :=
  let chroma := spec_chroma spec in
  if negb (is_mono chroma)
     && negb (luma_bits_per_pixel spec =? chroma_bits_per_pixel spec)
  then None
  else
    let bits_per_pixel := luma_bits_per_pixel spec in
    let format := get_pixel_format chroma bits_per_pixel in
    if AVPixelFormat_eqb format AV_PIX_FMT_NONE then None
    else if negb (get_output_bits_per_pixel format =? bits_per_pixel)
    then None
    else Some format.

(** Lines 241-255: a frame from the host's hook. *)
Definition frame_from_hook (host : Host) (spec : de265_image_spec)
    (format : AVPixelFormat) (hook : AVFrame -> Z * AVFrame)
    (s : AllocState) : AllocState * option AVFrame :=
  if host_frame_alloc host then
    let frame :=
      set_frame_dims (visible_width spec) (visible_height spec) format
        blank_frame in
    let s :=
      with_avctx
        (set_coded (align_value (spec_width spec) (spec_alignment spec))
           (spec_height spec) format (as_avctx s))
        (emit [EvFrameAlloc] s) in
    let (ret, frame) := hook frame in
    if ret <? 0
    then (emit [EvFrameFree frame] s, None)
    else (s, Some frame)
  else (s, None).

(** Lines 257-268: the frame at the front of the pool, kept when it has the
    spec's coded size and format and freed otherwise. *)
Definition frame_from_pool (host : Host) (spec : de265_image_spec)
    (format : AVPixelFormat) (s : AllocState)
    : AllocState * option AVFrame :=
  match frame_queue (as_dectx s) with
  | frame :: rest =>
      let s := with_dectx (set_frame_queue rest (as_dectx s)) s in
      if negb (frame_width frame =? spec_width spec)
         || negb (frame_height frame =? spec_height spec)
         || negb (AVPixelFormat_eqb (frame_format frame) format)
      then (emit [EvFrameFree frame] s, None)
      else (s, Some (host_make_writable host frame))
  | [] => (s, None)
  end.

(** Lines 270-283: a new frame of the spec's coded size. *)
Definition frame_from_alloc (host : Host) (spec : de265_image_spec)
    (format : AVPixelFormat) (s : AllocState)
    : AllocState * option AVFrame :=
  if host_frame_alloc host then
    let frame :=
      set_frame_dims (spec_width spec) (spec_height spec) format
        blank_frame in
    let s := emit [EvFrameAlloc] s in
    let (ret, frame) :=
      host_frame_get_buffer host frame (spec_alignment spec) in
    if negb (ret =? 0)
    then (emit [EvFrameFree frame] s, None)
    else (s, Some frame)
  else (s, None).

(** Lines 239-284: the frame the planes will live in. *)
Definition obtain_frame (host : Host) (spec : de265_image_spec)
    (format : AVPixelFormat) (s : AllocState)
    : AllocState * option AVFrame :=
  match get_buffer2 (as_avctx s) with
  | Some hook => frame_from_hook host spec format hook s
  | None =>
      match frame_from_pool host spec format s with
      | (s', Some frame) => (s', Some frame)
      | (s', None) => frame_from_alloc host spec format s'
      end
  end.

(** Lines 286-301: a frame whose size is not the visible size carries a copy
    of the spec, in a descriptor popped from the pool or allocated. *)
Definition attach_spec (host : Host) (spec : de265_image_spec)
    (frame : AVFrame) (s : AllocState) : AllocState * option AVFrame :=
  if negb (frame_width frame =? visible_width spec)
     || negb (frame_height frame =? visible_height spec)
  then
    if spec_queue_len (as_dectx s) >? 0 then
      (with_dectx
         (set_spec_queue (removelast (spec_queue (as_dectx s))) (as_dectx s))
         s,
       Some (set_frame_opaque (Some spec) frame))
    else if host_malloc host then
      (emit [EvSpecMalloc] s, Some (set_frame_opaque (Some spec) frame))
    else (emit [EvFrameFree frame] s, None)
  else (s, Some frame).

(** Lines 304-313: [count] iterations of the plane loop from plane [i];
    [false] when a plane's base is not aligned.  The test
    [(uintptr_t)data % spec->alignment] is the remainder [data mod alignment]
    for a positive alignment, which is what the engine asks for.  C converts
    a negative alignment to [uintptr_t] before it divides and gives the
    remainder by zero no value; the remainder of [Z] stands for the test
    there too. *)
Fixpoint register_planes (count : nat) (i : nat) (spec : de265_image_spec)
    (frame : AVFrame) (img : de265_image_intern)
    : de265_image_intern * bool :=
  match count with
  | O => (img, true)
  | S count' =>
      let data := frame_data frame i in
      if negb (data mod spec_alignment spec =? 0)
      then (img, false)
      else
        let stride := frame_linesize frame i in
        register_planes count' (S i) spec frame
          (de265_set_image_plane_intern img i data stride frame)
  end.

(** Lines 222-314: the bridge proper; [None] stands for [goto fallback]. *)
Definition bridge_buffer (host : Host) (spec : de265_image_spec)
    (s : AllocState) : AllocState * option AVFrame :=
  match negotiate_format spec with
  | None => (s, None)
  | Some format =>
      match obtain_frame host spec format s with
      | (s, None) => (s, None)
      | (s, Some frame) =>
          match attach_spec host spec frame s with
          | (s, None) => (s, None)
          | (s, Some frame) =>
              match register_planes (numplanes_of (spec_chroma spec)) 0 spec
                      frame (as_img s) with
              | (img, false) =>
                  (emit [EvFrameFree frame] (with_img img s), None)
              | (img, true) => (with_img img s, Some frame)
              end
          end
      end
  end.

(** What a call of the allocate callback leaves: the state, the value it
    returns to the engine, and whether it went through [fallback]. *)
Record Allocation : Type := {
  alloc_state : AllocState;
  alloc_ret : Z;
  alloc_fallback : bool
}.

Section Allocator.

Context {E : Engine}.

Definition ff_libde265dec_get_buffer (host : Host) (avctx : AVCodecContext)
    (dectx : DE265Context) (img : de265_image_intern)
    (spec : de265_image_spec) : Allocation :=
  let s0 :=
    {| as_avctx := avctx; as_dectx := dectx; as_img := img;
       as_events := [] |} in
  match bridge_buffer host spec s0 with
  | (s, Some _) =>
      {| alloc_state := s; alloc_ret := 1; alloc_fallback := false |}
  | (s, None) =>
      let (img', ret) := default_get_buffer (as_img s) spec in
      {| alloc_state := with_img img' s; alloc_ret := ret;
         alloc_fallback := true |}
  end.

End Allocator.

(** [ff_libde265dec_release_buffer]. *)
Definition ff_libde265dec_release_buffer (avctx : AVCodecContext)
    (dectx : DE265Context) (img : de265_image_intern)
    : DE265Context * list pool_event :=
  match de265_get_image_plane_user_data_intern img 0 with
  | None => (dectx, [EvDefaultRelease])
  | Some frame =>
      let (dectx, ev) :=
        match frame_opaque frame with
        | Some spec => free_spec dectx spec
        | None => (dectx, [])
        end in
      let frame := set_frame_opaque None frame in
      match get_buffer2 avctx with
      | Some _ => (dectx, ev ++ [EvFrameFree frame])
      | None =>
          if frame_queue_len dectx =? MAX_FRAME_QUEUE
          then (dectx, ev ++ [EvFrameFree frame])
          else (set_frame_queue (frame_queue dectx ++ [frame]) dectx, ev)
      end
  end.

(** ** FrameAssembler: deferred cropping of a bridged picture *)

(** [(spec->crop_left >> shift) + (spec->crop_top >> shift) *
    picture->linesize[i]] with [shift = (i == 0) ? 0 : 1]. *)
Definition crop_offset (spec : de265_image_spec) (linesize : Z) (i : nat)
    : Z :=
  let shift := if Nat.eqb i 0 then 0 else 1 in
  CInt.add (CInt.shr (crop_left spec) shift)
           (CInt.mul (CInt.shr (crop_top spec) shift) linesize).

(** Lines 529-533: [count] iterations of the plane loop from plane [i]. *)
Fixpoint crop_planes (count : nat) (i : nat) (spec : de265_image_spec)
    (picture : AVFrame) : AVFrame :=
  match count with
  | O => picture
  | S count' =>
      let offset := crop_offset spec (frame_linesize picture i) i in
      let data := frame_data picture in
      crop_planes count' (S i) spec
        (set_frame_data
           (fun j => if Nat.eqb j i then data j + offset else data j)
           picture)
  end.

(** [av_frame_ref (picture, frame)]: the picture takes the frame's
    properties and refers to its buffers. *)
Definition av_frame_ref (picture frame : AVFrame) : AVFrame := frame.

(** Lines 520-535: the picture for a bridged frame, the frame with its
    descriptor detached, and the context after the descriptor is recycled. *)
Definition retrieve_bridged (ctx : DE265Context) (chroma : de265_chroma)
    (picture frame : AVFrame)
    : DE265Context * AVFrame * AVFrame * list pool_event :=
  let numplanes := numplanes_of chroma in
  let picture := av_frame_ref picture frame in
  match frame_opaque frame with
  | Some spec =>
      let frame := set_frame_opaque None frame in
      let picture :=
        set_frame_size (visible_width spec) (visible_height spec) picture in
      let picture := crop_planes numplanes 0 spec picture in
      let (ctx, ev) := free_spec ctx spec in
      (ctx, picture, frame, ev)
  | None => (ctx, picture, frame, [])
  end.

(** ** PlaneConverter *)

(** Byte-addressed memory.  The engine's planes are read from one memory and
    the outgoing frame is written to another: the two never overlap. *)
Definition mem : Type := Z -> byte.

Definition store8 (m : mem) (a : Z) (b : byte) : mem :=
  fun x => if x =? a then b else m x.

(** [*(uint16_t * ) a] and [*(uint16_t * ) a = v] on a little-endian host,
    which the [...LE] formats of the resolver take for granted. *)
Definition load16 (m : mem) (a : Z) : Z :=
  Z.lor (u8 (m a)) (Z.shiftl (u8 (m (a + 1))) 8).

Definition store16 (m : mem) (a : Z) (v : Z) : mem :=
  store8 (store8 m a (byte_of_Z v)) (a + 1) (byte_of_Z (Z.shiftr v 8)).

(** A [for] loop of [count] iterations over two pointers: the body reads at
    [s] and writes at [d], then [s] advances by [ds] and [d] by [dd]. *)
Fixpoint for_each (count : nat) (body : Z -> Z -> mem -> mem) (ds dd : Z)
    (s d : Z) (m : mem) : mem :=
  match count with
  | O => m
  | S count' => for_each count' body ds dd (s + ds) (d + dd) (body s d m)
  end.

(** [*d = *s >> shift] on [uint16_t] samples. *)
Definition shift_right_16 (src : mem) (shift : Z) (s d : Z) (m : mem) : mem :=
  store16 m d (CInt.to_u16 (CInt.shr (load16 src s) shift)).

(** [*d = *s << shift] on [uint16_t] samples. *)
Definition shift_left_16 (src : mem) (shift : Z) (s d : Z) (m : mem) : mem :=
  store16 m d (CInt.to_u16 (CInt.shl (load16 src s) shift)).

(** [*d = *s << shift] from a [uint8_t] sample to a [uint16_t] sample. *)
Definition shift_left_8_16 (src : mem) (shift : Z) (s d : Z) (m : mem)
    : mem :=
  store16 m d (CInt.to_u16 (CInt.shl (u8 (src s)) shift)).

(** [memcpy (d, s, n)] from the source memory. *)
Definition memcpy (src : mem) (n : Z) (s d : Z) (m : mem) : mem :=
  for_each (Z.to_nat n) (fun s d m => store8 m d (src s)) 1 1 s d m.

(** libavutil's [av_image_copy_plane]: [height] lines of [bytewidth] bytes,
    nothing when a pointer is [NULL]. *)
Definition av_image_copy_plane (dst_ptr dst_linesize : Z) (src : mem)
    (src_ptr src_linesize : Z) (bytewidth height : Z) (dst : mem) : mem :=
  if (dst_ptr =? 0) || (src_ptr =? 0) then dst
  else for_each (Z.to_nat height) (memcpy src bytewidth)
         src_linesize dst_linesize src_ptr dst_ptr dst.

(** What the engine tells of one plane of a picture: [de265_get_image_plane]
    with its stride, [de265_get_image_width], [de265_get_image_height] and
    [de265_get_bits_per_pixel]. *)
Record source_plane : Type := {
  src_ptr : Z;
  src_stride : Z;
  plane_width : Z;
  plane_height : Z;
  plane_bits_per_pixel : Z
}.

(** Lines 572-626: one iteration of the plane loop. *)
Definition convert_plane (src : mem) (max_bits_per_pixel : Z)
    (p : source_plane) (dst_ptr linesize : Z) (dst : mem) : mem :=
  let plane_bits_per_pixel := plane_bits_per_pixel p in
  let stride := src_stride p in
  let size := CInt.min stride linesize in
  let lines := Z.to_nat (plane_height p) in
  if plane_bits_per_pixel >? max_bits_per_pixel then
    let shift := CInt.sub plane_bits_per_pixel max_bits_per_pixel in
    for_each lines
      (for_each (Z.to_nat (CInt.div size 2)) (shift_right_16 src shift) 2 2)
      stride linesize (src_ptr p) dst_ptr dst
  else if (plane_bits_per_pixel <? max_bits_per_pixel)
          && (plane_bits_per_pixel >? 8) then
    let shift := CInt.sub max_bits_per_pixel plane_bits_per_pixel in
    for_each lines
      (for_each (Z.to_nat (CInt.div size 2)) (shift_left_16 src shift) 2 2)
      stride linesize (src_ptr p) dst_ptr dst
  else if (plane_bits_per_pixel <? max_bits_per_pixel)
          && (plane_bits_per_pixel =? 8) then
    let shift := CInt.sub max_bits_per_pixel plane_bits_per_pixel in
    for_each lines
      (for_each (Z.to_nat size) (shift_left_8_16 src shift) 1 2)
      stride linesize (src_ptr p) dst_ptr dst
  else
    av_image_copy_plane dst_ptr linesize src (src_ptr p) stride size
      (plane_height p) dst.

(** Lines 571-627: [count] iterations of the plane loop from plane [i]. *)
Fixpoint convert_planes (count : nat) (i : nat) (src : mem)
    (max_bits_per_pixel : Z) (img : nat -> source_plane) (picture : AVFrame)
    (dst : mem) : mem :=
  match count with
  | O => dst
  | S count' =>
      convert_planes count' (S i) src max_bits_per_pixel img picture
        (convert_plane src max_bits_per_pixel (img i)
           (frame_data picture i) (frame_linesize picture i) dst)
  end.

(** Lines 558-564: [count] iterations from [i] of the loop that compares
    each plane's stride with the one before. *)
Fixpoint equal_strides_loop (count : nat) (i : nat) (stride : nat -> Z)
    : bool :=
  match count with
  | O => true
  | S count' =>
      if negb (stride (i - 1)%nat =? stride i) then false
      else equal_strides_loop count' (S i) stride
  end.

(** Bytes per sample and chroma subsampling shifts of the resolver's
    formats, as libavutil's pixel format descriptors give them. *)
Definition bytes_per_sample (format : AVPixelFormat) : Z :=
  if get_output_bits_per_pixel format <=? 8 then 1 else 2.

Definition log2_chroma_w (format : AVPixelFormat) : Z :=
  match format with
  | AV_PIX_FMT_NONE | AV_PIX_FMT_GRAY8 => 0
  | AV_PIX_FMT_YUV444P | AV_PIX_FMT_YUV444P9LE | AV_PIX_FMT_YUV444P10LE
  | AV_PIX_FMT_YUV444P12LE | AV_PIX_FMT_YUV444P14LE
  | AV_PIX_FMT_YUV444P16LE => 0
  | _ => 1
  end.

Definition log2_chroma_h (format : AVPixelFormat) : Z :=
  match format with
  | AV_PIX_FMT_YUV420P | AV_PIX_FMT_YUV420P9LE | AV_PIX_FMT_YUV420P10LE
  | AV_PIX_FMT_YUV420P12LE | AV_PIX_FMT_YUV420P14LE
  | AV_PIX_FMT_YUV420P16LE => 1
  | _ => 0
  end.

Definition format_planes (format : AVPixelFormat) : nat :=
  match format with
  | AV_PIX_FMT_NONE => 0%nat
  | AV_PIX_FMT_GRAY8 => 1%nat
  | _ => 3%nat
  end.

(** [AV_CEIL_RSHIFT (a, b)] is [-((-a) >> b)]. *)
Definition ceil_rshift (a b : Z) : Z := - Z.shiftr (- a) b.

(** libavutil's [av_image_copy] on the resolver's formats: every plane of
    the format is copied with [av_image_copy_plane], the byte width of a
    line taken from the format and the width, the chroma planes with the
    format's subsampling. *)
Fixpoint av_image_copy_loop (count : nat) (i : nat)
    (dst_data dst_linesizes : nat -> Z) (src : mem)
    (src_data src_linesizes : nat -> Z) (format : AVPixelFormat)
    (width height : Z) (dst : mem) : mem :=
  match count with
  | O => dst
  | S count' =>
      let chroma := negb (Nat.eqb i 0) in
      let h := if chroma then ceil_rshift height (log2_chroma_h format)
               else height in
      let w := if chroma then ceil_rshift width (log2_chroma_w format)
               else width in
      av_image_copy_loop count' (S i) dst_data dst_linesizes src src_data
        src_linesizes format width height
        (av_image_copy_plane (dst_data i) (dst_linesizes i) src (src_data i)
           (src_linesizes i) (w * bytes_per_sample format) h dst)
  end.

Definition av_image_copy (dst_data dst_linesizes : nat -> Z) (src : mem)
    (src_data src_linesizes : nat -> Z) (format : AVPixelFormat)
    (width height : Z) (dst : mem) : mem :=
  av_image_copy_loop (format_planes format) 0 dst_data dst_linesizes src
    src_data src_linesizes format width height dst.

(** Lines 549-628: the planes of a picture of the engine's own allocator
    are copied into the outgoing frame. *)
Definition copy_picture (chroma : de265_chroma) (format : AVPixelFormat)
    (width height : Z) (img : nat -> source_plane) (src : mem)
    (picture : AVFrame) (dst : mem) : mem :=
  let numplanes := numplanes_of chroma in
  let src_data :=
    fun i => if (i <? numplanes)%nat then src_ptr (img i) else 0 in
  let stride :=
    fun i => if (i <? numplanes)%nat then src_stride (img i) else 0 in
  if equal_strides_loop (numplanes - 1) 1 stride then
    av_image_copy (frame_data picture) (frame_linesize picture) src src_data
      stride format width height dst
  else
    let max_bits_per_pixel := get_output_bits_per_pixel format in
    convert_planes numplanes 0 src max_bits_per_pixel img picture dst.

(** [LIBDE265_FFMPEG_MAX] over the three planes' bit depths (lines 491-496)
    and the format the picture resolves to. *)
Definition picture_format (chroma : de265_chroma) (img : nat -> source_plane)
    : AVPixelFormat :=
  let bits_per_pixel :=
    CInt.max
      (CInt.max (plane_bits_per_pixel (img 0%nat))
                (plane_bits_per_pixel (img 1%nat)))
      (plane_bits_per_pixel (img 2%nat)) in
  get_pixel_format chroma bits_per_pixel.

(** ** Reference definitions and concrete instances used by the statements *)

(** The resolver's exact grid points with the format each resolves to. *)
Definition grid_points : list (de265_chroma * Z * AVPixelFormat) :=
  [ (de265_chroma_mono, 8, AV_PIX_FMT_GRAY8);
    (de265_chroma_420, 8, AV_PIX_FMT_YUV420P);
    (de265_chroma_420, 9, AV_PIX_FMT_YUV420P9LE);
    (de265_chroma_420, 10, AV_PIX_FMT_YUV420P10LE);
    (de265_chroma_420, 12, AV_PIX_FMT_YUV420P12LE);
    (de265_chroma_420, 14, AV_PIX_FMT_YUV420P14LE);
    (de265_chroma_420, 16, AV_PIX_FMT_YUV420P16LE);
    (de265_chroma_422, 8, AV_PIX_FMT_YUV422P);
    (de265_chroma_422, 9, AV_PIX_FMT_YUV422P9LE);
    (de265_chroma_422, 10, AV_PIX_FMT_YUV422P10LE);
    (de265_chroma_422, 12, AV_PIX_FMT_YUV422P12LE);
    (de265_chroma_422, 14, AV_PIX_FMT_YUV422P14LE);
    (de265_chroma_422, 16, AV_PIX_FMT_YUV422P16LE);
    (de265_chroma_444, 8, AV_PIX_FMT_YUV444P);
    (de265_chroma_444, 9, AV_PIX_FMT_YUV444P9LE);
    (de265_chroma_444, 10, AV_PIX_FMT_YUV444P10LE);
    (de265_chroma_444, 12, AV_PIX_FMT_YUV444P12LE);
    (de265_chroma_444, 14, AV_PIX_FMT_YUV444P14LE);
    (de265_chroma_444, 16, AV_PIX_FMT_YUV444P16LE) ].

(** A bit depth that is no grid point but lies between two of them, or is
    15 or 16. *)
Definition off_grid_or_top (bits_per_pixel : Z) : Prop :=
  10 < bits_per_pixel < 12 \/ 12 < bits_per_pixel < 14
  \/ bits_per_pixel = 15 \/ bits_per_pixel = 16.

(** An engine that accepts whatever it is handed and keeps the bytes of
    each submission. *)
Definition recording_engine : Engine :=
  {| decoder := list (list byte);
     de265_push_NAL := fun d buf off size _ => (d ++ [slice buf off size], 0);
     de265_push_data := fun d buf off size _ => (d ++ [slice buf off size], 0);
     de265_push_end_of_NAL := fun d => d;
     de265_push_end_of_stream := fun d => d;
     default_get_buffer := fun img _ => (img, 1) |}.

Definition empty_feed : @Feed recording_engine :=
  {| feed_decoder := ([] : @decoder recording_engine); feed_log := [] |}.

(** A codec context with no out-of-band block and no allocation hook. *)
Definition plain_avctx : AVCodecContext :=
  {| extradata := None; extradata_size := 0; reordered_opaque := 0;
     get_buffer2 := None; coded_width := 0; coded_height := 0;
     pix_fmt := AV_PIX_FMT_NONE; avctx_width := 0; avctx_height := 0 |}.

Definition with_extradata (block : list byte) (a : AVCodecContext)
    : AVCodecContext :=
  {| extradata := Some block; extradata_size := Z.of_nat (length block);
     reordered_opaque := reordered_opaque a; get_buffer2 := get_buffer2 a;
     coded_width := coded_width a; coded_height := coded_height a;
     pix_fmt := pix_fmt a; avctx_width := avctx_width a;
     avctx_height := avctx_height a |}.

Definition packet_of (bytes : list byte) (pts : Z) : AVPacket :=
  {| avpkt_data := bytes; avpkt_size := Z.of_nat (length bytes);
     avpkt_pts := pts |}.

(** A packet of five bytes whose length field declares five payload bytes
    where one is left. *)
Definition truncated_packet : AVPacket :=
  packet_of [x00; x00; x00; x05; xaa] 0.

(** The payload a logged NAL submission carries when it lies inside the
    buffer it points into. *)
Definition nal_payload (buf : list byte) (s : submission)
    : option (list byte) :=
  match s with
  | PushNAL off size _ =>
      if in_bounds (Z.of_nat (length buf)) off size
      then Some (slice buf off size)
      else None
  | _ => None
  end.

(** The big-endian bytes of a value in a field of [count] bytes. *)
Fixpoint be_bytes (count : nat) (v : Z) : list byte :=
  match count with
  | O => []
  | S count' =>
      byte_of_Z (Z.shiftr v (8 * Z.of_nat count')) :: be_bytes count' v
  end.

(** A well-formed length-prefixed packet: each record is the big-endian
    length of its payload in [length_size] bytes, then the payload. *)
Definition length_prefixed (length_size : Z) (records : list (list byte))
    : list byte :=
  flat_map
    (fun payload =>
       be_bytes (Z.to_nat length_size) (Z.of_nat (length payload)) ++ payload)
    records.

Section Reachability.

Context {E : Engine}.

(** The contexts a stream can be in: the one [ff_libde265dec_ctx_init]
    leaves, and those left by the input stage of a decode call. *)
Inductive reachable (avctx : AVCodecContext) : DE265Context -> Prop :=
| reachable_init : reachable avctx ff_libde265dec_ctx_init
| reachable_decode :
    forall ctx fuel avpkt fd ctx' fd' r,
      reachable avctx ctx ->
      decode_input fuel avctx ctx avpkt fd = Some (ctx', fd', r) ->
      reachable avctx ctx'.

End Reachability.

(** A two-byte big-endian number. *)
Definition be16 (hi lo : byte) : Z := u8 hi * 256 + u8 lo.

(** The configuration record as the specification words it, read off the
    bytes that remain: [count] NAL units, each a 2-byte big-endian size and
    then exactly that many payload bytes.  The units and the bytes after
    them, or [None] when a size would read past the end. *)
Fixpoint record_nals (count : nat) (rest : list byte)
    : option (list (list byte) * list byte) :=
  match count with
  | O => Some ([], rest)
  | S count' =>
      match rest with
      | hi :: lo :: tl =>
          let size := Z.to_nat (be16 hi lo) in
          if (size <=? length tl)%nat then
            match record_nals count' (skipn size tl) with
            | Some (units, rest') => Some (firstn size tl :: units, rest')
            | None => None
            end
          else None
      | _ => None
      end
  end.

(** [count] parameter-set groups: 1 ignored byte, a 2-byte big-endian NAL
    count, then the units of the group. *)
Fixpoint record_groups (count : nat) (rest : list byte)
    : option (list (list byte)) :=
  match count with
  | O => Some []
  | S count' =>
      match rest with
      | _ :: hi :: lo :: tl =>
          match record_nals (Z.to_nat (be16 hi lo)) tl with
          | Some (units, rest') =>
              match record_groups count' rest' with
              | Some more => Some (units ++ more)
              | None => None
              end
          | None => None
          end
      | _ => None
      end
  end.

(** A configuration record of 22 bytes: version 1, then zeroes.  Its
    twenty-second byte is there and is zero; it has no twenty-third byte. *)
Definition short_record : list byte := x01 :: repeat x00 21.

(** A configuration record with a 4-byte length field (low bits 3 at
    offset 21) and one parameter-set group holding one NAL unit of two
    bytes. *)
Definition sample_record : list byte :=
  x01 :: repeat x00 20
  ++ [x03; x01; x20; x00; x01; x00; x02; xaa; xbb].

(** The products and sums of the crop offset of one plane stay inside
    [int]. *)
Definition crop_fits (spec : de265_image_spec) (linesize shift : Z) : Prop :=
  CInt.in_int (Z.shiftr (crop_top spec) shift * linesize)
  /\ CInt.in_int (Z.shiftr (crop_left spec) shift
                  + Z.shiftr (crop_top spec) shift * linesize).

(** A 4:4:4 picture of 64x32 samples of which 60x30 are visible, cropped by
    4 columns on the left and 2 lines at the top. *)
Definition cropped_spec_444 : de265_image_spec :=
  {| spec_chroma := de265_chroma_444; spec_width := 64; spec_height := 32;
     spec_alignment := 16; crop_left := 4; crop_top := 2;
     visible_width := 60; visible_height := 30;
     luma_bits_per_pixel := 8; chroma_bits_per_pixel := 8 |}.

(** A bridged frame for it: three planes of 64 bytes a line, with the
    descriptor attached. *)
Definition bridged_frame_444 : AVFrame :=
  {| frame_width := 64; frame_height := 32;
     frame_format := AV_PIX_FMT_YUV444P;
     frame_data := fun i => 4096 * (1 + Z.of_nat i);
     frame_linesize := fun _ => 64;
     frame_opaque := Some cropped_spec_444 |}.

(** The calls that touch the recycling pools: the allocate callback, the
    release callback, and the retrieval of a bridged picture, which
    recycles the descriptor. *)
Inductive pool_op : Type :=
| OpGetBuffer (host : Host) (avctx : AVCodecContext)
    (img : de265_image_intern) (spec : de265_image_spec)
| OpReleaseBuffer (avctx : AVCodecContext) (img : de265_image_intern)
| OpRetrieve (chroma : de265_chroma) (picture frame : AVFrame).

Definition run_pool_op {E : Engine} (ctx : DE265Context) (op : pool_op)
    : DE265Context :=
  match op with
  | OpGetBuffer host avctx img spec =>
      as_dectx
        (alloc_state (ff_libde265dec_get_buffer host avctx ctx img spec))
  | OpReleaseBuffer avctx img =>
      fst (ff_libde265dec_release_buffer avctx ctx img)
  | OpRetrieve chroma picture frame =>
      let '(ctx', _, _, _) := retrieve_bridged ctx chroma picture frame in
      ctx'
  end.

Definition run_pool_ops {E : Engine} (ctx : DE265Context)
    (ops : list pool_op) : DE265Context :=
  fold_left run_pool_op ops ctx.

(** Both pools are within their capacity. *)
Definition pools_bounded (ctx : DE265Context) : Prop :=
  frame_queue_len ctx <= MAX_FRAME_QUEUE
  /\ spec_queue_len ctx <= MAX_SPEC_QUEUE.

(** Neither pool of [c1] is longer than that of [c2]. *)
Definition pools_le (c1 c2 : DE265Context) : Prop :=
  frame_queue_len c1 <= frame_queue_len c2
  /\ spec_queue_len c1 <= spec_queue_len c2.

(** The frame size differs from the visible size of the spec (line 286). *)
Definition needs_crop (spec : de265_image_spec) (frame : AVFrame) : bool :=
  negb (frame_width frame =? visible_width spec)
  || negb (frame_height frame =? visible_height spec).

(** The conditions on which the allocate callback gives up the bridge, each
    with the path that leads to it. *)
Inductive rejection (host : Host) (spec : de265_image_spec)
    (s : AllocState) : Prop :=
| rej_depth_mismatch :
    is_mono (spec_chroma spec) = false ->
    luma_bits_per_pixel spec <> chroma_bits_per_pixel spec ->
    rejection host spec s
| rej_unsupported_format :
    get_pixel_format (spec_chroma spec) (luma_bits_per_pixel spec)
    = AV_PIX_FMT_NONE ->
    rejection host spec s
| rej_nominal_depth :
    get_output_bits_per_pixel
      (get_pixel_format (spec_chroma spec) (luma_bits_per_pixel spec))
    <> luma_bits_per_pixel spec ->
    rejection host spec s
| rej_hook_frame_alloc :
    forall hook,
      get_buffer2 (as_avctx s) = Some hook ->
      host_frame_alloc host = false ->
      rejection host spec s
| rej_hook_fails :
    forall hook format,
      negotiate_format spec = Some format ->
      get_buffer2 (as_avctx s) = Some hook ->
      fst (hook (set_frame_dims (visible_width spec) (visible_height spec)
                   format blank_frame)) < 0 ->
      rejection host spec s
| rej_pool_frame_alloc :
    forall format s',
      negotiate_format spec = Some format ->
      get_buffer2 (as_avctx s) = None ->
      frame_from_pool host spec format s = (s', None) ->
      host_frame_alloc host = false ->
      rejection host spec s
| rej_pool_get_buffer :
    forall format s',
      negotiate_format spec = Some format ->
      get_buffer2 (as_avctx s) = None ->
      frame_from_pool host spec format s = (s', None) ->
      fst (host_frame_get_buffer host
             (set_frame_dims (spec_width spec) (spec_height spec) format
                blank_frame)
             (spec_alignment spec)) <> 0 ->
      rejection host spec s
| rej_spec_malloc :
    forall format s' frame,
      negotiate_format spec = Some format ->
      obtain_frame host spec format s = (s', Some frame) ->
      needs_crop spec frame = true ->
      spec_queue (as_dectx s') = [] ->
      host_malloc host = false ->
      rejection host spec s
| rej_misaligned :
    forall format s' frame s'' frame' i,
      negotiate_format spec = Some format ->
      obtain_frame host spec format s = (s', Some frame) ->
      attach_spec host spec frame s' = (s'', Some frame') ->
      (i < numplanes_of (spec_chroma spec))%nat ->
      frame_data frame' i mod spec_alignment spec <> 0 ->
      rejection host spec s.

(** A host whose allocations succeed and whose buffers start at the given
    plane addresses. *)
Definition host_with_planes (data : nat -> Z) : Host :=
  {| host_frame_alloc := true;
     host_frame_get_buffer :=
       fun frame _ => (0, set_frame_data data frame);
     host_make_writable := fun frame => frame;
     host_malloc := true |}.

Definition empty_image : de265_image_intern := fun _ => None.

(** An 8-bit 4:2:0 spec of 64x32 samples, all visible, aligned to 16. *)
Definition plain_spec_420 : de265_image_spec :=
  {| spec_chroma := de265_chroma_420; spec_width := 64; spec_height := 32;
     spec_alignment := 16; crop_left := 0; crop_top := 0;
     visible_width := 64; visible_height := 32;
     luma_bits_per_pixel := 8; chroma_bits_per_pixel := 8 |}.

(** Sixteen retrievals of a bridged picture with a descriptor: each recycles
    one descriptor, which fills the descriptor pool. *)
Definition fill_spec_pool : list pool_op :=
  repeat (OpRetrieve de265_chroma_444 blank_frame bridged_frame_444) 16.

(** A source memory holding the 16-bit sample [0x0123] at address 1000
    (little-endian) and the byte [0x05] at address 1100. *)
Definition sample_memory : mem :=
  fun a =>
    if a =? 1000 then x23
    else if a =? 1001 then x01
    else if a =? 1100 then x05
    else x00.

Definition blank_memory : mem := fun _ => x00.

(** One line of two 10-bit samples at address 1000, 4 bytes a line. *)
Definition ten_bit_plane : source_plane :=
  {| src_ptr := 1000; src_stride := 4; plane_width := 2; plane_height := 1;
     plane_bits_per_pixel := 10 |}.

(** A monochrome 10-bit picture: its one plane is [ten_bit_plane]. *)
Definition mono_10bit_image : nat -> source_plane :=
  fun _ => ten_bit_plane.

(** A picture whose second and third planes have 7 bits under an 8-bit
    first plane, with strides that differ. *)
Definition odd_depth_image : nat -> source_plane :=
  fun i =>
    match i with
    | O => {| src_ptr := 1000; src_stride := 8; plane_width := 2;
              plane_height := 1; plane_bits_per_pixel := 8 |}
    | S _ => {| src_ptr := 1100; src_stride := 4; plane_width := 1;
                plane_height := 1; plane_bits_per_pixel := 7 |}
    end.

(** An outgoing frame with its planes at 2000, 3000, 4000 and 8 bytes a
    line. *)
Definition out_frame (format : AVPixelFormat) : AVFrame :=
  {| frame_width := 2; frame_height := 1; frame_format := format;
     frame_data := fun i => 2000 + 1000 * Z.of_nat i;
     frame_linesize := fun _ => 8;
     frame_opaque := None |}.

(** ** Closing the context *)

(** One [while] loop of [ff_libde265dec_free] (lines 647-654): as long as
    the queue has live entries, the last one is taken off and freed.  The
    loop runs once per live entry, which [count] bounds. *)
Fixpoint free_queue_loop {A : Type} (free : A -> pool_event) (count : nat)
    (queue : list A) : list A * list pool_event :=
  match count with
  | O => (queue, [])
  | S count' =>
      match rev queue with
      | [] => (queue, [])
      | entry :: _ =>
          let (queue', ev) :=
            free_queue_loop free count' (removelast queue) in
          (queue', free entry :: ev)
      end
  end.

(** [ff_libde265dec_free], the part that drains the two pools. *)
Definition ff_libde265dec_free (ctx : DE265Context)
    : DE265Context * list pool_event :=
  let (frames, ev1) :=
    free_queue_loop EvFrameFree (length (frame_queue ctx))
      (frame_queue ctx) in
  let ctx := set_frame_queue frames ctx in
  let (specs, ev2) :=
    free_queue_loop EvSpecFree (length (spec_queue ctx)) (spec_queue ctx) in
  (set_spec_queue specs ctx, ev1 ++ ev2).

(** The call carries a codec context with an allocation hook. *)
Definition op_uses_hook (op : pool_op) : bool :=
  match op with
  | OpGetBuffer _ avctx _ _ | OpReleaseBuffer avctx _ =>
      match get_buffer2 avctx with
      | Some _ => true
      | None => false
      end
  | OpRetrieve _ _ _ => true
  end.

(** A host whose [av_frame_get_buffer] and [av_frame_make_writable] leave
    the width, height and format of a frame as they are, as libavutil's
    do. *)
Definition host_keeps_size (host : Host) : Prop :=
  (forall frame,
      frame_width (host_make_writable host frame) = frame_width frame
      /\ frame_height (host_make_writable host frame) = frame_height frame)
  /\ (forall frame align,
         frame_width (snd (host_frame_get_buffer host frame align))
         = frame_width frame
         /\ frame_height (snd (host_frame_get_buffer host frame align))
            = frame_height frame).

(** ** Decoder settings *)

(** [AVDISCARD_NONREF] of libavcodec's [enum AVDiscard]. *)
Definition AVDISCARD_NONREF : Z := 8.

(** The argument of [de265_allow_inexact_decoding]: the two flags
    [de265_inexact_decoding_no_SAO | de265_inexact_decoding_no_deblocking],
    or [de265_inexact_decoding_mask_none]. *)
Inductive inexact_flags : Type :=
| inexact_no_SAO_no_deblocking
| inexact_mask_none.

(** The settings calls the bridge makes on the engine. *)
Inductive engine_setting : Type :=
| AllowInexactDecoding (flags : inexact_flags)
| SetFramerateRatio (ratio : Z).

Definition set_deblocking (v : Z) (ctx : DE265Context) : DE265Context :=
  {| check_extra := check_extra ctx; packetized := packetized ctx;
     length_size := length_size ctx; deblocking := v;
     decode_ratio := decode_ratio ctx; frame_queue := frame_queue ctx;
     spec_queue := spec_queue ctx |}.

Definition set_decode_ratio (v : Z) (ctx : DE265Context) : DE265Context :=
  {| check_extra := check_extra ctx; packetized := packetized ctx;
     length_size := length_size ctx; deblocking := deblocking ctx;
     decode_ratio := v; frame_queue := frame_queue ctx;
     spec_queue := spec_queue ctx |}.

(** [ff_libde265dec_enable_inexact_decoding]: the call it makes. *)
Definition ff_libde265dec_enable_inexact_decoding (ctx : DE265Context)
    : engine_setting :=
  if negb (deblocking ctx =? 0)
  then AllowInexactDecoding inexact_no_SAO_no_deblocking
  else AllowInexactDecoding inexact_mask_none.

(** Lines 469-480 of [ff_libde265dec_decode]: the loop-filter and frame
    skipping wishes of the codec context are compared with the context's
    and passed on when they differ. *)
Definition update_settings (skip_loop_filter skip_frame : Z)
    (ctx : DE265Context) : DE265Context * list engine_setting :=
  let deblocking_now :=
    if skip_loop_filter <? AVDISCARD_NONREF then 1 else 0 in
  let (ctx, calls1) :=
    if negb (deblocking_now =? deblocking ctx)
    then
      let ctx := set_deblocking deblocking_now ctx in
      (ctx, [ff_libde265dec_enable_inexact_decoding ctx])
    else (ctx, []) in
  let decode_ratio_now :=
    if skip_frame <? AVDISCARD_NONREF then 100 else 25 in
  let (ctx, calls2) :=
    if negb (decode_ratio_now =? decode_ratio ctx)
    then (set_decode_ratio decode_ratio_now ctx,
          [SetFramerateRatio decode_ratio_now])
    else (ctx, []) in
  (ctx, calls1 ++ calls2).

(** ** Context set-up and the codec registry *)

(** Lines 692-696 of [ff_libde265dec_ctx_init], from the value of
    [av_cpu_count ()]: the frames to decode in parallel. *)
Definition frames_in_parallel (cpu_count : Z) : Z :=
  let n := CInt.div cpu_count 2 in
  let n := if n <=? 1 then 2 else n in
  if n =? 4 then 5 else n.

(** ... and the number of worker threads. *)
Definition worker_threads (cpu_count : Z) : Z :=
  CInt.mul (frames_in_parallel cpu_count) 5.

(** The fields of [AVCodec] that [ff_libde265dec_unregister_codecs] reads;
    the registry is the list of the codecs in the order of their [next]
    links. *)
Record AVCodec : Type := {
  codec_id : Z;
  codec_name : list byte
}.

(** The loop of [ff_libde265dec_unregister_codecs] from a codec on, with
    [prev] the last codec still linked before it ([NULL] at the start).  A
    codec with the id is unlinked by [prev->next = next] when there is a
    [prev]; the result is the chain of codecs left linked. *)
Fixpoint unregister_loop (id : Z) (prev : option AVCodec)
    (codecs : list AVCodec) : list AVCodec :=
  match codecs with
  | [] => []
  | codec :: next =>
      if codec_id codec =? id then
        match prev with
        | Some _ => unregister_loop id prev next
        | None => codec :: unregister_loop id (Some codec) next
        end
      else codec :: unregister_loop id (Some codec) next
  end.

Definition ff_libde265dec_unregister_codecs (id : Z)
    (codecs : list AVCodec) : list AVCodec :=
  unregister_loop id None codecs.

(** ** Further concrete instances *)

(** A configuration record of 23 bytes that announces one parameter-set
    group and ends there. *)
Definition truncated_record : list byte :=
  x01 :: repeat x00 20 ++ [x03; x01].

(** A raw byte-stream block: a 4-byte start code and one byte. *)
Definition start_code_block : list byte := [x00; x00; x00; x01; x40].

(** A codec context whose allocation hook accepts every frame as it is. *)
Definition hook_avctx : AVCodecContext :=
  {| extradata := None; extradata_size := 0; reordered_opaque := 0;
     get_buffer2 := Some (fun frame => (0, frame)); coded_width := 0;
     coded_height := 0; pix_fmt := AV_PIX_FMT_NONE; avctx_width := 0;
     avctx_height := 0 |}.

(** An engine image whose first plane is registered with a frame. *)
Definition image_of_frame (frame : AVFrame) : de265_image_intern :=
  de265_set_image_plane_intern empty_image 0 (frame_data frame 0%nat)
    (frame_linesize frame 0%nat) frame.

(** An 8-bit 4:2:0 frame of 64x32 samples without buffers. *)
Definition pooled_frame_420 : AVFrame :=
  set_frame_dims 64 32 AV_PIX_FMT_YUV420P blank_frame.

(** The allocation state of a context without hook. *)
Definition plain_state (ctx : DE265Context) : AllocState :=
  {| as_avctx := plain_avctx; as_dectx := ctx; as_img := empty_image;
     as_events := [] |}.

(** A context whose descriptor pool holds one descriptor. *)
Definition one_descriptor_ctx : DE265Context :=
  set_spec_queue [plain_spec_420] ff_libde265dec_ctx_init.

(** One line of 8-bit samples with 8 bytes a line at address 1100. *)
Definition wide_stride_plane : source_plane :=
  {| src_ptr := 1100; src_stride := 8; plane_width := 4; plane_height := 1;
     plane_bits_per_pixel := 8 |}.

(** An engine that refuses every chunk of a raw byte stream and accepts
    everything else. *)
Definition refusing_engine : Engine :=
  {| decoder := list (list byte);
     de265_push_NAL := fun d buf off size _ => (d ++ [slice buf off size], 0);
     de265_push_data := fun d _ _ _ _ => (d, 7);
     de265_push_end_of_NAL := fun d => d;
     de265_push_end_of_stream := fun d => d;
     default_get_buffer := fun img _ => (img, 1) |}.

(** ** Measures for the further properties *)

(** A submission stays inside a buffer of [size] bytes; the two end marks
    carry no bytes. *)
Definition inside (size : Z) (s : submission) : bool :=
  match s with
  | PushNAL off len _ | PushData off len _ => in_bounds size off len
  | EndOfNAL | EndOfStream => true
  end.

(** The frames a trace of allocator events leaves alive: one more for each
    [av_frame_alloc], one less for each [av_frame_free]. *)
Fixpoint frame_balance (ev : list pool_event) : Z :=
  match ev with
  | [] => 0
  | EvFrameAlloc :: rest => frame_balance rest + 1
  | EvFrameFree _ :: rest => frame_balance rest - 1
  | _ :: rest => frame_balance rest
  end.

(** The frames alive outside the pool, against the start of the trace: the
    balance of the events less the frames waiting in the pool. *)
Definition frames_out (ev : list pool_event) (ctx : DE265Context) : Z :=
  frame_balance ev - frame_queue_len ctx.

Definition frames_held (s : AllocState) : Z :=
  frames_out (as_events s) (as_dectx s).

(** One for a pointer that is set, zero for [NULL]. *)
Definition kept {A : Type} (r : option A) : Z :=
  match r with Some _ => 1 | None => 0 end.

(** ** Properties of the PixelFormatResolver *)

(** C7: at each exact grid point (monochrome at 8; 4:2:0, 4:2:2 and 4:4:4 at
    8, 9, 10, 12, 14 and 16) the resolver returns the format of the table
    [grid_points], and the nominal bit depth of that format is the input bit
    depth. *)
Theorem resolver_grid_round_trip :
  Forall (fun '(chroma, bits_per_pixel, format) =>
            get_pixel_format chroma bits_per_pixel = format
            /\ get_output_bits_per_pixel
                 (get_pixel_format chroma bits_per_pixel) = bits_per_pixel)
         grid_points.
Proof.
  unfold grid_points.
  repeat (apply Forall_cons; [ split; reflexivity | ]).
  apply Forall_nil.
Qed.

Lemma switch_bits_per_pixel_out_of_range :
  forall f8 f9 f10 f12 f14 f16 b,
    b < 8 \/ b > 16 ->
    switch_bits_per_pixel f8 f9 f10 f12 f14 f16 b = AV_PIX_FMT_NONE.
Proof.
  intros f8 f9 f10 f12 f14 f16 b Hb. unfold switch_bits_per_pixel.
  repeat match goal with
         | |- context [?x =? ?y] =>
             destruct (Z.eqb_spec x y); [ exfalso; lia | ]
         end.
  destruct (Z.ltb_spec b 8); [ reflexivity | ].
  destruct (Z.gtb_spec b 16); [ reflexivity | exfalso; lia ].
Qed.

Lemma switch_bits_per_pixel_off_grid :
  forall f8 f9 f10 f12 f14 f16 b,
    off_grid_or_top b ->
    switch_bits_per_pixel f8 f9 f10 f12 f14 f16 b = f16.
Proof.
  intros f8 f9 f10 f12 f14 f16 b Hb. unfold off_grid_or_top in Hb.
  unfold switch_bits_per_pixel.
  repeat match goal with
         | |- context [?x =? ?y] =>
             destruct (Z.eqb_spec x y); [ try reflexivity; exfalso; lia | ]
         end.
  destruct (Z.ltb_spec b 8); [ exfalso; lia | ].
  destruct (Z.gtb_spec b 16); [ exfalso; lia | reflexivity ].
Qed.

(** C3, as amended: for every colour layout (4:2:0, 4:2:2, 4:4:4) the
    resolver returns [AV_PIX_FMT_NONE] when the bit depth is below 8 or
    above 16, and the layout's 16-bit format when the bit depth lies strictly
    between grid points or is 15 or 16; for the monochrome layout it returns
    [AV_PIX_FMT_GRAY8] at every bit depth. *)
Theorem resolver_range_colour_layouts :
  forall chroma bits_per_pixel,
    is_colour_layout chroma = true ->
    (bits_per_pixel < 8 \/ bits_per_pixel > 16 ->
     get_pixel_format chroma bits_per_pixel = AV_PIX_FMT_NONE)
    /\ (off_grid_or_top bits_per_pixel ->
        get_pixel_format chroma bits_per_pixel = format_16bit chroma)
    /\ get_pixel_format de265_chroma_mono bits_per_pixel = AV_PIX_FMT_GRAY8.
Proof.
  intros chroma b Hc. repeat split.
  - intro Hb. destruct chroma; try discriminate Hc; simpl;
      apply switch_bits_per_pixel_out_of_range; exact Hb.
  - intro Hb. destruct chroma; try discriminate Hc; simpl;
      apply switch_bits_per_pixel_off_grid; exact Hb.
Qed.

Lemma resolver_range_colour_layouts_witness :
  get_pixel_format de265_chroma_422 7 = AV_PIX_FMT_NONE
  /\ get_pixel_format de265_chroma_422 13 = AV_PIX_FMT_YUV422P16LE.
Proof.
  split.
  - apply (resolver_range_colour_layouts de265_chroma_422 7 eq_refl).
    left. reflexivity.
  - apply (resolver_range_colour_layouts de265_chroma_422 13 eq_refl).
    right. left. split; reflexivity.
Defined.

(** C3 as stated fails on the monochrome layout: at 7 bits and at 11 bits
    the resolver returns [AV_PIX_FMT_GRAY8], which is neither "unsupported"
    nor a 16-bit format. *)
Lemma resolver_mono_ignores_depth :
  7 < 8
  /\ get_pixel_format de265_chroma_mono 7 <> AV_PIX_FMT_NONE
  /\ get_pixel_format de265_chroma_mono 11 = AV_PIX_FMT_GRAY8
  /\ get_output_bits_per_pixel (get_pixel_format de265_chroma_mono 11) = 8.
Proof.
  repeat split; simpl; try reflexivity; discriminate.
Qed.

(** ** Properties of the BitstreamDemuxer: packets *)

(** C1, evaluated on the code: the five-byte packet [00 00 00 05 aa]
    declares a NAL unit of five bytes where one byte is left.  The input
    stage does not return [AVERROR_INVALIDDATA]: it hands the engine the
    range of five bytes from offset 4, which ends four bytes past the
    payload, and goes on. *)
Theorem truncated_packet_is_submitted :
  option_map (fun '(_, fd, r) => (feed_log fd, r))
    (decode_input (E := recording_engine) 8 plain_avctx
       ff_libde265dec_ctx_init truncated_packet empty_feed)
  = Some ([PushNAL 4 5 0], Proceed tt)
  /\ in_bounds (avpkt_size truncated_packet) 4 5 = false
  /\ 5 > avpkt_size truncated_packet - 4.
Proof.
  repeat split.
Qed.

Section PacketProofs.

Context {E : Engine}.

Lemma check_extradata_done :
  forall avctx ctx fd,
    check_extra ctx = 0 -> check_extradata avctx ctx fd = (ctx, fd, Proceed tt).
Proof.
  intros avctx ctx fd H. unfold check_extradata. rewrite H. reflexivity.
Qed.



End PacketProofs.

(** ** Bytes, machine integers and buffers *)

Lemma u8_range : forall b, 0 <= u8 b < 256.
Proof.
  intro b. unfold u8. pose proof (Byte.to_N_bounded b). lia.
Qed.

Lemma u8_byte_of_Z : forall z, u8 (byte_of_Z z) = z mod 256.
Proof.
  intro z. unfold u8, byte_of_Z.
  assert (Hr : 0 <= z mod 256 < 256) by (apply Z.mod_pos_bound; lia).
  destruct (Byte.of_N (Z.to_N (z mod 256))) as [b | ] eqn:Hb.
  - apply Byte.to_of_N in Hb. rewrite Hb. lia.
  - apply Byte.of_N_None_iff in Hb. lia.
Qed.

(** Range goals on [int] values, once the bounds are unfolded. *)
Ltac int_range :=
  unfold CInt.in_int, CInt.INT_MIN, CInt.INT_MAX in *; lia.

Lemma to_int_id : forall x, CInt.in_int x -> CInt.to_int x = x.
Proof.
  intros x [Hl Hu]. unfold CInt.to_int, CInt.INT_MIN, CInt.INT_MAX in *.
  rewrite Z.mod_small; lia.
Qed.

Lemma land_shiftl_8_small :
  forall a b, 0 <= b < 256 -> Z.land (Z.shiftl a 8) b = 0.
Proof.
  intros a b Hb. apply Z.bits_inj'. intros n Hn.
  rewrite Z.land_spec, Z.bits_0.
  destruct (Z.ltb_spec n 8).
  - rewrite Z.shiftl_spec_low by lia. reflexivity.
  - destruct (Z.eq_dec b 0) as [-> | Hnz].
    + rewrite Z.bits_0. apply andb_false_r.
    + rewrite (Z.bits_above_log2 b n), andb_false_r; try lia.
      assert (Z.log2 b < 8) by (apply Z.log2_lt_pow2; lia). lia.
Qed.

Lemma lor_shiftl_8 :
  forall a b, 0 <= b < 256 -> Z.lor (Z.shiftl a 8) b = a * 256 + b.
Proof.
  intros a b Hb.
  rewrite <- Z.lxor_lor by (apply land_shiftl_8_small; exact Hb).
  rewrite <- Z.add_nocarry_lxor by (apply land_shiftl_8_small; exact Hb).
  rewrite Z.shiftl_mul_pow2 by lia. reflexivity.
Qed.

Lemma byte_at_app :
  forall pre b rest,
    byte_at (pre ++ b :: rest) (Z.of_nat (length pre)) = b.
Proof.
  intros pre b rest. unfold byte_at.
  destruct (Z.ltb_spec (Z.of_nat (length pre)) 0); [ lia | ].
  rewrite Nat2Z.id, app_nth2, Nat.sub_diag by lia. reflexivity.
Qed.

Lemma be_bytes_length : forall count v, length (be_bytes count v) = count.
Proof.
  induction count as [ | count IH ]; intro v; simpl;
    [ reflexivity | rewrite IH; reflexivity ].
Qed.

Lemma pow256_pos : forall n : nat, 0 < 256 ^ Z.of_nat n.
Proof. intro n. apply Z.pow_pos_nonneg; lia. Qed.

Lemma shiftr_bytes :
  forall v (c : nat), Z.shiftr v (8 * Z.of_nat c) = v / 256 ^ Z.of_nat c.
Proof.
  intros v c. rewrite Z.shiftr_div_pow2 by lia.
  rewrite Z.pow_mul_r by lia. reflexivity.
Qed.

Lemma mod_pow256_succ :
  forall v (c : nat),
    v mod 256 ^ Z.of_nat (S c)
    = (v / 256 ^ Z.of_nat c) mod 256 * 256 ^ Z.of_nat c
      + v mod 256 ^ Z.of_nat c.
Proof.
  intros v c. pose proof (pow256_pos c).
  rewrite Nat2Z.inj_succ, Z.pow_succ_r by lia.
  rewrite (Z.mul_comm 256), Z.rem_mul_r by lia. lia.
Qed.

Lemma read_nal_size_be :
  forall count pre v rest acc,
    0 <= acc ->
    acc * 256 ^ Z.of_nat count + v mod 256 ^ Z.of_nat count <= CInt.INT_MAX ->
    read_nal_size (pre ++ be_bytes count v ++ rest) count
      (Z.of_nat (length pre)) acc
    = acc * 256 ^ Z.of_nat count + v mod 256 ^ Z.of_nat count.
Proof.
  induction count as [ | count IH ]; intros pre v rest acc Ha Hmax.
  - simpl. rewrite Z.mod_1_r. lia.
  - cbn [be_bytes read_nal_size app].
    rewrite byte_at_app, u8_byte_of_Z, shiftr_bytes.
    set (b := (v / 256 ^ Z.of_nat count) mod 256).
    assert (Hb : 0 <= b < 256) by (apply Z.mod_pos_bound; lia).
    pose proof (pow256_pos count) as Hp.
    pose proof (Z.mod_pos_bound v (256 ^ Z.of_nat count) Hp) as Hm.
    rewrite mod_pow256_succ in Hmax |- *. fold b in Hmax |- *.
    rewrite Nat2Z.inj_succ, Z.pow_succ_r in Hmax |- * by lia.
    rewrite lor_shiftl_8 by exact Hb.
    rewrite to_int_id.
    2:{ unfold CInt.in_int, CInt.INT_MIN, CInt.INT_MAX in *. nia. }
    replace (pre ++ byte_of_Z (v / 256 ^ Z.of_nat count) :: be_bytes count v ++ rest)
      with ((pre ++ [byte_of_Z (v / 256 ^ Z.of_nat count)]) ++ be_bytes count v ++ rest)
      by (rewrite <- app_assoc; reflexivity).
    replace (Z.of_nat (length pre) + 1)
      with (Z.of_nat (length (pre ++ [byte_of_Z (v / 256 ^ Z.of_nat count)])))
      by (rewrite length_app; simpl; lia).
    rewrite IH by nia. lia.
Qed.


(** ** Length-prefixed packets *)

Lemma slice_app :
  forall pre mid rest,
    slice (pre ++ mid ++ rest) (Z.of_nat (length pre)) (Z.of_nat (length mid))
    = mid.
Proof.
  intros pre mid rest. unfold slice. rewrite !Nat2Z.id.
  rewrite skipn_app, skipn_all, Nat.sub_diag. simpl.
  rewrite firstn_app, firstn_all, Nat.sub_diag. simpl. apply app_nil_r.
Qed.

Section LengthPrefixed.

Context {E : Engine}.
Variable length_size : Z.
Variable avpkt : AVPacket.
Variable pts : Z.

Hypothesis width_range : 1 <= length_size <= 4.
Hypothesis size_is_length :
  avpkt_size avpkt = Z.of_nat (length (avpkt_data avpkt)).
Hypothesis size_is_int : avpkt_size avpkt <= CInt.INT_MAX.
Hypothesis engine_accepts :
  forall d off size,
    snd (de265_push_NAL d (avpkt_data avpkt) off size pts) = DE265_OK.

Lemma packet_nal_loop_records :
  forall records pre fuel fd,
    avpkt_data avpkt = pre ++ length_prefixed length_size records ->
    Forall (fun payload => Z.of_nat (length payload) < 256 ^ length_size)
           records ->
    (length records < fuel)%nat ->
    exists fd' subs,
      packet_nal_loop fuel length_size avpkt pts (Z.of_nat (length pre)) fd
      = Some (fd', Proceed (avpkt_size avpkt))
      /\ feed_log fd' = feed_log fd ++ subs
      /\ map (nal_payload (avpkt_data avpkt)) subs = map Some records.
Proof.
  induction records as [ | payload records IH ];
    intros pre fuel fd Hdata Hlen Hfuel.
  - destruct fuel as [ | fuel ]; [ simpl in Hfuel; lia | ].
    exists fd, []. simpl in Hdata. rewrite app_nil_r in Hdata.
    cbn [packet_nal_loop]. rewrite size_is_length, Hdata.
    destruct (Z.leb_spec (Z.of_nat (length pre) + length_size)
                (Z.of_nat (length pre))); [ lia | ].
    rewrite app_nil_r. repeat split.
  - destruct fuel as [ | fuel ]; [ simpl in Hfuel; lia | ].
    inversion Hlen as [ | ? ? Hp Hrest ]; subst.
    set (n := Z.of_nat (length payload)) in *.
    set (hdr := be_bytes (Z.to_nat length_size) n).
    assert (Hhdr : Z.of_nat (length hdr) = length_size)
      by (unfold hdr; rewrite be_bytes_length; lia).
    assert (Hdata' :
              avpkt_data avpkt
              = pre ++ hdr ++ payload ++ length_prefixed length_size records)
      by (rewrite Hdata; simpl; rewrite <- app_assoc; reflexivity).
    assert (Hsz :
              avpkt_size avpkt
              = Z.of_nat (length pre) + length_size + n
                + Z.of_nat (length (length_prefixed length_size records))).
    { rewrite size_is_length, Hdata', !length_app. fold n. lia. }
    cbn [packet_nal_loop].
    destruct (Z.leb_spec (Z.of_nat (length pre) + length_size)
                (avpkt_size avpkt)); [ | lia ].
    assert (Hread :
              read_nal_size (avpkt_data avpkt) (Z.to_nat length_size)
                (Z.of_nat (length pre)) 0 = n).
    { rewrite Hdata'. unfold hdr.
      rewrite read_nal_size_be; rewrite ?Z2Nat.id by lia;
        rewrite ?Z.mod_small by lia; lia. }
    rewrite Hread.
    assert (Hstep : CInt.add length_size n = length_size + n).
    { unfold CInt.add. apply to_int_id.
      unfold CInt.in_int, CInt.INT_MIN, CInt.INT_MAX in *. lia. }
    rewrite Hstep, Z.add_assoc. unfold push_NAL at 1.
    pose proof (engine_accepts (feed_decoder fd)
                  (Z.of_nat (length pre) + length_size) n) as Hok.
    destruct (de265_push_NAL (feed_decoder fd) (avpkt_data avpkt)
                (Z.of_nat (length pre) + length_size) n pts) as [d err].
    simpl in Hok. subst err. cbn [negb Z.eqb DE265_OK].
    destruct (IH (pre ++ hdr ++ payload) fuel
                {| feed_decoder := d;
                   feed_log :=
                     feed_log fd
                     ++ [PushNAL (Z.of_nat (length pre) + length_size) n pts]
                |}) as (fd' & subs & Hloop & Hlog & Hsubs).
    + rewrite Hdata', <- !app_assoc. reflexivity.
    + exact Hrest.
    + simpl in Hfuel. lia.
    + exists fd',
        (PushNAL (Z.of_nat (length pre) + length_size) n pts :: subs).
      replace (Z.of_nat (length pre) + length_size + n)
        with (Z.of_nat (length (pre ++ hdr ++ payload)))
        by (rewrite !length_app; fold n; lia).
      split; [ exact Hloop | split ].
      * rewrite Hlog. simpl. rewrite <- app_assoc. reflexivity.
      * cbn [map nal_payload]. rewrite Hsubs. f_equal.
        unfold in_bounds. rewrite <- size_is_length.
        destruct (Z.leb_spec 0 (Z.of_nat (length pre) + length_size));
          [ | lia ].
        destruct (Z.leb_spec 0 n); [ | lia ].
        destruct (Z.leb_spec (Z.of_nat (length pre) + length_size + n)
                    (avpkt_size avpkt)); [ | lia ].
        cbn [andb]. f_equal.
        replace (Z.of_nat (length pre) + length_size)
          with (Z.of_nat (length (pre ++ hdr)))
          by (rewrite length_app; lia).
        rewrite Hdata'. unfold n.
        rewrite (app_assoc pre hdr). apply slice_app.
Qed.

End LengthPrefixed.


(** ** The configuration record *)

Lemma skipn_cons_nth :
  forall (l : list byte) n b tl,
    skipn n l = b :: tl ->
    nth n l x00 = b /\ skipn (S n) l = tl /\ (n < length l)%nat.
Proof.
  induction l as [ | a l IH ]; intros n b tl H.
  - destruct n; discriminate H.
  - destruct n as [ | n ].
    + simpl in H. injection H as -> ->. repeat split. simpl. lia.
    + simpl in H. destruct (IH n b tl H) as (H1 & H2 & H3).
      repeat split; [ exact H1 | exact H2 | simpl; lia ].
Qed.

Lemma skipn_short :
  forall (l : list byte) n, skipn n l = [] -> (length l <= n)%nat.
Proof.
  intros l n H. pose proof (length_skipn n l) as Hl. rewrite H in Hl.
  simpl in Hl. lia.
Qed.

Lemma byte_at_skipn :
  forall block pos b tl,
    0 <= pos ->
    skipn (Z.to_nat pos) block = b :: tl ->
    byte_at block pos = b
    /\ skipn (Z.to_nat (pos + 1)) block = tl
    /\ pos < Z.of_nat (length block).
Proof.
  intros block pos b tl Hpos H.
  destruct (skipn_cons_nth block (Z.to_nat pos) b tl H) as (H1 & H2 & H3).
  unfold byte_at. destruct (Z.ltb_spec pos 0); [ lia | ].
  replace (Z.to_nat (pos + 1)) with (S (Z.to_nat pos)) by lia.
  repeat split; [ exact H1 | exact H2 | lia ].
Qed.

Lemma add_small :
  forall a b, 0 <= a < 2 ^ 28 -> 0 <= b < 2 ^ 17 -> CInt.add a b = a + b.
Proof.
  intros a b Ha Hb. unfold CInt.add. apply to_int_id.
  int_range.
Qed.

Lemma be16_range : forall hi lo, 0 <= be16 hi lo < 65536.
Proof.
  intros hi lo. unfold be16.
  pose proof (u8_range hi). pose proof (u8_range lo). lia.
Qed.

Lemma read_be16_skipn :
  forall block pos hi lo tl,
    0 <= pos < 2 ^ 28 ->
    skipn (Z.to_nat pos) block = hi :: lo :: tl ->
    read_be16 block pos = be16 hi lo
    /\ skipn (Z.to_nat (pos + 2)) block = tl
    /\ pos + 2 <= Z.of_nat (length block).
Proof.
  intros block pos hi lo tl Hpos H.
  destruct (byte_at_skipn block pos hi (lo :: tl)) as (H1 & H2 & H3);
    [ lia | exact H | ].
  destruct (byte_at_skipn block (pos + 1) lo tl) as (H4 & H5 & H6);
    [ lia | exact H2 | ].
  unfold read_be16, be16. rewrite add_small by lia. rewrite H1, H4.
  pose proof (u8_range hi). pose proof (u8_range lo).
  unfold CInt.shl. rewrite to_int_id.
  - rewrite lor_shiftl_8 by lia.
    replace (pos + 2) with (pos + 1 + 1) by lia.
    repeat split; [ exact H5 | lia ].
  - rewrite Z.shiftl_mul_pow2 by lia.
    int_range.
Qed.

Section ConfigurationRecord.

Context {E : Engine}.
Variable block : list byte.
Variable size : Z.

Hypothesis size_is_length : size = Z.of_nat (length block).
Hypothesis size_small : size < 2 ^ 28.

Lemma skipn_length_Z :
  forall pos,
    0 <= pos <= size ->
    Z.of_nat (length (skipn (Z.to_nat pos) block)) = size - pos.
Proof.
  intros pos Hpos. rewrite length_skipn. lia.
Qed.

(** One iteration of the NAL loop on a well-formed unit header. *)
Lemma extra_nal_step :
  forall pos hi lo tl,
    0 <= pos <= size ->
    skipn (Z.to_nat pos) block = hi :: lo :: tl ->
    (CInt.add pos 2 >? size) = false
    /\ read_be16 block pos = be16 hi lo
    /\ (CInt.add (CInt.add pos 2) (be16 hi lo) >? size)
       = negb (Z.to_nat (be16 hi lo) <=? length tl)%nat
    /\ CInt.add pos (CInt.add 2 (be16 hi lo)) = pos + 2 + be16 hi lo
    /\ skipn (Z.to_nat (be16 hi lo)) tl
       = skipn (Z.to_nat (pos + 2 + be16 hi lo)) block
    /\ firstn (Z.to_nat (be16 hi lo)) tl = slice block (pos + 2) (be16 hi lo)
    /\ Z.of_nat (length tl) = size - pos - 2.
Proof.
  intros pos hi lo tl Hpos Hskip.
  destruct (read_be16_skipn block pos hi lo tl) as (Hr & Htl & Hle);
    [ lia | exact Hskip | ].
  pose proof (be16_range hi lo) as Hn.
  pose proof (skipn_length_Z pos Hpos) as Hlen.
  rewrite Hskip in Hlen. simpl length in Hlen.
  rewrite !add_small by (rewrite ?add_small; lia).
  repeat split.
  - destruct (Z.gtb_spec (pos + 2) size); [ lia | reflexivity ].
  - exact Hr.
  - destruct (Z.gtb_spec (pos + 2 + be16 hi lo) size);
      destruct (Nat.leb_spec (Z.to_nat (be16 hi lo)) (length tl));
      try reflexivity; lia.
  - lia.
  - rewrite <- Htl, skipn_skipn. f_equal. lia.
  - unfold slice. rewrite Htl. reflexivity.
  - lia.
Qed.

Lemma extra_nal_short :
  forall pos,
    0 <= pos <= size ->
    (length (skipn (Z.to_nat pos) block) < 2)%nat ->
    (CInt.add pos 2 >? size) = true.
Proof.
  intros pos Hpos Hshort. pose proof (skipn_length_Z pos Hpos).
  rewrite add_small by lia.
  destruct (Z.gtb_spec (pos + 2) size); [ reflexivity | lia ].
Qed.

Lemma extra_nal_loop_malformed :
  forall count pos fd,
    0 <= pos <= size ->
    record_nals count (skipn (Z.to_nat pos) block) = None ->
    exists fd',
      extra_nal_loop block size count pos fd
      = (fd', Return AVERROR_INVALIDDATA).
Proof.
  induction count as [ | count IH ]; intros pos fd Hpos Hrec;
    [ discriminate Hrec | ].
  cbn [record_nals extra_nal_loop] in *.
  destruct (skipn (Z.to_nat pos) block) as [ | hi [ | lo tl ] ] eqn:Hskip.
  - rewrite extra_nal_short by (rewrite ?Hskip; simpl; lia). eauto.
  - rewrite extra_nal_short by (rewrite ?Hskip; simpl; lia). eauto.
  - destruct (extra_nal_step pos hi lo tl Hpos Hskip)
      as (H1 & H2 & H3 & H4 & H5 & H6 & H7).
    rewrite H1, H2, H3, H4.
    destruct (Nat.leb_spec (Z.to_nat (be16 hi lo)) (length tl)) as [Hfit | ];
      cbn [negb]; [ | eauto ].
    destruct (push_NAL fd block (pos + 2) (be16 hi lo) 0) as [fd1 err].
    destruct (negb (err =? 0)); [ eauto | ].
    apply IH.
    + pose proof (be16_range hi lo). lia.
    + rewrite <- H5.
      destruct (record_nals count (skipn (Z.to_nat (be16 hi lo)) tl))
        as [ [units rest'] | ]; [ discriminate Hrec | reflexivity ].
Qed.

Hypothesis engine_accepts :
  forall d off len, snd (de265_push_NAL d block off len 0) = DE265_OK.

Lemma push_NAL_accepted :
  forall fd off len,
    exists fd',
      push_NAL fd block off len 0 = (fd', 0)
      /\ feed_log fd' = feed_log fd ++ [PushNAL off len 0].
Proof.
  intros fd off len. unfold push_NAL.
  pose proof (engine_accepts (feed_decoder fd) off len) as Hok.
  destruct (de265_push_NAL (feed_decoder fd) block off len 0) as [d err].
  simpl in Hok. subst err. eexists. split; reflexivity.
Qed.

Lemma extra_nal_loop_well_formed :
  forall count pos fd units rest,
    0 <= pos <= size ->
    record_nals count (skipn (Z.to_nat pos) block) = Some (units, rest) ->
    exists pos' fd' subs,
      extra_nal_loop block size count pos fd = (fd', Proceed pos')
      /\ pos <= pos' <= size
      /\ skipn (Z.to_nat pos') block = rest
      /\ feed_log fd' = feed_log fd ++ subs
      /\ map (nal_payload block) subs = map Some units.
Proof.
  induction count as [ | count IH ]; intros pos fd units rest Hpos Hrec.
  - injection Hrec as <- <-. exists pos, fd, [].
    rewrite app_nil_r. repeat split; lia.
  - cbn [record_nals extra_nal_loop] in *.
    destruct (skipn (Z.to_nat pos) block) as [ | hi [ | lo tl ] ] eqn:Hskip;
      try discriminate Hrec.
    destruct (extra_nal_step pos hi lo tl Hpos Hskip)
      as (H1 & H2 & H3 & H4 & H5 & H6 & H7).
    rewrite H1, H2, H3, H4.
    destruct (Nat.leb_spec (Z.to_nat (be16 hi lo)) (length tl)) as [Hfit | ];
      [ | discriminate Hrec ].
    cbn [negb].
    destruct (push_NAL_accepted fd (pos + 2) (be16 hi lo))
      as (fd1 & Hpush & Hlog1).
    rewrite Hpush. cbn [negb Z.eqb].
    pose proof (be16_range hi lo) as Hn.
    destruct (record_nals count (skipn (Z.to_nat (be16 hi lo)) tl))
      as [ [units' rest'] | ] eqn:Hrest; [ | discriminate Hrec ].
    injection Hrec as <- <-. rewrite H5 in Hrest.
    destruct (IH (pos + 2 + be16 hi lo) fd1 units' rest')
      as (pos' & fd' & subs & Hloop & Hp' & Hs' & Hlog & Hsubs);
      [ lia | exact Hrest | ].
    exists pos', fd', (PushNAL (pos + 2) (be16 hi lo) 0 :: subs).
    split; [ exact Hloop | ].
    split; [ lia | ].
    split; [ exact Hs' | ].
    split.
    + rewrite Hlog, Hlog1, <- app_assoc. reflexivity.
    + cbn [map nal_payload]. rewrite Hsubs, H6. f_equal.
      unfold in_bounds. rewrite <- size_is_length.
      destruct (Z.leb_spec 0 (pos + 2)); [ | lia ].
      destruct (Z.leb_spec 0 (be16 hi lo)); [ | lia ].
      destruct (Z.leb_spec (pos + 2 + be16 hi lo) size); [ | lia ].
      reflexivity.
Qed.

End ConfigurationRecord.

Section ConfigurationGroups.

Context {E : Engine}.
Variable block : list byte.
Variable size : Z.

Hypothesis size_is_length : size = Z.of_nat (length block).
Hypothesis size_small : size < 2 ^ 28.

Lemma extra_set_step :
  forall pos x hi lo tl,
    0 <= pos <= size ->
    skipn (Z.to_nat pos) block = x :: hi :: lo :: tl ->
    (CInt.add pos 3 >? size) = false
    /\ read_be16 block (CInt.add pos 1) = be16 hi lo
    /\ CInt.add pos 3 = pos + 3
    /\ skipn (Z.to_nat (pos + 3)) block = tl
    /\ pos + 3 <= size.
Proof.
  intros pos x hi lo tl Hpos Hskip.
  destruct (byte_at_skipn block pos x (hi :: lo :: tl)) as (_ & H2 & H3);
    [ lia | exact Hskip | ].
  destruct (read_be16_skipn block (pos + 1) hi lo tl) as (Hr & Htl & Hle);
    [ lia | exact H2 | ].
  rewrite !add_small by lia.
  replace (pos + 1 + 2) with (pos + 3) in * by lia.
  assert (Hgt : (pos + 3 >? size) = false)
    by (destruct (Z.gtb_spec (pos + 3) size); [ lia | reflexivity ]).
  repeat split; try assumption; lia.
Qed.

Lemma extra_set_short :
  forall pos,
    0 <= pos <= size ->
    (length (skipn (Z.to_nat pos) block) < 3)%nat ->
    (CInt.add pos 3 >? size) = true.
Proof.
  intros pos Hpos Hshort.
  pose proof (skipn_length_Z block size size_is_length pos Hpos).
  rewrite add_small by lia.
  destruct (Z.gtb_spec (pos + 3) size); [ reflexivity | lia ].
Qed.

Lemma extra_nal_loop_cases :
  forall count pos fd units rest,
    0 <= pos <= size ->
    record_nals count (skipn (Z.to_nat pos) block) = Some (units, rest) ->
    exists fd',
      extra_nal_loop block size count pos fd
      = (fd', Return AVERROR_INVALIDDATA)
      \/ exists pos',
           extra_nal_loop block size count pos fd = (fd', Proceed pos')
           /\ pos <= pos' <= size
           /\ skipn (Z.to_nat pos') block = rest.
Proof.
  induction count as [ | count IH ]; intros pos fd units rest Hpos Hrec.
  - injection Hrec as <- <-. exists fd. right. exists pos.
    repeat split; lia.
  - cbn [record_nals extra_nal_loop] in *.
    destruct (skipn (Z.to_nat pos) block) as [ | hi [ | lo tl ] ] eqn:Hskip;
      try discriminate Hrec.
    destruct (extra_nal_step block size size_is_length size_small
                pos hi lo tl Hpos Hskip)
      as (H1 & H2 & H3 & H4 & H5 & H6 & H7).
    rewrite H1, H2, H3, H4.
    destruct (Nat.leb_spec (Z.to_nat (be16 hi lo)) (length tl)) as [Hfit | ];
      [ | discriminate Hrec ].
    cbn [negb].
    destruct (push_NAL fd block (pos + 2) (be16 hi lo) 0) as [fd1 err].
    destruct (negb (err =? 0)); [ exists fd1; left; reflexivity | ].
    pose proof (be16_range hi lo) as Hn.
    destruct (record_nals count (skipn (Z.to_nat (be16 hi lo)) tl))
      as [ [units' rest'] | ] eqn:Hrest; [ | discriminate Hrec ].
    injection Hrec as <- <-. rewrite H5 in Hrest.
    destruct (IH (pos + 2 + be16 hi lo) fd1 units' rest')
      as (fd' & [Hret | (pos' & Hloop & Hp' & Hs')]);
      [ lia | exact Hrest | | ].
    + exists fd'. left. exact Hret.
    + exists fd'. right. exists pos'. repeat split; try assumption; lia.
Qed.

Lemma extra_set_loop_malformed :
  forall count pos fd,
    0 <= pos <= size ->
    record_groups count (skipn (Z.to_nat pos) block) = None ->
    exists fd',
      extra_set_loop block size count pos fd
      = (fd', Return AVERROR_INVALIDDATA).
Proof.
  induction count as [ | count IH ]; intros pos fd Hpos Hrec;
    [ discriminate Hrec | ].
  cbn [record_groups extra_set_loop] in *.
  destruct (skipn (Z.to_nat pos) block) as [ | x [ | hi [ | lo tl ] ] ]
    eqn:Hskip;
    try (rewrite extra_set_short by (rewrite ?Hskip; simpl; lia); eauto).
  destruct (extra_set_step pos x hi lo tl Hpos Hskip)
    as (H1 & H2 & H3 & H4 & H5).
  rewrite H1, H2, H3. rewrite <- H4 in Hrec.
  destruct (record_nals (Z.to_nat (be16 hi lo))
              (skipn (Z.to_nat (pos + 3)) block))
    as [ [units rest] | ] eqn:Hnals.
  - destruct (extra_nal_loop_cases (Z.to_nat (be16 hi lo)) (pos + 3) fd
                units rest)
      as (fd' & [Hret | (pos' & Hloop & Hp' & Hs')]);
      [ lia | exact Hnals | | ].
    + rewrite Hret. eauto.
    + rewrite Hloop. apply IH; [ lia | ].
      rewrite Hs'.
      destruct (record_groups count rest);
        [ discriminate Hrec | reflexivity ].
  - destruct (extra_nal_loop_malformed block size size_is_length size_small
                (Z.to_nat (be16 hi lo)) (pos + 3) fd) as (fd' & Hloop);
      [ lia | exact Hnals | ].
    rewrite Hloop. eauto.
Qed.

Hypothesis engine_accepts :
  forall d off len, snd (de265_push_NAL d block off len 0) = DE265_OK.

Lemma extra_set_loop_well_formed :
  forall count pos fd units,
    0 <= pos <= size ->
    record_groups count (skipn (Z.to_nat pos) block) = Some units ->
    exists pos' fd' subs,
      extra_set_loop block size count pos fd = (fd', Proceed pos')
      /\ feed_log fd' = feed_log fd ++ subs
      /\ map (nal_payload block) subs = map Some units.
Proof.
  induction count as [ | count IH ]; intros pos fd units Hpos Hrec.
  - injection Hrec as <-. exists pos, fd, [].
    rewrite app_nil_r. repeat split.
  - cbn [record_groups extra_set_loop] in *.
    destruct (skipn (Z.to_nat pos) block) as [ | x [ | hi [ | lo tl ] ] ]
      eqn:Hskip; try discriminate Hrec.
    destruct (extra_set_step pos x hi lo tl Hpos Hskip)
      as (H1 & H2 & H3 & H4 & H5).
    rewrite H1, H2, H3. rewrite <- H4 in Hrec.
    destruct (record_nals (Z.to_nat (be16 hi lo))
                (skipn (Z.to_nat (pos + 3)) block))
      as [ [units1 rest] | ] eqn:Hnals; [ | discriminate Hrec ].
    destruct (extra_nal_loop_well_formed block size size_is_length size_small
                engine_accepts (Z.to_nat (be16 hi lo)) (pos + 3) fd
                units1 rest)
      as (pos1 & fd1 & subs1 & Hloop & Hp1 & Hs1 & Hlog1 & Hsubs1);
      [ lia | exact Hnals | ].
    rewrite Hloop.
    destruct (record_groups count rest) as [more | ] eqn:Hmore;
      [ | discriminate Hrec ].
    injection Hrec as <-. rewrite <- Hs1 in Hmore.
    destruct (IH pos1 fd1 more) as (pos' & fd' & subs & Hl & Hlog & Hsubs);
      [ lia | exact Hmore | ].
    exists pos', fd', (subs1 ++ subs).
    split; [ exact Hl | split ].
    + rewrite Hlog, Hlog1, <- app_assoc. reflexivity.
    + rewrite !map_app, Hsubs1, Hsubs. reflexivity.
Qed.

End ConfigurationGroups.

(** ** Properties of the BitstreamDemuxer: framing *)

(** C8: a packet that is the concatenation of N records, each the
    big-endian length of its payload in [length_size] bytes (1 to 4) followed
    by the payload, is demuxed into exactly N NAL submissions when the
    engine accepts them: the log grows by N entries, the n-th covering
    exactly the bytes of the n-th payload, and the loop ends at the end of
    the packet, where fewer than [length_size] bytes remain.  Fuel above N
    is enough. *)
Theorem length_prefixed_packet_demuxed :
  forall (E : Engine) length_size records pts fuel fd,
    1 <= length_size <= 4 ->
    Forall (fun payload => Z.of_nat (length payload) < 256 ^ length_size)
           records ->
    avpkt_size (packet_of (length_prefixed length_size records) pts)
    <= CInt.INT_MAX ->
    (forall d off size,
        snd (de265_push_NAL d (length_prefixed length_size records)
               off size pts) = DE265_OK) ->
    (length records < fuel)%nat ->
    exists fd' subs pos,
      packet_nal_loop fuel length_size
        (packet_of (length_prefixed length_size records) pts) pts 0 fd
      = Some (fd', Proceed pos)
      /\ feed_log fd' = feed_log fd ++ subs
      /\ length subs = length records
      /\ map (nal_payload (length_prefixed length_size records)) subs
         = map Some records
      /\ 0 <= avpkt_size (packet_of (length_prefixed length_size records) pts)
              - pos < length_size.
Proof.
  intros E length_size records pts fuel fd Hw Hlen Hmax Hacc Hfuel.
  set (avpkt := packet_of (length_prefixed length_size records) pts) in *.
  destruct (packet_nal_loop_records length_size avpkt pts Hw eq_refl Hmax
              Hacc records [] fuel fd eq_refl Hlen Hfuel)
    as (fd' & subs & Hloop & Hlog & Hsubs).
  exists fd', subs, (avpkt_size avpkt).
  split; [ exact Hloop | ].
  split; [ exact Hlog | ].
  split.
  - pose proof (f_equal (@length _) Hsubs) as Hn.
    rewrite !length_map in Hn. exact Hn.
  - split; [ exact Hsubs | lia ].
Qed.

Lemma length_prefixed_packet_demuxed_witness :
  exists fd' subs pos,
    packet_nal_loop (E := recording_engine) 3 4
      (packet_of (length_prefixed 4 [[xaa; xbb]; [xcc]]) 0) 0 0 empty_feed
    = Some (fd', Proceed pos)
    /\ feed_log fd' = feed_log empty_feed ++ subs
    /\ length subs = length [[xaa; xbb]; [xcc]]
    /\ map (nal_payload (length_prefixed 4 [[xaa; xbb]; [xcc]])) subs
       = map Some [[xaa; xbb]; [xcc]]
    /\ 0 <= avpkt_size (packet_of (length_prefixed 4 [[xaa; xbb]; [xcc]]) 0)
            - pos < 4.
Proof.
  apply (length_prefixed_packet_demuxed recording_engine 4
           [[xaa; xbb]; [xcc]] 0 3 empty_feed).
  - lia.
  - repeat constructor.
  - vm_compute. discriminate.
  - intros d off size. reflexivity.
  - simpl. lia.
Defined.



Lemma byte_at_nth_error :
  forall block i,
    0 <= i < Z.of_nat (length block) ->
    nth_error block (Z.to_nat i) = Some (byte_at block i).
Proof.
  intros block i Hi. unfold byte_at.
  destruct (Z.ltb_spec i 0); [ lia | ].
  apply nth_error_nth'. lia.
Qed.

(** C6, as amended: a block taken for a configuration record makes the
    context length-prefixed.  When the block is longer than 22 bytes (and
    below FFmpeg's bound of 2^28 bytes on extradata), the length-field width
    is the low two bits of the 22nd byte (offset 21) plus one, and the 23rd
    byte (offset 22) counts the parameter-set groups read from offset 23,
    each 1 ignored byte, a 2-byte big-endian NAL count and, per NAL, a 2-byte
    big-endian size with exactly that many payload bytes
    ([record_groups]); when a size or count reads past the end of the block
    the call returns [AVERROR_INVALIDDATA]; otherwise, when the engine
    accepts them, every NAL unit is submitted on its own, in order, with
    exactly its payload bytes, and the end-of-NAL marker follows.  When the
    block has 22 bytes or fewer, none of it is read: the width stays as it
    was, the end-of-NAL marker alone is submitted and the call goes on
    without an error. *)
Theorem configuration_record_parsed :
  forall (E : Engine) avctx ctx fd block,
    extradata avctx = Some block ->
    check_extra ctx <> 0 ->
    looks_packetized avctx = true ->
    exists ctx' fd' r,
      check_extradata avctx ctx fd = (ctx', fd', r)
      /\ check_extra ctx' = 0
      /\ packetized ctx' = 1
      /\ (22 < extradata_size avctx < 2 ^ 28 ->
          extradata_size avctx = Z.of_nat (length block) ->
          exists width_byte count_byte,
            nth_error block 21 = Some width_byte
            /\ nth_error block 22 = Some count_byte
            /\ length_size ctx' = Z.land (u8 width_byte) 3 + 1
            /\ match record_groups (Z.to_nat (u8 count_byte))
                       (skipn 23 block) with
               | None => r = Return AVERROR_INVALIDDATA
               | Some units =>
                   (forall d off len,
                       snd (de265_push_NAL d block off len 0) = DE265_OK) ->
                   r = Proceed tt
                   /\ exists subs,
                        feed_log fd' = feed_log fd ++ subs ++ [EndOfNAL]
                        /\ map (nal_payload block) subs = map Some units
               end)
      /\ (extradata_size avctx <= 22 ->
          length_size ctx' = length_size ctx
          /\ feed_log fd' = feed_log fd ++ [EndOfNAL]
          /\ r = Proceed tt).
Proof.
  intros E avctx ctx fd block Hblock Hce Hlooks.
  assert (Hpos : extradata_size avctx > 3).
  { unfold looks_packetized in Hlooks. rewrite Hblock in Hlooks.
    destruct (Z.gtb_spec (extradata_size avctx) 3); [ lia | ].
    discriminate Hlooks. }
  unfold check_extradata.
  destruct (Z.eqb_spec (check_extra ctx) 0) as [ | _ ]; [ contradiction | ].
  cbn [negb]. rewrite Hlooks.
  destruct (Z.gtb_spec (extradata_size avctx) 0); [ | lia ].
  destruct (Z.gtb_spec (extradata_size avctx) 22) as [Hlong | Hshort].
  - unfold extradata_bytes. rewrite Hblock.
    pose proof (u8_range (byte_at block 21)) as Hw.
    assert (Hland : 0 <= Z.land (u8 (byte_at block 21)) 3 < 4).
    { split; [ apply Z.land_nonneg; lia | ].
      replace 3 with (Z.ones 2) by reflexivity.
      rewrite Z.land_ones by lia. apply Z.mod_pos_bound. lia. }
    rewrite add_small by lia.
    destruct (extra_set_loop block (extradata_size avctx)
                (Z.to_nat (u8 (byte_at block 22))) 23 fd)
      as [fd1 r1] eqn:Hloop.
    assert (Hlongcase :
              forall fd' r,
                22 < extradata_size avctx < 2 ^ 28 ->
                extradata_size avctx = Z.of_nat (length block) ->
                (forall units subs,
                    r1 = Proceed (A := Z) units ->
                    feed_log fd1 = feed_log fd ++ subs ->
                    feed_log fd' = feed_log fd ++ subs ++ [EndOfNAL]) ->
                (forall code, r1 = Return code ->
                              r = Return code) ->
                (forall pos, r1 = Proceed pos -> r = Proceed tt) ->
                exists width_byte count_byte,
                  nth_error block 21 = Some width_byte
                  /\ nth_error block 22 = Some count_byte
                  /\ Z.land (u8 (byte_at block 21)) 3 + 1
                     = Z.land (u8 width_byte) 3 + 1
                  /\ match record_groups (Z.to_nat (u8 count_byte))
                             (skipn 23 block) with
                     | None => r = Return AVERROR_INVALIDDATA
                     | Some units =>
                         (forall d off len,
                             snd (de265_push_NAL d block off len 0)
                             = DE265_OK) ->
                         r = Proceed tt
                         /\ exists subs,
                              feed_log fd'
                              = feed_log fd ++ subs ++ [EndOfNAL]
                              /\ map (nal_payload block) subs
                                 = map Some units
                     end).
    { intros fd' r Hrange Hsize Hlog' Hret Hgo.
      exists (byte_at block 21), (byte_at block 22).
      split; [ apply (byte_at_nth_error block 21); lia | ].
      split; [ apply (byte_at_nth_error block 22); lia | ].
      split; [ reflexivity | ].
      destruct (record_groups (Z.to_nat (u8 (byte_at block 22)))
                  (skipn 23 block)) as [units | ] eqn:Hrec.
      - intro Hacc.
        destruct (extra_set_loop_well_formed block (extradata_size avctx)
                    Hsize (proj2 Hrange) Hacc
                    (Z.to_nat (u8 (byte_at block 22))) 23 fd units)
          as (pos1 & fd2 & subs & Hl & Hlog & Hsubs);
          [ lia | exact Hrec | ].
        rewrite Hloop in Hl. injection Hl as <- ->.
        split; [ apply (Hgo pos1 eq_refl) | ].
        exists subs. split; [ | exact Hsubs ].
        apply (Hlog' pos1 subs eq_refl Hlog).
      - destruct (extra_set_loop_malformed block (extradata_size avctx)
                    Hsize (proj2 Hrange)
                    (Z.to_nat (u8 (byte_at block 22))) 23 fd)
          as (fd2 & Hl); [ lia | exact Hrec | ].
        rewrite Hloop in Hl. injection Hl as <- ->.
        apply Hret. reflexivity. }
    destruct r1 as [code | pos'];
      eexists _, _, _; (split; [ reflexivity | ]);
      cbn [check_extra packetized length_size set_framing];
      (split; [ reflexivity | split; [ reflexivity | ] ]);
      (split; [ | intro; lia ]);
      intros Hrange Hsize;
      apply (Hlongcase _ _ Hrange Hsize).
    + intros units subs Hr. discriminate Hr.
    + intros code' Hr. injection Hr as <-. reflexivity.
    + intros pos Hr. discriminate Hr.
    + intros units subs _ Hlog. unfold push_end_of_NAL. cbn [feed_log].
      rewrite Hlog, <- app_assoc. reflexivity.
    + intros code' Hr. discriminate Hr.
    + intros pos _. reflexivity.
  - eexists _, _, _. split; [ reflexivity | ].
    cbn [check_extra packetized length_size set_framing].
    split; [ reflexivity | split; [ reflexivity | ] ].
    split; [ intro; lia | ].
    intros _. repeat split.
Qed.

Lemma configuration_record_parsed_witness :
  (exists ctx' fd' r width_byte count_byte,
      check_extradata (E := recording_engine)
        (with_extradata sample_record plain_avctx) ff_libde265dec_ctx_init
        empty_feed = (ctx', fd', r)
      /\ packetized ctx' = 1
      /\ nth_error sample_record 21 = Some width_byte
      /\ nth_error sample_record 22 = Some count_byte
      /\ length_size ctx' = Z.land (u8 width_byte) 3 + 1
      /\ match record_groups (Z.to_nat (u8 count_byte))
                 (skipn 23 sample_record) with
         | None => r = Return AVERROR_INVALIDDATA
         | Some units =>
             (forall d off len,
                 snd (de265_push_NAL (Engine := recording_engine) d
                        sample_record off len 0) = DE265_OK) ->
             r = Proceed tt
             /\ exists subs,
                  feed_log fd' = feed_log empty_feed ++ subs ++ [EndOfNAL]
                  /\ map (nal_payload sample_record) subs = map Some units
         end)
  /\ (exists ctx' fd' r,
         check_extradata (E := recording_engine)
           (with_extradata short_record plain_avctx) ff_libde265dec_ctx_init
           empty_feed = (ctx', fd', r)
         /\ packetized ctx' = 1
         /\ length_size ctx' = length_size ff_libde265dec_ctx_init
         /\ feed_log fd' = feed_log empty_feed ++ [EndOfNAL]
         /\ r = Proceed tt).
Proof.
  split.
  - destruct (configuration_record_parsed recording_engine
                (with_extradata sample_record plain_avctx)
                ff_libde265dec_ctx_init empty_feed sample_record)
      as (ctx' & fd' & r & Hx & _ & Hp & Hlong & _).
    + reflexivity.
    + discriminate.
    + reflexivity.
    + destruct Hlong as (wb & cb & Hw & Hc & Hl & Hm).
      * split; reflexivity.
      * reflexivity.
      * exists ctx', fd', r, wb, cb. repeat split; assumption.
  - destruct (configuration_record_parsed recording_engine
                (with_extradata short_record plain_avctx)
                ff_libde265dec_ctx_init empty_feed short_record)
      as (ctx' & fd' & r & Hx & _ & Hp & _ & Hshort).
    + reflexivity.
    + discriminate.
    + reflexivity.
    + destruct Hshort as (Hl & Hlog & Hr).
      * simpl. lia.
      * exists ctx', fd', r. repeat split; assumption.
Defined.

(** C6 as stated fails on a block taken for a configuration record that is
    no longer than 22 bytes.  [short_record] has 22 bytes; its 22nd byte is
    zero, which would give a length field of 1 byte, and it has no 23rd
    byte for the group count.  The code reads neither: the width stays at
    the 4 bytes of [ff_libde265dec_ctx_init], nothing is submitted, and no
    error is returned. *)
Lemma short_record_not_parsed :
  looks_packetized (with_extradata short_record plain_avctx) = true
  /\ nth_error short_record 21 = Some x00
  /\ Z.land (u8 x00) 3 + 1 = 1
  /\ nth_error short_record 22 = None
  /\ (let '(ctx', fd', r) :=
        check_extradata (E := recording_engine)
          (with_extradata short_record plain_avctx) ff_libde265dec_ctx_init
          empty_feed in
      (packetized ctx', length_size ctx', feed_log fd', r))
     = (1, 4, [EndOfNAL], Proceed tt).
Proof.
  repeat split.
Qed.

(** ** Properties of the FrameAssembler: deferred cropping *)

Lemma crop_offset_exact :
  forall spec linesize i,
    crop_fits spec linesize (if Nat.eqb i 0 then 0 else 1) ->
    crop_offset spec linesize i
    = Z.shiftr (crop_left spec) (if Nat.eqb i 0 then 0 else 1)
      + Z.shiftr (crop_top spec) (if Nat.eqb i 0 then 0 else 1) * linesize.
Proof.
  intros spec linesize i [Hmul Hadd]. unfold crop_offset, CInt.add, CInt.mul,
    CInt.shr.
  rewrite (to_int_id _ Hmul). apply to_int_id. exact Hadd.
Qed.

(** X28: what the deferred crop does.  A bridged picture that carries a
    descriptor gets the descriptor's visible width and height; its first
    plane pointer moves by [crop_left + crop_top * linesize[0]]; for every
    layout with three planes, 4:4:4 as much as 4:2:0 and 4:2:2, the second
    and third plane pointers move by
    [(crop_left >> 1) + (crop_top >> 1) * linesize[i]]; for monochrome they
    do not move.  The descriptor is detached and recycled by [free_spec].
    (The offsets are taken where the [int] arithmetic does not
    overflow.) *)
Theorem bridged_picture_cropped :
  forall ctx chroma picture frame spec,
    frame_opaque frame = Some spec ->
    crop_fits spec (frame_linesize frame 0%nat) 0 ->
    crop_fits spec (frame_linesize frame 1%nat) 1 ->
    crop_fits spec (frame_linesize frame 2%nat) 1 ->
    exists ctx' picture' frame' ev,
      retrieve_bridged ctx chroma picture frame
      = (ctx', picture', frame', ev)
      /\ frame_width picture' = visible_width spec
      /\ frame_height picture' = visible_height spec
      /\ frame_data picture' 0%nat
         = frame_data frame 0%nat
           + (crop_left spec + crop_top spec * frame_linesize frame 0%nat)
      /\ (forall i,
             (i = 1 \/ i = 2)%nat ->
             frame_data picture' i
             = if is_mono chroma then frame_data frame i
               else frame_data frame i
                    + (Z.shiftr (crop_left spec) 1
                       + Z.shiftr (crop_top spec) 1 * frame_linesize frame i))
      /\ frame_opaque frame' = None
      /\ (ctx', ev) = free_spec ctx spec.
Proof.
  intros ctx chroma picture frame spec Hop H0 H1 H2.
  unfold retrieve_bridged, av_frame_ref. rewrite Hop.
  destruct (free_spec ctx spec) as [ctx' ev].
  eexists _, _, _, _. split; [ reflexivity | ].
  pose proof (crop_offset_exact spec _ 0%nat H0) as E0.
  pose proof (crop_offset_exact spec _ 1%nat H1) as E1.
  pose proof (crop_offset_exact spec _ 2%nat H2) as E2.
  cbn [Nat.eqb] in E0, E1, E2. rewrite !Z.shiftr_0_r in E0.
  unfold numplanes_of.
  destruct (is_mono chroma);
    cbn [crop_planes set_frame_size set_frame_dims set_frame_data
         set_frame_opaque frame_width frame_height frame_data frame_linesize
         frame_opaque Nat.eqb];
    rewrite ?E0, ?E1, ?E2;
    (repeat split; try reflexivity;
     intros i [-> | ->]; reflexivity).
Qed.

Lemma bridged_picture_cropped_witness :
  exists ctx' picture' frame' ev,
    retrieve_bridged ff_libde265dec_ctx_init de265_chroma_444 blank_frame
      bridged_frame_444
    = (ctx', picture', frame', ev)
    /\ frame_width picture' = visible_width cropped_spec_444
    /\ frame_height picture' = visible_height cropped_spec_444
    /\ frame_data picture' 0%nat
       = frame_data bridged_frame_444 0%nat
         + (crop_left cropped_spec_444
            + crop_top cropped_spec_444
              * frame_linesize bridged_frame_444 0%nat)
    /\ (forall i,
           (i = 1 \/ i = 2)%nat ->
           frame_data picture' i
           = if is_mono de265_chroma_444 then frame_data bridged_frame_444 i
             else frame_data bridged_frame_444 i
                  + (Z.shiftr (crop_left cropped_spec_444) 1
                     + Z.shiftr (crop_top cropped_spec_444) 1
                       * frame_linesize bridged_frame_444 i))
    /\ frame_opaque frame' = None
    /\ (ctx', ev) = free_spec ff_libde265dec_ctx_init cropped_spec_444.
Proof.
  apply (bridged_picture_cropped ff_libde265dec_ctx_init de265_chroma_444
           blank_frame bridged_frame_444 cropped_spec_444 eq_refl);
    split; vm_compute; split; discriminate.
Defined.

(** C2, evaluated on the code: a 4:4:4 picture of 8 bits, which the bridge
    negotiates as [AV_PIX_FMT_YUV444P], with [crop_left = 4],
    [crop_top = 2] and 64 bytes a line in each plane.  Its chroma planes
    are not subsampled, so all three planes should move by
    [4 + 2 * 64 = 132]; the first plane does, but the second and third
    move by [(4 >> 1) + (2 >> 1) * 64 = 66], because the shift of line 530
    is 1 for every plane after the first whatever the layout. *)
Theorem crop_444_uses_shift_1 :
  negotiate_format cropped_spec_444 = Some AV_PIX_FMT_YUV444P
  /\ frame_opaque bridged_frame_444 = Some cropped_spec_444
  /\ (let '(_, picture', _, _) :=
        retrieve_bridged ff_libde265dec_ctx_init de265_chroma_444
          blank_frame bridged_frame_444 in
      (frame_data picture' 0%nat - frame_data bridged_frame_444 0%nat,
       frame_data picture' 1%nat - frame_data bridged_frame_444 1%nat,
       frame_data picture' 2%nat - frame_data bridged_frame_444 2%nat))
     = (132, 66, 66)
  /\ (forall i,
         crop_left cropped_spec_444
         + crop_top cropped_spec_444 * frame_linesize bridged_frame_444 i
         = 132).
Proof.
  repeat split.
Qed.

(** ** Properties of the BufferAllocationBridge *)

Lemma negotiate_format_sound :
  forall spec format,
    negotiate_format spec = Some format ->
    format = get_pixel_format (spec_chroma spec) (luma_bits_per_pixel spec)
    /\ format <> AV_PIX_FMT_NONE
    /\ get_output_bits_per_pixel format = luma_bits_per_pixel spec
    /\ (is_mono (spec_chroma spec) = false ->
        luma_bits_per_pixel spec = chroma_bits_per_pixel spec).
Proof.
  intros spec format H. unfold negotiate_format in H.
  destruct (is_mono (spec_chroma spec)) eqn:Hm;
    destruct (Z.eqb_spec (luma_bits_per_pixel spec)
                (chroma_bits_per_pixel spec)) as [Hd | Hd];
    cbn [negb andb] in H; try discriminate H;
    destruct (get_pixel_format (spec_chroma spec) (luma_bits_per_pixel spec))
      eqn:Hf; cbn [AVPixelFormat_eqb] in H; try discriminate H;
    match type of H with
    | (if negb (?a =? ?b) then _ else _) = _ =>
        destruct (Z.eqb_spec a b) as [Hb | Hb]; cbn [negb] in H;
        [ injection H as <- | discriminate H ]
    end;
    repeat split; try discriminate; try assumption; try congruence.
Qed.

Lemma register_planes_misaligned :
  forall count i0 spec frame img i,
    (i0 <= i < i0 + count)%nat ->
    frame_data frame i mod spec_alignment spec <> 0 ->
    snd (register_planes count i0 spec frame img) = false.
Proof.
  induction count as [ | count IH ]; intros i0 spec frame img i Hi Hmis;
    [ lia | ].
  cbn [register_planes].
  destruct (Z.eqb_spec (frame_data frame i0 mod spec_alignment spec) 0)
    as [Hal | Hal]; cbn [negb]; [ | reflexivity ].
  apply (IH (S i0) spec frame _ i); [ | exact Hmis ].
  assert (i <> i0) by (intro; subst; contradiction). lia.
Qed.

Lemma rejection_falls_back :
  forall host spec s,
    rejection host spec s ->
    exists s', bridge_buffer host spec s = (s', None).
Proof.
  intros host spec s Hrej. unfold bridge_buffer.
  destruct Hrej as
    [ Hm Hd | Hf | Hn | hook Hh Ha | hook format Hneg Hh Hret
    | format s' Hneg Hh Hpool Ha | format s' Hneg Hh Hpool Hret
    | format s' frame Hneg Hob Hcrop Hq Hmal
    | format s' frame s'' frame' i Hneg Hob Hat Hi Hmis ].
  - unfold negotiate_format. rewrite Hm.
    destruct (Z.eqb_spec (luma_bits_per_pixel spec)
                (chroma_bits_per_pixel spec)); [ contradiction | ].
    eexists. reflexivity.
  - destruct (negotiate_format spec) as [format | ] eqn:Hneg;
      [ | eexists; reflexivity ].
    destruct (negotiate_format_sound spec format Hneg) as (-> & Hne & _).
    contradiction.
  - destruct (negotiate_format spec) as [format | ] eqn:Hneg;
      [ | eexists; reflexivity ].
    destruct (negotiate_format_sound spec format Hneg) as (-> & _ & Hb & _).
    contradiction.
  - destruct (negotiate_format spec) as [format | ];
      [ | eexists; reflexivity ].
    unfold obtain_frame, frame_from_hook. rewrite Hh, Ha.
    eexists. reflexivity.
  - rewrite Hneg. unfold obtain_frame, frame_from_hook. rewrite Hh.
    destruct (host_frame_alloc host); [ | eexists; reflexivity ].
    destruct (hook _) as [ret frame]. cbn [fst] in Hret.
    destruct (Z.ltb_spec ret 0); [ | lia ].
    eexists. reflexivity.
  - rewrite Hneg. unfold obtain_frame. rewrite Hh, Hpool.
    unfold frame_from_alloc. rewrite Ha. eexists. reflexivity.
  - rewrite Hneg. unfold obtain_frame. rewrite Hh, Hpool.
    unfold frame_from_alloc.
    destruct (host_frame_alloc host); [ | eexists; reflexivity ].
    destruct (host_frame_get_buffer host _ _) as [ret frame].
    cbn [fst] in Hret.
    destruct (Z.eqb_spec ret 0); [ contradiction | ].
    eexists. reflexivity.
  - rewrite Hneg, Hob. unfold attach_spec. unfold needs_crop in Hcrop.
    rewrite Hcrop. unfold spec_queue_len. rewrite Hq, Hmal.
    eexists. reflexivity.
  - rewrite Hneg, Hob, Hat.
    pose proof (register_planes_misaligned
                  (numplanes_of (spec_chroma spec)) 0 spec frame'
                  (as_img s'') i) as Hreg.
    destruct (register_planes _ _ _ _ _) as [img ok].
    cbn [snd] in Hreg. rewrite Hreg by (exact Hmis || lia).
    eexists. reflexivity.
Qed.

(** C4: whichever of the rejection conditions holds, the allocate callback
    goes through [fallback]: it returns what the engine's default allocator
    returns for the picture, on the image as the bridge left it.  A call
    that does not fall back returns 1, so the callback has no error return
    of its own. *)
Theorem get_buffer_rejections_fall_back :
  forall (E : Engine) host avctx dectx img spec,
    (rejection host spec
       {| as_avctx := avctx; as_dectx := dectx; as_img := img;
          as_events := [] |} ->
     alloc_fallback (ff_libde265dec_get_buffer host avctx dectx img spec)
     = true)
    /\ (alloc_fallback (ff_libde265dec_get_buffer host avctx dectx img spec)
        = true ->
        exists s,
          bridge_buffer host spec
            {| as_avctx := avctx; as_dectx := dectx; as_img := img;
               as_events := [] |} = (s, None)
          /\ (as_img
                (alloc_state
                   (ff_libde265dec_get_buffer host avctx dectx img spec)),
              alloc_ret (ff_libde265dec_get_buffer host avctx dectx img spec))
             = default_get_buffer (as_img s) spec)
    /\ (alloc_fallback (ff_libde265dec_get_buffer host avctx dectx img spec)
        = false ->
        alloc_ret (ff_libde265dec_get_buffer host avctx dectx img spec) = 1).
Proof.
  intros E host avctx dectx img spec. unfold ff_libde265dec_get_buffer.
  split; [ | split ].
  - intro Hrej. destruct (rejection_falls_back _ _ _ Hrej) as (s' & ->).
    destruct (default_get_buffer (as_img s') spec). reflexivity.
  - destruct (bridge_buffer host spec _) as [s [frame | ] ];
      [ discriminate | ].
    intros _. exists s. split; [ reflexivity | ].
    destruct (default_get_buffer (as_img s) spec). reflexivity.
  - destruct (bridge_buffer host spec _) as [s [frame | ] ];
      [ reflexivity | ].
    destruct (default_get_buffer (as_img s) spec). discriminate.
Qed.

Lemma get_buffer_rejections_fall_back_witness :
  alloc_fallback
    (ff_libde265dec_get_buffer (E := recording_engine)
       (host_with_planes (fun i => 4096 + 8 * Z.of_nat i)) plain_avctx
       ff_libde265dec_ctx_init empty_image plain_spec_420)
  = true.
Proof.
  apply (get_buffer_rejections_fall_back recording_engine
           (host_with_planes (fun i => 4096 + 8 * Z.of_nat i)) plain_avctx
           ff_libde265dec_ctx_init empty_image plain_spec_420).
  eapply (rej_misaligned _ _ _ AV_PIX_FMT_YUV420P _ _ _ _ 1%nat).
  - reflexivity.
  - reflexivity.
  - reflexivity.
  - unfold numplanes_of. simpl. lia.
  - vm_compute. discriminate.
Defined.

(** ** Properties of the RecyclingPools *)

Lemma removelast_shorter :
  forall (A : Type) (l : list A), (length (removelast l) <= length l)%nat.
Proof.
  induction l as [ | a [ | b l ] IH ]; simpl in *; lia.
Qed.

Lemma pools_le_refl : forall c, pools_le c c.
Proof. intro c. unfold pools_le. lia. Qed.

Lemma pools_le_trans :
  forall c1 c2 c3, pools_le c1 c2 -> pools_le c2 c3 -> pools_le c1 c3.
Proof. unfold pools_le. intros c1 c2 c3 [? ?] [? ?]. lia. Qed.

Lemma pools_le_bounded :
  forall c1 c2, pools_le c1 c2 -> pools_bounded c2 -> pools_bounded c1.
Proof. unfold pools_le, pools_bounded. intros c1 c2 [? ?] [? ?]. lia. Qed.

Lemma free_spec_bounded :
  forall ctx spec,
    pools_bounded ctx -> pools_bounded (fst (free_spec ctx spec)).
Proof.
  intros ctx spec [Hf Hs]. unfold free_spec.
  destruct (Z.ltb_spec (spec_queue_len ctx) MAX_SPEC_QUEUE);
    cbn [fst]; [ | split; assumption ].
  unfold pools_bounded, frame_queue_len, spec_queue_len in *.
  cbn [set_spec_queue frame_queue spec_queue]. rewrite length_app.
  simpl length. lia.
Qed.

Lemma release_buffer_bounded :
  forall avctx ctx img,
    pools_bounded ctx ->
    pools_bounded (fst (ff_libde265dec_release_buffer avctx ctx img)).
Proof.
  intros avctx ctx img Hb. unfold ff_libde265dec_release_buffer.
  destruct (de265_get_image_plane_user_data_intern img 0) as [frame | ];
    [ | exact Hb ].
  assert (Hb1 : pools_bounded
                  (fst (match frame_opaque frame with
                        | Some spec => free_spec ctx spec
                        | None => (ctx, [])
                        end))).
  { destruct (frame_opaque frame); [ apply free_spec_bounded | ]; exact Hb. }
  destruct (match frame_opaque frame with
            | Some spec => free_spec ctx spec
            | None => (ctx, [])
            end) as [ctx1 ev]. cbn [fst] in Hb1.
  destruct (get_buffer2 avctx); [ exact Hb1 | ].
  destruct (Z.eqb_spec (frame_queue_len ctx1) MAX_FRAME_QUEUE);
    cbn [fst]; [ exact Hb1 | ].
  destruct Hb1 as [Hf Hs].
  unfold pools_bounded, frame_queue_len, spec_queue_len in *.
  cbn [set_frame_queue frame_queue spec_queue]. rewrite length_app.
  simpl length. lia.
Qed.

Lemma retrieve_bridged_bounded :
  forall ctx chroma picture frame,
    pools_bounded ctx ->
    pools_bounded
      (let '(ctx', _, _, _) := retrieve_bridged ctx chroma picture frame in
       ctx').
Proof.
  intros ctx chroma picture frame Hb. unfold retrieve_bridged.
  destruct (frame_opaque frame) as [spec | ]; [ | exact Hb ].
  pose proof (free_spec_bounded ctx spec Hb) as H.
  destruct (free_spec ctx spec). exact H.
Qed.

Lemma frame_from_hook_pools :
  forall host spec format hook s,
    pools_le (as_dectx (fst (frame_from_hook host spec format hook s)))
             (as_dectx s).
Proof.
  intros host spec format hook s. unfold frame_from_hook.
  destruct (host_frame_alloc host); [ | apply pools_le_refl ].
  destruct (hook _) as [ret frame].
  destruct (ret <? 0); apply pools_le_refl.
Qed.

Lemma frame_from_pool_pools :
  forall host spec format s,
    pools_le (as_dectx (fst (frame_from_pool host spec format s)))
             (as_dectx s).
Proof.
  intros host spec format s. unfold frame_from_pool.
  destruct (frame_queue (as_dectx s)) as [ | frame rest ] eqn:Hq;
    [ apply pools_le_refl | ].
  assert (Hle : pools_le (set_frame_queue rest (as_dectx s)) (as_dectx s)).
  { unfold pools_le, frame_queue_len, spec_queue_len.
    cbn [set_frame_queue frame_queue spec_queue]. rewrite Hq.
    simpl length. lia. }
  destruct (_ || _); exact Hle.
Qed.

Lemma frame_from_alloc_pools :
  forall host spec format s,
    pools_le (as_dectx (fst (frame_from_alloc host spec format s)))
             (as_dectx s).
Proof.
  intros host spec format s. unfold frame_from_alloc.
  destruct (host_frame_alloc host); [ | apply pools_le_refl ].
  destruct (host_frame_get_buffer host _ _) as [ret frame].
  destruct (negb (ret =? 0)); apply pools_le_refl.
Qed.

Lemma obtain_frame_pools :
  forall host spec format s,
    pools_le (as_dectx (fst (obtain_frame host spec format s))) (as_dectx s).
Proof.
  intros host spec format s. unfold obtain_frame.
  destruct (get_buffer2 (as_avctx s)) as [hook | ];
    [ apply frame_from_hook_pools | ].
  pose proof (frame_from_pool_pools host spec format s) as Hp.
  destruct (frame_from_pool host spec format s) as [s' [frame | ] ];
    [ exact Hp | ].
  eapply pools_le_trans; [ apply frame_from_alloc_pools | exact Hp ].
Qed.

Lemma attach_spec_pools :
  forall host spec frame s,
    pools_le (as_dectx (fst (attach_spec host spec frame s))) (as_dectx s).
Proof.
  intros host spec frame s. unfold attach_spec.
  destruct (_ || _); [ | apply pools_le_refl ].
  destruct (spec_queue_len (as_dectx s) >? 0).
  - unfold pools_le, frame_queue_len, spec_queue_len.
    cbn [fst as_dectx with_dectx set_spec_queue frame_queue spec_queue].
    pose proof (removelast_shorter _ (spec_queue (as_dectx s))). lia.
  - destruct (host_malloc host); apply pools_le_refl.
Qed.

Lemma bridge_buffer_pools :
  forall host spec s,
    pools_le (as_dectx (fst (bridge_buffer host spec s))) (as_dectx s).
Proof.
  intros host spec s. unfold bridge_buffer.
  destruct (negotiate_format spec) as [format | ];
    [ | apply pools_le_refl ].
  pose proof (obtain_frame_pools host spec format s) as H1.
  destruct (obtain_frame host spec format s) as [s1 [frame | ] ];
    [ | exact H1 ].
  pose proof (attach_spec_pools host spec frame s1) as H2.
  destruct (attach_spec host spec frame s1) as [s2 [frame' | ] ];
    [ | eapply pools_le_trans; eassumption ].
  destruct (register_planes _ _ _ _ _) as [img [ | ] ];
    eapply pools_le_trans; eassumption.
Qed.

Section Pools.

Context {E : Engine}.

Lemma get_buffer_bounded :
  forall host avctx ctx img spec,
    pools_bounded ctx ->
    pools_bounded
      (as_dectx
         (alloc_state (ff_libde265dec_get_buffer host avctx ctx img spec))).
Proof.
  intros host avctx ctx img spec Hb. unfold ff_libde265dec_get_buffer.
  pose proof (bridge_buffer_pools host spec
                {| as_avctx := avctx; as_dectx := ctx; as_img := img;
                   as_events := [] |}) as Hle.
  destruct (bridge_buffer host spec _) as [s [frame | ] ].
  - exact (pools_le_bounded _ _ Hle Hb).
  - destruct (default_get_buffer (as_img s) spec).
    exact (pools_le_bounded _ _ Hle Hb).
Qed.

Lemma run_pool_op_bounded :
  forall ctx op, pools_bounded ctx -> pools_bounded (run_pool_op ctx op).
Proof.
  intros ctx [host avctx img spec | avctx img | chroma picture frame] Hb.
  - apply get_buffer_bounded. exact Hb.
  - apply release_buffer_bounded. exact Hb.
  - apply retrieve_bridged_bounded. exact Hb.
Qed.

Lemma run_pool_ops_bounded :
  forall ops ctx, pools_bounded ctx -> pools_bounded (run_pool_ops ctx ops).
Proof.
  induction ops as [ | op ops IH ]; intros ctx Hb; [ exact Hb | ].
  apply IH. apply run_pool_op_bounded. exact Hb.
Qed.

End Pools.

(** C5: after any sequence of allocate, release and retrieve calls from the
    initial context, neither pool holds more than 16 entries.  In any such
    context, recycling a descriptor into a full descriptor pool frees it and
    leaves the pool as it is; releasing a frame into a full frame pool frees
    the frame and leaves the frame pool as it is; taking a frame from an
    empty frame pool goes on to allocate a new frame; and taking a
    descriptor from an empty descriptor pool allocates one, a failed
    allocation leading to the fallback rather than to an error. *)
Theorem pools_never_exceed_capacity :
  forall (E : Engine) ops,
    let ctx := run_pool_ops ff_libde265dec_ctx_init ops in
    (frame_queue_len ctx <= 16 /\ spec_queue_len ctx <= 16)
    /\ (forall spec,
           spec_queue_len ctx = 16 ->
           free_spec ctx spec = (ctx, [EvSpecFree spec]))
    /\ (forall avctx img frame,
           de265_get_image_plane_user_data_intern img 0 = Some frame ->
           get_buffer2 avctx = None ->
           frame_queue_len ctx = 16 ->
           frame_queue (fst (ff_libde265dec_release_buffer avctx ctx img))
           = frame_queue ctx
           /\ exists ev,
                snd (ff_libde265dec_release_buffer avctx ctx img)
                = ev ++ [EvFrameFree (set_frame_opaque None frame)])
    /\ (forall host spec format s,
           as_dectx s = ctx ->
           get_buffer2 (as_avctx s) = None ->
           frame_queue ctx = [] ->
           obtain_frame host spec format s
           = frame_from_alloc host spec format s)
    /\ (forall host spec frame s,
           as_dectx s = ctx ->
           spec_queue ctx = [] ->
           needs_crop spec frame = true ->
           attach_spec host spec frame s
           = if host_malloc host
             then (emit [EvSpecMalloc] s,
                   Some (set_frame_opaque (Some spec) frame))
             else (emit [EvFrameFree frame] s, None)).
Proof.
  intros E ops ctx.
  assert (Hb : pools_bounded ctx).
  { apply run_pool_ops_bounded. split; vm_compute; discriminate. }
  split; [ exact Hb | ].
  split; [ | split; [ | split ] ].
  - intros spec Hfull. unfold free_spec. rewrite Hfull. reflexivity.
  - intros avctx img frame Himg Hhook Hfull.
    unfold ff_libde265dec_release_buffer. rewrite Himg, Hhook.
    assert (Hq : forall spec, frame_queue (fst (free_spec ctx spec))
                              = frame_queue ctx).
    { intro spec. unfold free_spec.
      destruct (spec_queue_len ctx <? MAX_SPEC_QUEUE); reflexivity. }
    destruct (frame_opaque frame) as [spec | ].
    + specialize (Hq spec). destruct (free_spec ctx spec) as [ctx1 ev].
      cbn [fst] in Hq. unfold frame_queue_len in *. rewrite Hq, Hfull.
      cbn [Z.eqb MAX_FRAME_QUEUE Pos.eqb fst snd].
      split; [ exact Hq | exists ev; reflexivity ].
    + rewrite Hfull. cbn [Z.eqb MAX_FRAME_QUEUE Pos.eqb fst snd].
      split; [ reflexivity | exists []; reflexivity ].
  - intros host spec format s Hs Hhook Hempty.
    unfold obtain_frame, frame_from_pool. rewrite Hhook, Hs, Hempty.
    reflexivity.
  - intros host spec frame s Hs Hempty Hcrop.
    unfold attach_spec. unfold needs_crop in Hcrop. rewrite Hcrop.
    unfold spec_queue_len. rewrite Hs, Hempty. reflexivity.
Qed.

Lemma pools_never_exceed_capacity_witness :
  free_spec
    (run_pool_ops (E := recording_engine) ff_libde265dec_ctx_init
       fill_spec_pool)
    cropped_spec_444
  = (run_pool_ops (E := recording_engine) ff_libde265dec_ctx_init
       fill_spec_pool,
     [EvSpecFree cropped_spec_444]).
Proof.
  pose proof (pools_never_exceed_capacity recording_engine fill_spec_pool)
    as H.
  cbv zeta in H. destruct H as (_ & H & _).
  apply H. reflexivity.
Defined.

(** ** Properties of the PlaneConverter *)

Section ForEach.

Variable body : Z -> Z -> mem -> mem.
Variables ds dd w : Z.

Hypothesis footprint_fits : 0 <= w <= dd.
Hypothesis body_frame :
  forall s d m a, ~ (d <= a < d + w) -> body s d m a = m a.
Hypothesis body_indep :
  forall s d m m' a, d <= a < d + w -> body s d m a = body s d m' a.

Lemma for_each_below :
  forall count s d m a,
    a < d -> for_each count body ds dd s d m a = m a.
Proof.
  induction count as [ | count IH ]; intros s d m a Ha; [ reflexivity | ].
  cbn [for_each]. rewrite IH by lia. apply body_frame. lia.
Qed.

Lemma for_each_frame :
  forall count s d m a,
    ~ (d <= a < d + Z.of_nat count * dd) ->
    for_each count body ds dd s d m a = m a.
Proof.
  induction count as [ | count IH ]; intros s d m a Ha; [ reflexivity | ].
  cbn [for_each]. rewrite IH by nia. apply body_frame. nia.
Qed.

Lemma for_each_at :
  forall count s d m k a,
    (k < count)%nat ->
    d + Z.of_nat k * dd <= a < d + Z.of_nat k * dd + w ->
    for_each count body ds dd s d m a
    = body (s + Z.of_nat k * ds) (d + Z.of_nat k * dd) m a.
Proof.
  induction count as [ | count IH ]; intros s d m k a Hk Ha; [ lia | ].
  cbn [for_each]. destruct k as [ | k ].
  - rewrite for_each_below by lia.
    replace (s + Z.of_nat 0 * ds) with s by lia.
    replace (d + Z.of_nat 0 * dd) with d by lia. reflexivity.
  - rewrite (IH (s + ds) (d + dd) (body s d m) k a) by lia.
    replace (s + ds + Z.of_nat k * ds) with (s + Z.of_nat (S k) * ds) by lia.
    replace (d + dd + Z.of_nat k * dd) with (d + Z.of_nat (S k) * dd) by lia.
    apply body_indep. lia.
Qed.

End ForEach.

(** A loop whose iterations write side by side leaves, inside its range,
    bytes that do not depend on the memory it started from. *)
Lemma for_each_tight_indep :
  forall body ds dd,
    0 < dd ->
    (forall s d m a, ~ (d <= a < d + dd) -> body s d m a = m a) ->
    (forall s d m m' a, d <= a < d + dd -> body s d m a = body s d m' a) ->
    forall count s d m m' a,
      d <= a < d + Z.of_nat count * dd ->
      for_each count body ds dd s d m a = for_each count body ds dd s d m' a.
Proof.
  intros body ds dd Hdd Hframe Hindep count s d m m' a Ha.
  set (k := Z.to_nat ((a - d) / dd)).
  assert (Hq : 0 <= (a - d) / dd) by (apply Z.div_pos; lia).
  assert (Hk : (a - d) / dd * dd <= a - d < (a - d) / dd * dd + dd).
  { pose proof (Z.div_mod (a - d) dd ltac:(lia)).
    pose proof (Z.mod_pos_bound (a - d) dd Hdd). lia. }
  assert (Hlt : (k < count)%nat) by (unfold k; nia).
  assert (Hin : d + Z.of_nat k * dd <= a < d + Z.of_nat k * dd + dd)
    by (unfold k; rewrite Z2Nat.id by lia; lia).
  rewrite !(for_each_at body ds dd dd ltac:(lia) Hframe Hindep count s d _ k a
              Hlt Hin).
  apply Hindep. exact Hin.
Qed.

Lemma store8_eq : forall m a b, store8 m a b a = b.
Proof. intros. unfold store8. rewrite Z.eqb_refl. reflexivity. Qed.

Lemma store8_neq : forall m a b x, x <> a -> store8 m a b x = m x.
Proof.
  intros m a b x H. unfold store8.
  destruct (Z.eqb_spec x a); [ contradiction | reflexivity ].
Qed.

Lemma load16_store16 :
  forall m a v, 0 <= v < 65536 -> load16 (store16 m a v) a = v.
Proof.
  intros m a v Hv. unfold load16, store16.
  rewrite store8_eq, store8_neq, store8_eq by lia.
  rewrite !u8_byte_of_Z, Z.shiftr_div_pow2 by lia.
  change (2 ^ 8) with 256.
  rewrite (Z.mod_small (v / 256)) by
    (split; [ apply Z.div_pos; lia | apply Z.div_lt_upper_bound; lia ]).
  rewrite Z.lor_comm, lor_shiftl_8 by (apply Z.mod_pos_bound; lia).
  pose proof (Z.div_mod v 256 ltac:(lia)). lia.
Qed.

Lemma store16_frame :
  forall m d v a, ~ (d <= a < d + 2) -> store16 m d v a = m a.
Proof.
  intros m d v a Ha. unfold store16. rewrite !store8_neq by lia. reflexivity.
Qed.

Lemma store16_indep :
  forall m m' d v a, d <= a < d + 2 -> store16 m d v a = store16 m' d v a.
Proof.
  intros m m' d v a Ha. unfold store16, store8.
  destruct (Z.eqb_spec a (d + 1)); [ reflexivity | ].
  destruct (Z.eqb_spec a d); [ reflexivity | lia ].
Qed.

Lemma load16_ext :
  forall m m' a,
    m a = m' a -> m (a + 1) = m' (a + 1) -> load16 m a = load16 m' a.
Proof. intros m m' a H0 H1. unfold load16. rewrite H0, H1. reflexivity. Qed.

Section SampleLoops.

(** Lines of 16-bit samples, each stored from a value computed at the
    source pointer, as the three shifting loops do. *)
Variable sample : Z -> Z.
Variable put : Z -> Z -> mem -> mem.
Variables ds stride linesize : Z.
Variable n : nat.

Hypothesis put_stores : forall s d m, put s d m = store16 m d (sample s).
Hypothesis sample_range : forall s, 0 <= sample s < 65536.
Hypothesis line_fits : 2 * Z.of_nat n <= linesize.

Lemma put_frame :
  forall s d m a, ~ (d <= a < d + 2) -> put s d m a = m a.
Proof. intros. rewrite put_stores. apply store16_frame. assumption. Qed.

Lemma put_indep :
  forall s d m m' a, d <= a < d + 2 -> put s d m a = put s d m' a.
Proof. intros. rewrite !put_stores. apply store16_indep. assumption. Qed.

Lemma row_frame :
  forall s d m a,
    ~ (d <= a < d + 2 * Z.of_nat n) -> for_each n put ds 2 s d m a = m a.
Proof.
  intros s d m a Ha.
  apply (for_each_frame put ds 2 2 ltac:(lia) put_frame). lia.
Qed.

Lemma row_indep :
  forall s d m m' a,
    d <= a < d + 2 * Z.of_nat n ->
    for_each n put ds 2 s d m a = for_each n put ds 2 s d m' a.
Proof.
  intros s d m m' a Ha.
  apply (for_each_tight_indep put ds 2 ltac:(lia) put_frame put_indep). lia.
Qed.

Lemma row_sample :
  forall s d m pos,
    (pos < n)%nat ->
    load16 (for_each n put ds 2 s d m) (d + 2 * Z.of_nat pos)
    = sample (s + Z.of_nat pos * ds).
Proof.
  intros s d m pos Hpos.
  rewrite <- (load16_store16 m (d + 2 * Z.of_nat pos)
                (sample (s + Z.of_nat pos * ds))) by apply sample_range.
  apply load16_ext;
    rewrite (for_each_at put ds 2 2 ltac:(lia) put_frame put_indep n s d m
               pos) by lia;
    rewrite put_stores;
    replace (d + Z.of_nat pos * 2) with (d + 2 * Z.of_nat pos) by lia;
    reflexivity.
Qed.

Lemma lines_sample :
  forall h s d m line pos,
    (line < h)%nat ->
    (pos < n)%nat ->
    load16 (for_each h (for_each n put ds 2) stride linesize s d m)
      (d + Z.of_nat line * linesize + 2 * Z.of_nat pos)
    = sample (s + Z.of_nat line * stride + Z.of_nat pos * ds).
Proof.
  intros h s d m line pos Hline Hpos.
  rewrite <- (row_sample (s + Z.of_nat line * stride)
                (d + Z.of_nat line * linesize) m pos Hpos).
  apply load16_ext;
    apply (for_each_at (for_each n put ds 2) stride linesize
             (2 * Z.of_nat n) ltac:(lia) row_frame row_indep h s d m line);
    lia.
Qed.

End SampleLoops.

Section ByteLoops.

(** Lines of bytes copied from the source, as [av_image_copy_plane] does. *)
Variable src : mem.
Variables stride linesize : Z.
Variable n : nat.

Hypothesis line_fits : Z.of_nat n <= linesize.

Lemma copy_byte_frame :
  forall s d m a, ~ (d <= a < d + 1) -> store8 m d (src s) a = m a.
Proof. intros. apply store8_neq. lia. Qed.

Lemma copy_byte_indep :
  forall s d (m m' : mem) a,
    d <= a < d + 1 -> store8 m d (src s) a = store8 m' d (src s) a.
Proof.
  intros s d m m' a Ha. replace a with d by lia. rewrite !store8_eq.
  reflexivity.
Qed.

Lemma memcpy_frame :
  forall s d m a,
    ~ (d <= a < d + Z.of_nat n) -> memcpy src (Z.of_nat n) s d m a = m a.
Proof.
  intros s d m a Ha. unfold memcpy. rewrite Nat2Z.id.
  apply (for_each_frame (fun s d m => store8 m d (src s)) 1 1 1 ltac:(lia)
           copy_byte_frame). lia.
Qed.

Lemma memcpy_indep :
  forall s d m m' a,
    d <= a < d + Z.of_nat n ->
    memcpy src (Z.of_nat n) s d m a = memcpy src (Z.of_nat n) s d m' a.
Proof.
  intros s d m m' a Ha. unfold memcpy. rewrite Nat2Z.id.
  apply (for_each_tight_indep (fun s d m => store8 m d (src s)) 1 1
           ltac:(lia) copy_byte_frame copy_byte_indep). lia.
Qed.

Lemma memcpy_byte :
  forall s d m k,
    (k < n)%nat ->
    memcpy src (Z.of_nat n) s d m (d + Z.of_nat k) = src (s + Z.of_nat k).
Proof.
  intros s d m k Hk. unfold memcpy. rewrite Nat2Z.id.
  rewrite (for_each_at (fun s d m => store8 m d (src s)) 1 1 1 ltac:(lia)
             copy_byte_frame copy_byte_indep n s d m k) by lia.
  replace (d + Z.of_nat k * 1) with (d + Z.of_nat k) by lia.
  rewrite store8_eq. f_equal. lia.
Qed.

Lemma lines_byte :
  forall h s d m line k,
    (line < h)%nat ->
    (k < n)%nat ->
    for_each h (memcpy src (Z.of_nat n)) stride linesize s d m
      (d + Z.of_nat line * linesize + Z.of_nat k)
    = src (s + Z.of_nat line * stride + Z.of_nat k).
Proof.
  intros h s d m line k Hline Hk.
  rewrite <- (memcpy_byte (s + Z.of_nat line * stride)
                (d + Z.of_nat line * linesize) m k Hk).
  apply (for_each_at (memcpy src (Z.of_nat n)) stride linesize (Z.of_nat n)
           ltac:(lia) memcpy_frame memcpy_indep h s d m line); lia.
Qed.

End ByteLoops.

Lemma to_u16_range : forall x, 0 <= CInt.to_u16 x < 65536.
Proof. intro x. unfold CInt.to_u16. apply Z.mod_pos_bound. lia. Qed.

Lemma load16_range : forall m a, 0 <= load16 m a < 65536.
Proof.
  intros m a. unfold load16.
  pose proof (u8_range (m a)). pose proof (u8_range (m (a + 1))).
  rewrite Z.lor_comm, lor_shiftl_8 by lia. lia.
Qed.

Lemma min_is_Zmin : forall a b, CInt.min a b = Z.min a b.
Proof.
  intros a b. unfold CInt.min. destruct (Z.ltb_spec a b); lia.
Qed.

Lemma half_count :
  forall size pos,
    CInt.in_int size ->
    0 <= pos < size / 2 ->
    (Z.to_nat pos < Z.to_nat (CInt.div size 2))%nat
    /\ 2 * Z.of_nat (Z.to_nat (CInt.div size 2)) <= size.
Proof.
  intros size pos Hint Hpos.
  assert (Hs : 0 <= size).
  { destruct (Z.le_gt_cases 0 size) as [ | Hneg ]; [ assumption | ].
    assert (size / 2 < 0) by (apply Z.div_lt_upper_bound; lia). lia. }
  unfold CInt.div. rewrite Z.quot_div_nonneg by lia.
  unfold CInt.in_int, CInt.INT_MIN, CInt.INT_MAX in Hint.
  assert (Hd : 0 <= size / 2 <= size).
  { split; [ apply Z.div_pos; lia | ].
    apply Z.div_le_upper_bound; lia. }
  rewrite to_int_id
    by int_range.
  pose proof (Z.mul_div_le size 2 ltac:(lia)). lia.
Qed.

Lemma quot_2_bounds :
  forall size,
    (0 <= size -> 0 <= Z.quot size 2 <= size)
    /\ (size < 0 -> size <= Z.quot size 2 <= 0).
Proof.
  intro size. split; intro Hs.
  - rewrite Z.quot_div_nonneg by lia.
    split; [ apply Z.div_pos; lia | apply Z.div_le_upper_bound; lia ].
  - assert (Hq : Z.quot size 2 = - (- size / 2)).
    { rewrite <- (Z.opp_involutive size) at 1.
      rewrite Z.quot_opp_l, Z.quot_div_nonneg by lia. reflexivity. }
    rewrite Hq.
    assert (0 <= - size / 2 <= - size)
      by (split; [ apply Z.div_pos; lia | apply Z.div_le_upper_bound; lia ]).
    lia.
Qed.

Lemma half_count_fits :
  forall size linesize,
    CInt.in_int size -> size <= linesize -> 0 <= linesize ->
    2 * Z.of_nat (Z.to_nat (CInt.div size 2)) <= linesize.
Proof.
  intros size linesize Hint Hle Hl.
  destruct (quot_2_bounds size) as [Hnn Hneg].
  unfold CInt.div. unfold CInt.in_int, CInt.INT_MIN, CInt.INT_MAX in Hint.
  rewrite to_int_id
    by int_range.
  destruct (Z.le_gt_cases 0 size) as [Hs | Hs].
  - rewrite Z.quot_div_nonneg by lia.
    pose proof (Z.mul_div_le size 2 ltac:(lia)).
    assert (0 <= size / 2) by (apply Z.div_pos; lia). lia.
  - specialize (Hneg Hs). lia.
Qed.

Lemma shiftl_small :
  forall v shift,
    0 <= v < 65536 -> 0 <= shift <= 8 ->
    CInt.shl v shift = Z.shiftl v shift /\ 0 <= Z.shiftl v shift < 2 ^ 24.
Proof.
  intros v shift Hv Hs. rewrite Z.shiftl_mul_pow2 by lia.
  assert (Hp : 0 < 2 ^ shift <= 2 ^ 8)
    by (split; [ apply Z.pow_pos_nonneg; lia
               | apply Z.pow_le_mono_r; lia ]).
  change (2 ^ 8) with 256 in Hp.
  assert (Hb : 0 <= v * 2 ^ shift < 2 ^ 24) by (change (2 ^ 24) with 16777216; nia).
  split; [ | exact Hb ].
  unfold CInt.shl. rewrite Z.shiftl_mul_pow2 by lia. apply to_int_id.
  unfold CInt.in_int, CInt.INT_MIN, CInt.INT_MAX.
  change (2 ^ 24) with 16777216 in Hb. lia.
Qed.

(** With strides that are not all equal, [copy_picture] is the plane loop:
    every plane goes through [convert_plane] with the nominal bit depth of
    the negotiated format. *)
Lemma copy_picture_plane_by_plane :
  forall chroma format width height img src picture dst,
    equal_strides_loop (numplanes_of chroma - 1) 1
      (fun i =>
         if (i <? numplanes_of chroma)%nat then src_stride (img i) else 0)
    = false ->
    copy_picture chroma format width height img src picture dst
    = convert_planes (numplanes_of chroma) 0 src
        (get_output_bits_per_pixel format) img picture dst.
Proof.
  intros chroma format width height img src picture dst H.
  unfold copy_picture. rewrite H. reflexivity.
Qed.

(** X29: one iteration of the plane loop, on line [line] of the plane: when
    the plane's bit depth equals the output depth, the destination bytes are
    the source bytes; when the plane is shallower and deeper than 8 bits,
    each 16-bit destination sample is the 16-bit source sample shifted left
    by the difference, kept to 16 bits (exactly the shifted value for a
    sample within the plane's depth, [src << 6] for 10 bits into 16); when
    the plane has 8 bits and the output more, each 16-bit destination
    sample is the source byte shifted left by the difference; when the
    plane is deeper, each 16-bit destination sample is the 16-bit source
    sample shifted right by the difference. *)
Theorem plane_conversion_shifts :
  forall src max_bits_per_pixel p dst_ptr linesize dst line pos,
    8 <= max_bits_per_pixel <= 16 ->
    CInt.in_int (plane_bits_per_pixel p) ->
    CInt.in_int (src_stride p) ->
    CInt.in_int linesize ->
    0 <= linesize ->
    src_ptr p <> 0 ->
    dst_ptr <> 0 ->
    0 <= line < plane_height p ->
    0 <= pos ->
    let bits := plane_bits_per_pixel p in
    let size := Z.min (src_stride p) linesize in
    let s := src_ptr p + line * src_stride p in
    let d := dst_ptr + line * linesize in
    let dst' := convert_plane src max_bits_per_pixel p dst_ptr linesize dst in
    (bits = max_bits_per_pixel ->
     pos < size ->
     dst' (d + pos) = src (s + pos))
    /\ (8 < bits < max_bits_per_pixel ->
        pos < size / 2 ->
        load16 dst' (d + 2 * pos)
        = CInt.to_u16
            (Z.shiftl (load16 src (s + 2 * pos)) (max_bits_per_pixel - bits))
        /\ (load16 src (s + 2 * pos) < 2 ^ bits ->
            load16 dst' (d + 2 * pos)
            = Z.shiftl (load16 src (s + 2 * pos))
                (max_bits_per_pixel - bits)))
    /\ (bits = 10 ->
        max_bits_per_pixel = 16 ->
        pos < size / 2 ->
        load16 src (s + 2 * pos) < 2 ^ 10 ->
        load16 dst' (d + 2 * pos) = Z.shiftl (load16 src (s + 2 * pos)) 6)
    /\ (bits = 8 ->
        8 < max_bits_per_pixel ->
        2 * size <= linesize ->
        pos < size ->
        load16 dst' (d + 2 * pos)
        = Z.shiftl (u8 (src (s + pos))) (max_bits_per_pixel - 8))
    /\ (bits > max_bits_per_pixel ->
        pos < size / 2 ->
        load16 dst' (d + 2 * pos)
        = Z.shiftr (load16 src (s + 2 * pos)) (bits - max_bits_per_pixel)).
Proof.
  intros src maxb p dst_ptr linesize dst line pos Hmax Hbits Hstride Hls
    Hls0 Hsrc Hdst Hline Hpos bits size s d dst'.
  assert (Hsize : CInt.min (src_stride p) linesize = size)
    by apply min_is_Zmin.
  assert (Hsz_int : CInt.in_int size).
  { unfold size, CInt.in_int, CInt.INT_MIN, CInt.INT_MAX in *. lia. }
  assert (Hsz_le : size <= linesize) by (unfold size; lia).
  assert (Hl : (Z.to_nat line < Z.to_nat (plane_height p))%nat) by lia.
  assert (Hs_eq : s = src_ptr p + Z.of_nat (Z.to_nat line) * src_stride p)
    by (unfold s; rewrite Z2Nat.id by lia; reflexivity).
  assert (Hd_eq : d = dst_ptr + Z.of_nat (Z.to_nat line) * linesize)
    by (unfold d; rewrite Z2Nat.id by lia; reflexivity).
  assert (Hleft :
            8 <= bits < maxb ->
            CInt.sub maxb bits = maxb - bits /\ 0 <= maxb - bits <= 8).
  { intro Hb. split; [ | lia ]. unfold CInt.sub. apply to_int_id.
    int_range. }
  assert (Hshl :
            8 < bits < maxb ->
            pos < size / 2 ->
            load16 dst' (d + 2 * pos)
            = CInt.to_u16 (Z.shiftl (load16 src (s + 2 * pos)) (maxb - bits))).
  { intros Hb Hp. subst dst'. unfold convert_plane. fold bits.
    rewrite Hsize.
    destruct (Z.gtb_spec bits maxb); [ lia | ].
    destruct (Z.ltb_spec bits maxb); [ | lia ].
    destruct (Z.gtb_spec bits 8); [ | lia ]. cbn [andb].
    destruct (Hleft ltac:(lia)) as [Hsub Hsh]. rewrite Hsub.
    destruct (half_count size pos Hsz_int ltac:(lia)) as [Hcnt _].
    pose proof (half_count_fits size linesize Hsz_int Hsz_le Hls0) as Hfit.
    pose proof (lines_sample
                  (fun a => CInt.to_u16 (CInt.shl (load16 src a) (maxb - bits)))
                  (shift_left_16 src (maxb - bits)) 2 (src_stride p) linesize
                  (Z.to_nat (CInt.div size 2))
                  (fun _ _ _ => eq_refl) (fun a => to_u16_range _) Hfit
                  (Z.to_nat (plane_height p)) (src_ptr p) dst_ptr dst
                  (Z.to_nat line) (Z.to_nat pos) Hl Hcnt) as Hload.
    rewrite <- Hs_eq, <- Hd_eq, Z2Nat.id in Hload by lia.
    rewrite Hload.
    replace (s + pos * 2) with (s + 2 * pos) by lia.
    destruct (shiftl_small (load16 src (s + 2 * pos)) (maxb - bits)
                (load16_range _ _) Hsh) as [-> _].
    reflexivity. }
  split; [ | split; [ | split; [ | split ] ] ].
  - intros Hb Hp. subst dst'. unfold convert_plane. fold bits. rewrite Hsize.
    destruct (Z.gtb_spec bits maxb); [ lia | ].
    destruct (Z.ltb_spec bits maxb); [ lia | ]. cbn [andb].
    unfold av_image_copy_plane.
    destruct (Z.eqb_spec dst_ptr 0); [ contradiction | ].
    destruct (Z.eqb_spec (src_ptr p) 0); [ contradiction | ]. cbn [orb].
    pose proof (lines_byte src (src_stride p) linesize (Z.to_nat size)
                  ltac:(lia) (Z.to_nat (plane_height p)) (src_ptr p) dst_ptr
                  dst (Z.to_nat line) (Z.to_nat pos) Hl ltac:(lia)) as Hload.
    rewrite <- Hs_eq, <- Hd_eq, !Z2Nat.id in Hload by lia. exact Hload.
  - intros Hb Hp. split; [ apply Hshl; assumption | ].
    intro Hv. rewrite Hshl by assumption.
    unfold CInt.to_u16. apply Z.mod_small.
    pose proof (load16_range src (s + 2 * pos)) as Hr.
    rewrite Z.shiftl_mul_pow2 by lia.
    assert (2 ^ bits * 2 ^ (maxb - bits) = 2 ^ maxb)
      by (rewrite <- Z.pow_add_r by lia; f_equal; lia).
    assert (0 < 2 ^ (maxb - bits)) by (apply Z.pow_pos_nonneg; lia).
    assert (2 ^ maxb <= 2 ^ 16) by (apply Z.pow_le_mono_r; lia).
    nia.
  - intros Hb Hm Hp Hv. rewrite Hshl by lia. rewrite Hb, Hm.
    unfold CInt.to_u16. apply Z.mod_small.
    pose proof (load16_range src (s + 2 * pos)) as Hr.
    rewrite Z.shiftl_mul_pow2 by lia. change (16 - 10) with 6.
    change (2 ^ 6) with 64. change (2 ^ 16) with 65536.
    change (2 ^ 10) with 1024 in Hv. lia.
  - intros Hb Hm Hfit2 Hp. subst dst'. unfold convert_plane. fold bits.
    rewrite Hsize.
    destruct (Z.gtb_spec bits maxb); [ lia | ].
    destruct (Z.ltb_spec bits maxb); [ | lia ].
    destruct (Z.gtb_spec bits 8); [ lia | ].
    destruct (Z.eqb_spec bits 8); [ | lia ]. cbn [andb].
    destruct (Hleft ltac:(lia)) as [Hsub Hsh]. rewrite Hsub, Hb.
    pose proof (lines_sample
                  (fun a => CInt.to_u16 (CInt.shl (u8 (src a)) (maxb - 8)))
                  (shift_left_8_16 src (maxb - 8)) 1 (src_stride p) linesize
                  (Z.to_nat size)
                  (fun _ _ _ => eq_refl) (fun a => to_u16_range _)
                  ltac:(lia)
                  (Z.to_nat (plane_height p)) (src_ptr p) dst_ptr dst
                  (Z.to_nat line) (Z.to_nat pos) Hl ltac:(lia)) as Hload.
    rewrite <- Hs_eq, <- Hd_eq, Z2Nat.id in Hload by lia.
    rewrite Hload. replace (s + pos * 1) with (s + pos) by lia.
    pose proof (u8_range (src (s + pos))) as Hu.
    rewrite Hb in Hsh.
    destruct (shiftl_small (u8 (src (s + pos))) (maxb - 8) ltac:(lia) Hsh)
      as [-> Hr].
    unfold CInt.to_u16. apply Z.mod_small.
    rewrite Z.shiftl_mul_pow2 by lia.
    assert (0 < 2 ^ (maxb - 8) <= 2 ^ 8)
      by (split; [ apply Z.pow_pos_nonneg; lia
                 | apply Z.pow_le_mono_r; lia ]).
    change (2 ^ 8) with 256 in *. change (2 ^ 16) with 65536. nia.
  - intros Hb Hp. subst dst'. unfold convert_plane. fold bits. rewrite Hsize.
    destruct (Z.gtb_spec bits maxb); [ | lia ].
    assert (Hsub : CInt.sub bits maxb = bits - maxb).
    { unfold CInt.sub. apply to_int_id.
      unfold CInt.in_int, CInt.INT_MIN, CInt.INT_MAX in *. fold bits in Hbits.
      lia. }
    rewrite Hsub.
    destruct (half_count size pos Hsz_int ltac:(lia)) as [Hcnt _].
    pose proof (half_count_fits size linesize Hsz_int Hsz_le Hls0) as Hfit.
    pose proof (lines_sample
                  (fun a => CInt.to_u16 (CInt.shr (load16 src a) (bits - maxb)))
                  (shift_right_16 src (bits - maxb)) 2 (src_stride p) linesize
                  (Z.to_nat (CInt.div size 2))
                  (fun _ _ _ => eq_refl) (fun a => to_u16_range _) Hfit
                  (Z.to_nat (plane_height p)) (src_ptr p) dst_ptr dst
                  (Z.to_nat line) (Z.to_nat pos) Hl Hcnt) as Hload.
    rewrite <- Hs_eq, <- Hd_eq, Z2Nat.id in Hload by lia.
    rewrite Hload. replace (s + pos * 2) with (s + 2 * pos) by lia.
    unfold CInt.to_u16, CInt.shr. apply Z.mod_small.
    pose proof (load16_range src (s + 2 * pos)) as Hr.
    rewrite Z.shiftr_div_pow2 by lia.
    assert (0 < 2 ^ (bits - maxb)) by (apply Z.pow_pos_nonneg; lia).
    split; [ apply Z.div_pos; lia | ].
    apply Z.div_lt_upper_bound; [ lia | ]. change (2 ^ 16) with 65536. nia.
Qed.

Lemma plane_conversion_shifts_witness :
  load16 (convert_plane sample_memory 16 ten_bit_plane 2000 8 blank_memory)
    2000
  = Z.shiftl (load16 sample_memory 1000) 6.
Proof.
  pose proof (plane_conversion_shifts sample_memory 16 ten_bit_plane 2000 8
                blank_memory 0 0) as H.
  cbv zeta in H.
  assert (Hi : forall x, -1000 <= x <= 1000 -> CInt.in_int x)
    by (intros x Hx; unfold CInt.in_int, CInt.INT_MIN, CInt.INT_MAX; lia).
  destruct H as (_ & _ & H & _).
  - lia.
  - apply Hi. simpl. lia.
  - apply Hi. simpl. lia.
  - apply Hi. lia.
  - lia.
  - discriminate.
  - discriminate.
  - simpl. lia.
  - lia.
  - apply H; reflexivity.
Defined.

(** C9, evaluated on the code: a monochrome picture of 10 bits.  The
    resolver gives it [AV_PIX_FMT_GRAY8], whose nominal depth is 8, so each
    sample should arrive shifted right by two: the source sample [0x123]
    as [0x48].  A monochrome picture has one plane, so the strides count as
    equal and the picture goes to [av_image_copy], which copies the bytes
    of the line: the destination holds [23 01], the low and high byte of
    the unshifted sample. *)
Theorem copy_without_shift :
  picture_format de265_chroma_mono mono_10bit_image = AV_PIX_FMT_GRAY8
  /\ plane_bits_per_pixel (mono_10bit_image 0%nat) = 10
  /\ get_output_bits_per_pixel AV_PIX_FMT_GRAY8 = 8
  /\ load16 sample_memory (src_ptr (mono_10bit_image 0%nat)) = 291
  /\ Z.shiftr 291 (10 - 8) = 72
  /\ copy_picture de265_chroma_mono AV_PIX_FMT_GRAY8 2 1 mono_10bit_image
       sample_memory (out_frame AV_PIX_FMT_GRAY8) blank_memory
       (frame_data (out_frame AV_PIX_FMT_GRAY8) 0%nat) = x23
  /\ copy_picture de265_chroma_mono AV_PIX_FMT_GRAY8 2 1 mono_10bit_image
       sample_memory (out_frame AV_PIX_FMT_GRAY8) blank_memory
       (frame_data (out_frame AV_PIX_FMT_GRAY8) 0%nat + 1) = x01
  /\ convert_plane sample_memory 8 (mono_10bit_image 0%nat)
       (frame_data (out_frame AV_PIX_FMT_GRAY8) 0%nat)
       (frame_linesize (out_frame AV_PIX_FMT_GRAY8) 0%nat) blank_memory
       (frame_data (out_frame AV_PIX_FMT_GRAY8) 0%nat) = x48.
Proof.
  repeat split.
Qed.

(** ** Further properties of the resolver and of the negotiation *)

Lemma switch_bits_per_pixel_cases :
  forall f8 f9 f10 f12 f14 f16 b,
    (b = 8 /\ switch_bits_per_pixel f8 f9 f10 f12 f14 f16 b = f8)
    \/ (b = 9 /\ switch_bits_per_pixel f8 f9 f10 f12 f14 f16 b = f9)
    \/ (b = 10 /\ switch_bits_per_pixel f8 f9 f10 f12 f14 f16 b = f10)
    \/ (b = 12 /\ switch_bits_per_pixel f8 f9 f10 f12 f14 f16 b = f12)
    \/ (b = 14 /\ switch_bits_per_pixel f8 f9 f10 f12 f14 f16 b = f14)
    \/ (b = 16 /\ switch_bits_per_pixel f8 f9 f10 f12 f14 f16 b = f16)
    \/ ((b = 11 \/ b = 13 \/ b = 15)
        /\ switch_bits_per_pixel f8 f9 f10 f12 f14 f16 b = f16)
    \/ ((b < 8 \/ b > 16)
        /\ switch_bits_per_pixel f8 f9 f10 f12 f14 f16 b = AV_PIX_FMT_NONE).
Proof.
  intros f8 f9 f10 f12 f14 f16 b. unfold switch_bits_per_pixel.
  destruct (Z.eqb_spec b 8); [ tauto | ].
  destruct (Z.eqb_spec b 9); [ tauto | ].
  destruct (Z.eqb_spec b 10); [ tauto | ].
  destruct (Z.eqb_spec b 12); [ tauto | ].
  destruct (Z.eqb_spec b 14); [ tauto | ].
  destruct (Z.eqb_spec b 16); [ tauto | ].
  destruct (Z.ltb_spec b 8); [ cbn [orb]; right; right; right; right; right;
                               right; right; split; [ lia | reflexivity ] | ].
  destruct (Z.gtb_spec b 16); cbn [orb].
  - right; right; right; right; right; right; right.
    split; [ lia | reflexivity ].
  - right; right; right; right; right; right; left.
    split; [ lia | reflexivity ].
Qed.

(** X1: the bridge negotiates a format exactly at the grid points: the
    negotiation of a spec succeeds with a format if and only if the spec's
    layout and luma depth are a grid point with that format and, for a
    layout other than monochrome, the chroma depth equals the luma depth. *)
Theorem negotiate_format_iff_grid_point :
  forall spec format,
    negotiate_format spec = Some format
    <-> (In (spec_chroma spec, luma_bits_per_pixel spec, format) grid_points
         /\ (is_mono (spec_chroma spec) = false ->
             luma_bits_per_pixel spec = chroma_bits_per_pixel spec)).
Proof.
  intros spec format. split.
  - intro H. destruct (negotiate_format_sound spec format H)
      as (Hf & Hne & Hbits & Hdepth).
    split; [ | exact Hdepth ].
    destruct (spec_chroma spec) eqn:Hc; cbn [get_pixel_format] in Hf.
    + subst format. cbn in Hbits. rewrite <- Hbits. left. reflexivity.
    + match type of Hf with
      | _ = switch_bits_per_pixel ?a ?b ?c ?d ?e ?f ?x =>
          destruct (switch_bits_per_pixel_cases a b c d e f x)
            as [ [Hb Hs] | [ [Hb Hs] | [ [Hb Hs] | [ [Hb Hs] | [ [Hb Hs]
               | [ [Hb Hs] | [ [Hb Hs] | [Hb Hs] ] ] ] ] ] ] ]
      end; rewrite Hs in Hf; subst format; cbn in Hbits;
        try contradiction; try lia; rewrite Hb; cbn; tauto.
    + match type of Hf with
      | _ = switch_bits_per_pixel ?a ?b ?c ?d ?e ?f ?x =>
          destruct (switch_bits_per_pixel_cases a b c d e f x)
            as [ [Hb Hs] | [ [Hb Hs] | [ [Hb Hs] | [ [Hb Hs] | [ [Hb Hs]
               | [ [Hb Hs] | [ [Hb Hs] | [Hb Hs] ] ] ] ] ] ] ]
      end; rewrite Hs in Hf; subst format; cbn in Hbits;
        try contradiction; try lia; rewrite Hb; cbn; tauto.
    + match type of Hf with
      | _ = switch_bits_per_pixel ?a ?b ?c ?d ?e ?f ?x =>
          destruct (switch_bits_per_pixel_cases a b c d e f x)
            as [ [Hb Hs] | [ [Hb Hs] | [ [Hb Hs] | [ [Hb Hs] | [ [Hb Hs]
               | [ [Hb Hs] | [ [Hb Hs] | [Hb Hs] ] ] ] ] ] ] ]
      end; rewrite Hs in Hf; subst format; cbn in Hbits;
        try contradiction; try lia; rewrite Hb; cbn; tauto.
    + subst format. contradiction.
  - intros [Hin Hdepth]. unfold negotiate_format.
    unfold grid_points in Hin. cbn [In] in Hin.
    repeat match type of Hin with
           | _ \/ _ => destruct Hin as [Hin | Hin]
           end;
      try contradiction;
      injection Hin as Hc Hb Hf; rewrite <- Hc in *; rewrite <- Hb in *;
      subst format; cbn [is_mono negb andb] in *;
      try (rewrite <- (Hdepth eq_refl), Z.eqb_refl; cbn [negb]);
      reflexivity.
Qed.

Lemma max_spec : forall a b, CInt.max a b = Z.max a b.
Proof. intros a b. unfold CInt.max. destruct (Z.gtb_spec a b); lia. Qed.

Lemma colour_format_depth :
  forall chroma b,
    is_colour_layout chroma = true ->
    get_pixel_format chroma b <> AV_PIX_FMT_NONE ->
    8 <= b <= get_output_bits_per_pixel (get_pixel_format chroma b)
    /\ get_output_bits_per_pixel (get_pixel_format chroma b) <= 16.
Proof.
  intros chroma b Hc Hne.
  destruct chroma; try discriminate Hc; cbn [get_pixel_format] in *;
    match goal with
    | |- context [switch_bits_per_pixel ?a ?b ?c ?d ?e ?f ?x] =>
        destruct (switch_bits_per_pixel_cases a b c d e f x)
          as [ [Hb Hs] | [ [Hb Hs] | [ [Hb Hs] | [ [Hb Hs] | [ [Hb Hs]
             | [ [Hb Hs] | [ [Hb Hs] | [Hb Hs] ] ] ] ] ] ] ]
    end; rewrite Hs in *; cbn; try contradiction; lia.
Qed.

(** X2: a colour picture is never narrowed.  When the format of a 4:2:0,
    4:2:2 or 4:4:4 picture resolves, its nominal bit depth is between 8 and
    16 and at least the bit depth of each of the three planes, so the
    plane loop never takes its right-shifting branch for such a picture. *)
Theorem colour_picture_never_narrowed :
  forall chroma img i,
    is_colour_layout chroma = true ->
    picture_format chroma img <> AV_PIX_FMT_NONE ->
    (i < 3)%nat ->
    8 <= get_output_bits_per_pixel (picture_format chroma img) <= 16
    /\ plane_bits_per_pixel (img i)
       <= get_output_bits_per_pixel (picture_format chroma img)
    /\ (plane_bits_per_pixel (img i)
        >? get_output_bits_per_pixel (picture_format chroma img)) = false.
Proof.
  intros chroma img i Hc Hne Hi. unfold picture_format in *.
  rewrite !max_spec in *.
  pose proof (colour_format_depth chroma _ Hc Hne) as Hd.
  assert (Hle : plane_bits_per_pixel (img i)
                <= Z.max (Z.max (plane_bits_per_pixel (img 0%nat))
                                (plane_bits_per_pixel (img 1%nat)))
                         (plane_bits_per_pixel (img 2%nat))).
  { destruct i as [ | [ | [ | i ] ] ]; lia. }
  repeat split; lia.
Qed.

(** X3: for an alignment that is a power of two, [align_value] rounds a
    non-negative value up to the next multiple of the alignment (where the
    sum stays inside [int]). *)
Theorem align_value_rounds_up :
  forall value k,
    0 <= k <= 30 ->
    0 <= value ->
    value + 2 ^ k - 1 <= CInt.INT_MAX ->
    align_value value (2 ^ k) mod 2 ^ k = 0
    /\ value <= align_value value (2 ^ k) < value + 2 ^ k.
Proof.
  intros value k Hk Hv Hmax.
  assert (Hp : 0 < 2 ^ k <= 2 ^ 30)
    by (split; [ apply Z.pow_pos_nonneg; lia | apply Z.pow_le_mono_r; lia ]).
  assert (Ha : align_value value (2 ^ k)
               = (value + 2 ^ k - 1) / 2 ^ k * 2 ^ k).
  { unfold align_value, CInt.add, CInt.sub.
    rewrite (to_int_id (2 ^ k - 1)) by int_range.
    rewrite to_int_id by int_range.
    replace (2 ^ k - 1) with (Z.ones k) at 2
      by (rewrite Z.ones_equiv; lia).
    rewrite <- Z.ldiff_land, Z.ldiff_ones_r by lia.
    rewrite Z.shiftl_mul_pow2, Z.shiftr_div_pow2 by lia.
    f_equal. f_equal. lia. }
  rewrite Ha. split; [ apply Z.mod_mul; lia | ].
  pose proof (Z.div_mod (value + 2 ^ k - 1) (2 ^ k) ltac:(lia)) as Hdm.
  pose proof (Z.mod_pos_bound (value + 2 ^ k - 1) (2 ^ k) ltac:(lia)).
  lia.
Qed.

Lemma align_value_rounds_up_witness :
  align_value 100 (2 ^ 5) mod 2 ^ 5 = 0
  /\ 100 <= align_value 100 (2 ^ 5) < 100 + 2 ^ 5.
Proof.
  apply (align_value_rounds_up 100 5); unfold CInt.INT_MAX; lia.
Defined.

Lemma colour_picture_never_narrowed_witness :
  8 <= get_output_bits_per_pixel
         (picture_format de265_chroma_420 odd_depth_image) <= 16
  /\ plane_bits_per_pixel (odd_depth_image 1%nat)
     <= get_output_bits_per_pixel
          (picture_format de265_chroma_420 odd_depth_image)
  /\ (plane_bits_per_pixel (odd_depth_image 1%nat)
      >? get_output_bits_per_pixel
           (picture_format de265_chroma_420 odd_depth_image)) = false.
Proof.
  apply (colour_picture_never_narrowed de265_chroma_420 odd_depth_image 1).
  - reflexivity.
  - discriminate.
  - lia.
Defined.

(** ** Further properties of the BitstreamDemuxer *)

Section DemuxerFacts.

Context {E : Engine}.

Lemma check_extradata_clears :
  forall avctx ctx fd,
    check_extra (fst (fst (check_extradata avctx ctx fd))) = 0.
Proof.
  intros avctx ctx fd. unfold check_extradata.
  destruct (Z.eqb_spec (check_extra ctx) 0) as [H0 | H0]; cbn [negb];
    [ exact H0 | ].
  destruct (extradata_size avctx >? 0); [ | reflexivity ].
  destruct (looks_packetized avctx).
  - destruct (extradata_size avctx >? 22); [ | reflexivity ].
    destruct (extra_set_loop _ _ _ _ _) as [fd' [code | pos] ]; reflexivity.
  - destruct (push_data _ _ _ _ _) as [fd' err].
    destruct (negb (err =? 0)); reflexivity.
Qed.

Lemma decode_input_context :
  forall fuel avctx ctx avpkt fd ctx' fd' r,
    decode_input fuel avctx ctx avpkt fd = Some (ctx', fd', r) ->
    ctx' = fst (fst (check_extradata avctx ctx fd)).
Proof.
  intros fuel avctx ctx avpkt fd ctx' fd' r H. unfold decode_input in H.
  destruct (check_extradata avctx ctx fd) as [ [ctx1 fd1] [code | u] ].
  - injection H as <- _ _. reflexivity.
  - destruct (feed_packet fuel avctx ctx1 avpkt fd1) as [ [fd2 r2] | ];
      [ | discriminate H ].
    injection H as <- _ _. reflexivity.
Qed.

(** X4: the out-of-band block is looked at on the first call only.  Every
    call of the input stage that returns, with or without an error, leaves
    [check_extra] cleared, and a call on a context with [check_extra]
    cleared leaves the whole context as it is, whatever the codec context
    then holds as extradata: framing mode and length-field width are
    settled by the first call. *)
Theorem framing_settled_by_first_call :
  forall fuel1 fuel2 avctx1 avctx2 ctx0 avpkt1 avpkt2 fd0 fd1' ctx1 fd1 r1
         ctx2 fd2 r2,
    decode_input fuel1 avctx1 ctx0 avpkt1 fd0 = Some (ctx1, fd1, r1) ->
    decode_input fuel2 avctx2 ctx1 avpkt2 fd1' = Some (ctx2, fd2, r2) ->
    check_extra ctx1 = 0 /\ ctx2 = ctx1.
Proof.
  intros fuel1 fuel2 avctx1 avctx2 ctx0 avpkt1 avpkt2 fd0 fd1' ctx1 fd1 r1
    ctx2 fd2 r2 H1 H2.
  apply decode_input_context in H1. apply decode_input_context in H2.
  assert (Hc : check_extra ctx1 = 0)
    by (rewrite H1; apply check_extradata_clears).
  split; [ exact Hc | ].
  rewrite H2. unfold check_extradata. rewrite Hc. reflexivity.
Qed.

Lemma check_extradata_width :
  forall avctx ctx fd,
    1 <= length_size ctx <= 4 ->
    1 <= length_size (fst (fst (check_extradata avctx ctx fd))) <= 4.
Proof.
  intros avctx ctx fd Hl. unfold check_extradata.
  destruct (negb (check_extra ctx =? 0)); [ | exact Hl ].
  destruct (extradata_size avctx >? 0); [ | exact Hl ].
  destruct (looks_packetized avctx).
  - destruct (extradata_size avctx >? 22); [ | exact Hl ].
    assert (Hw : 1 <= CInt.add
                        (Z.land (u8 (byte_at (extradata_bytes avctx) 21)) 3)
                        1 <= 4).
    { pose proof (u8_range (byte_at (extradata_bytes avctx) 21)) as Hu.
      assert (0 <= Z.land (u8 (byte_at (extradata_bytes avctx) 21)) 3 < 4).
      { split; [ apply Z.land_nonneg; lia | ].
        replace 3 with (Z.ones 2) by reflexivity.
        rewrite Z.land_ones by lia. apply Z.mod_pos_bound. lia. }
      rewrite add_small by lia. lia. }
    destruct (extra_set_loop _ _ _ _ _) as [fd' [code | pos] ]; exact Hw.
  - destruct (push_data _ _ _ _ _) as [fd' err].
    destruct (negb (err =? 0)); exact Hl.
Qed.

Lemma check_extradata_mode :
  forall avctx ctx fd,
    packetized ctx = 0 \/ packetized ctx = 1 ->
    packetized (fst (fst (check_extradata avctx ctx fd))) = 0
    \/ packetized (fst (fst (check_extradata avctx ctx fd))) = 1.
Proof.
  intros avctx ctx fd Hp. unfold check_extradata.
  destruct (negb (check_extra ctx =? 0)); [ | exact Hp ].
  destruct (extradata_size avctx >? 0); [ | exact Hp ].
  destruct (looks_packetized avctx).
  - destruct (extradata_size avctx >? 22); [ | right; reflexivity ].
    destruct (extra_set_loop _ _ _ _ _) as [fd' [code | pos] ];
      right; reflexivity.
  - destruct (push_data _ _ _ _ _) as [fd' err].
    destruct (negb (err =? 0)); left; reflexivity.
Qed.

Lemma check_extradata_pools :
  forall avctx ctx fd,
    frame_queue (fst (fst (check_extradata avctx ctx fd))) = frame_queue ctx
    /\ spec_queue (fst (fst (check_extradata avctx ctx fd))) = spec_queue ctx.
Proof.
  intros avctx ctx fd. unfold check_extradata.
  destruct (negb (check_extra ctx =? 0)); [ | split; reflexivity ].
  destruct (extradata_size avctx >? 0); [ | split; reflexivity ].
  destruct (looks_packetized avctx).
  - destruct (extradata_size avctx >? 22); [ | split; reflexivity ].
    destruct (extra_set_loop _ _ _ _ _) as [fd' [code | pos] ];
      split; reflexivity.
  - destruct (push_data _ _ _ _ _) as [fd' err].
    destruct (negb (err =? 0)); split; reflexivity.
Qed.

(** X5: whatever the out-of-band block and the packets hold, every context
    the input stage reaches from [ff_libde265dec_ctx_init] has a
    length-field width between 1 and 4 and a packetized flag of 0 or 1;
    and the input stage never touches the recycling pools: from any
    context, with any pools, a call that returns leaves both pools exactly
    as they were. *)
Theorem reachable_framing_in_range :
  forall avctx,
    (forall ctx,
        reachable avctx ctx ->
        1 <= length_size ctx <= 4
        /\ (packetized ctx = 0 \/ packetized ctx = 1))
    /\ (forall fuel ctx avpkt fd ctx' fd' r,
           decode_input fuel avctx ctx avpkt fd = Some (ctx', fd', r) ->
           frame_queue ctx' = frame_queue ctx
           /\ spec_queue ctx' = spec_queue ctx).
Proof.
  intros avctx. split.
  - intros ctx Hr.
    induction Hr as [ | ctx fuel avpkt fd ctx' fd' r _ IH Hd ].
    + cbn. split; [ lia | right; reflexivity ].
    + apply decode_input_context in Hd. subst ctx'.
      destruct IH as (Hl & Hp).
      split; [ apply check_extradata_width; exact Hl
             | apply check_extradata_mode; exact Hp ].
  - intros fuel ctx avpkt fd ctx' fd' r Hd.
    apply decode_input_context in Hd. subst ctx'.
    apply check_extradata_pools.
Qed.
Lemma extra_nal_loop_code :
  forall extradata size count pos fd fd' code,
    extra_nal_loop extradata size count pos fd = (fd', Return code) ->
    code = AVERROR_INVALIDDATA.
Proof.
  intros extradata size.
  induction count as [ | count IH ]; intros pos fd fd' code H;
    cbn [extra_nal_loop] in H; [ discriminate H | ].
  destruct (CInt.add pos 2 >? size); [ congruence | ].
  destruct (_ >? size); [ congruence | ].
  destruct (push_NAL _ _ _ _ _) as [fd1 err].
  destruct (negb (err =? 0)); [ congruence | ].
  eapply IH. exact H.
Qed.

Lemma extra_set_loop_code :
  forall extradata size count pos fd fd' code,
    extra_set_loop extradata size count pos fd = (fd', Return code) ->
    code = AVERROR_INVALIDDATA.
Proof.
  intros extradata size.
  induction count as [ | count IH ]; intros pos fd fd' code H;
    cbn [extra_set_loop] in H; [ discriminate H | ].
  destruct (CInt.add pos 3 >? size); [ congruence | ].
  destruct (extra_nal_loop _ _ _ _ _) as [fd1 [code1 | pos1] ] eqn:Hn.
  - injection H as <- <-. eapply extra_nal_loop_code. exact Hn.
  - eapply IH. exact H.
Qed.

Lemma packet_nal_loop_code :
  forall fuel width avpkt pts pos fd fd' code,
    packet_nal_loop fuel width avpkt pts pos fd = Some (fd', Return code) ->
    code = AVERROR_INVALIDDATA.
Proof.
  induction fuel as [ | fuel IH ]; intros width avpkt pts pos fd fd' code H;
    cbn [packet_nal_loop] in H; [ discriminate H | ].
  destruct (pos + width <=? avpkt_size avpkt); [ | discriminate H ].
  destruct (push_NAL _ _ _ _ _) as [fd1 err].
  destruct (negb (err =? DE265_OK)); [ congruence | ].
  eapply IH. exact H.
Qed.

(** X6: the only error the input stage returns is [AVERROR_INVALIDDATA]:
    whatever the block, the packet and the engine's error code, a call that
    returns early returns that code. *)
Theorem decode_input_error_is_invalid_data :
  forall fuel avctx ctx avpkt fd ctx' fd' code,
    decode_input fuel avctx ctx avpkt fd = Some (ctx', fd', Return code) ->
    code = AVERROR_INVALIDDATA.
Proof.
  intros fuel avctx ctx avpkt fd ctx' fd' code H. unfold decode_input in H.
  destruct (check_extradata avctx ctx fd) as [ [ctx1 fd1] [code1 | u] ]
    eqn:Hx.
  - injection H as _ _ <-. unfold check_extradata in Hx.
    destruct (negb (check_extra ctx =? 0)); [ | discriminate Hx ].
    destruct (extradata_size avctx >? 0); [ | discriminate Hx ].
    destruct (looks_packetized avctx).
    + destruct (extradata_size avctx >? 22); [ | discriminate Hx ].
      destruct (extra_set_loop _ _ _ _ _) as [fd2 [code2 | pos] ] eqn:Hs;
        [ | discriminate Hx ].
      injection Hx as _ _ <-. eapply extra_set_loop_code. exact Hs.
    + destruct (push_data _ _ _ _ _) as [fd2 err].
      destruct (negb (err =? 0)); [ congruence | discriminate Hx ].
  - unfold feed_packet in H.
    destruct (avpkt_size avpkt >? 0); [ | discriminate H ].
    destruct (negb (packetized ctx1 =? 0)).
    + destruct (packet_nal_loop _ _ _ _ _ _) as [ [fd2 [code2 | pos] ] | ]
        eqn:Hp; try discriminate H.
      injection H as _ _ <-. eapply packet_nal_loop_code. exact Hp.
    + destruct (push_data _ _ _ _ _) as [fd2 err].
      destruct (negb (err =? DE265_OK)); [ congruence | discriminate H ].
Qed.

End DemuxerFacts.

Section RawMode.

Context {E : Engine}.

(** X7: a block that begins with a start code ([00 00 00] or [00 00 01])
    selects raw framing on the first call: the packetized flag is cleared,
    the length-field width is left alone, and the whole block goes to the
    engine as one chunk.  The engine's answer to that chunk decides the
    rest: when it is [DE265_OK] the end-of-NAL marker follows and the call
    goes on, otherwise nothing follows and the call returns
    [AVERROR_INVALIDDATA]. *)
Theorem start_code_selects_raw_framing :
  forall avctx ctx fd b2 rest,
    extradata avctx = Some (x00 :: x00 :: b2 :: rest) ->
    extradata_size avctx = Z.of_nat (length (x00 :: x00 :: b2 :: rest)) ->
    u8 b2 <= 1 ->
    check_extra ctx <> 0 ->
    let answer :=
      de265_push_data (feed_decoder fd) (x00 :: x00 :: b2 :: rest) 0
        (extradata_size avctx) 0 in
    exists ctx' fd',
      check_extradata avctx ctx fd
      = (ctx', fd',
         if snd answer =? DE265_OK then Proceed tt
         else Return AVERROR_INVALIDDATA)
      /\ packetized ctx' = 0
      /\ length_size ctx' = length_size ctx
      /\ feed_log fd'
         = feed_log fd
           ++ PushData 0 (extradata_size avctx) 0
              :: (if snd answer =? DE265_OK then [EndOfNAL] else [])
      /\ feed_decoder fd'
         = if snd answer =? DE265_OK
           then de265_push_end_of_NAL (fst answer)
           else fst answer.
Proof.
  intros avctx ctx fd b2 rest Hx Hsize Hb Hce answer. subst answer.
  unfold check_extradata.
  destruct (Z.eqb_spec (check_extra ctx) 0); [ contradiction | ].
  cbn [negb].
  destruct (Z.gtb_spec (extradata_size avctx) 0) as [ | Hle ];
    [ | rewrite Hsize in Hle; simpl length in Hle; lia ].
  assert (Hlooks : looks_packetized avctx = false).
  { unfold looks_packetized. rewrite Hx.
    replace (u8 (byte_at (x00 :: x00 :: b2 :: rest) 0)) with 0
      by reflexivity.
    replace (u8 (byte_at (x00 :: x00 :: b2 :: rest) 1)) with 0
      by reflexivity.
    replace (byte_at (x00 :: x00 :: b2 :: rest) 2) with b2 by reflexivity.
    destruct (Z.gtb_spec (u8 b2) 1); [ lia | ].
    cbn. apply andb_false_r. }
  rewrite Hlooks. unfold extradata_bytes. rewrite Hx. unfold push_data.
  destruct (de265_push_data _ _ _ _ _) as [d err]. cbn [fst snd].
  unfold DE265_OK.
  destruct (Z.eqb_spec err 0); cbn [negb];
    eexists _, _; (split; [ reflexivity | ]);
    (split; [ reflexivity | split; [ reflexivity | ] ]).
  - split; [ | reflexivity ].
    unfold push_end_of_NAL. cbn [feed_log]. rewrite <- app_assoc.
    reflexivity.
  - split; reflexivity.
Qed.

(** X8: under raw framing every non-empty packet is handed to the engine
    whole, as one chunk from offset 0 over the declared size with the
    packet's timestamp (the context's reordering value when the packet has
    none); no fuel is consumed.  The engine's answer to that chunk decides
    the outcome: the call goes on when it is [DE265_OK] and returns
    [AVERROR_INVALIDDATA] otherwise. *)
Theorem raw_packet_is_one_chunk :
  forall fuel avctx ctx avpkt fd,
    check_extra ctx = 0 ->
    packetized ctx = 0 ->
    avpkt_size avpkt > 0 ->
    let pts :=
      if avpkt_pts avpkt =? AV_NOPTS_VALUE
      then reordered_opaque avctx
      else avpkt_pts avpkt in
    let answer :=
      de265_push_data (feed_decoder fd) (avpkt_data avpkt) 0
        (avpkt_size avpkt) pts in
    decode_input fuel avctx ctx avpkt fd
    = Some (ctx,
            {| feed_decoder := fst answer;
               feed_log :=
                 feed_log fd ++ [PushData 0 (avpkt_size avpkt) pts] |},
            if snd answer =? DE265_OK then Proceed tt
            else Return AVERROR_INVALIDDATA).
Proof.
  intros fuel avctx ctx avpkt fd Hce Hp Hs pts answer. subst answer pts.
  unfold decode_input.
  rewrite check_extradata_done by exact Hce. unfold feed_packet.
  destruct (Z.gtb_spec (avpkt_size avpkt) 0); [ | lia ].
  rewrite Hp. cbn [Z.eqb negb]. unfold push_data.
  destruct (avpkt_pts avpkt =? AV_NOPTS_VALUE); cbn [negb];
    destruct (de265_push_data _ _ _ _ _) as [d err]; cbn [fst snd];
    destruct (err =? DE265_OK); reflexivity.
Qed.
End RawMode.

Lemma read_nal_size_bound :
  forall buf count pos acc bound,
    0 <= acc < bound ->
    bound * 256 ^ Z.of_nat count <= 2 ^ 31 ->
    0 <= read_nal_size buf count pos acc < bound * 256 ^ Z.of_nat count.
Proof.
  intros buf. induction count as [ | count IH ]; intros pos acc bound Ha Hb.
  - cbn [read_nal_size]. change (Z.of_nat 0) with 0. lia.
  - cbn [read_nal_size].
    pose proof (pow256_pos count) as Hp.
    rewrite Nat2Z.inj_succ, Z.pow_succ_r in * by lia.
    pose proof (u8_range (byte_at buf pos)) as Hu.
    rewrite lor_shiftl_8 by exact Hu.
    rewrite to_int_id by (unfold CInt.in_int, CInt.INT_MIN, CInt.INT_MAX;
                          nia).
    replace (bound * (256 * 256 ^ Z.of_nat count))
      with (bound * 256 * 256 ^ Z.of_nat count) by lia.
    apply IH; nia.
Qed.

Section PacketLoopTermination.

Context {E : Engine}.

Lemma packet_nal_loop_returns :
  forall fuel width avpkt pts pos fd,
    1 <= width <= 3 ->
    (Z.to_nat (avpkt_size avpkt - pos) < fuel)%nat ->
    exists fd' r,
      packet_nal_loop fuel width avpkt pts pos fd = Some (fd', r).
Proof.
  induction fuel as [ | fuel IH ]; intros width avpkt pts pos fd Hw Hf;
    [ lia | ].
  cbn [packet_nal_loop].
  destruct (Z.leb_spec (pos + width) (avpkt_size avpkt)); [ | eauto ].
  assert (Hpow : 256 ^ width <= 256 ^ 3) by (apply Z.pow_le_mono_r; lia).
  assert (Hn : 0 <= read_nal_size (avpkt_data avpkt) (Z.to_nat width) pos 0
               < 256 ^ 3).
  { pose proof (read_nal_size_bound (avpkt_data avpkt) (Z.to_nat width) pos
                  0 1) as Hb.
    rewrite Z.mul_1_l, Z2Nat.id in Hb by lia.
    change (2 ^ 31) with (256 ^ 3 * 128) in Hb.
    assert (0 < 256 ^ 3) by reflexivity. lia. }
  assert (Hstep :
            CInt.add width
              (read_nal_size (avpkt_data avpkt) (Z.to_nat width) pos 0)
            = width
              + read_nal_size (avpkt_data avpkt) (Z.to_nat width) pos 0).
  { unfold CInt.add. apply to_int_id.
    unfold CInt.in_int, CInt.INT_MIN, CInt.INT_MAX.
    change (256 ^ 3) with 16777216 in Hn. lia. }
  rewrite Hstep.
  destruct (push_NAL _ _ _ _ _) as [fd1 err].
  destruct (negb (err =? DE265_OK)); [ eauto | ].
  apply IH; [ exact Hw | lia ].
Qed.

(** X9: with a length field of 1, 2 or 3 bytes the NAL loop always comes to
    an end, whatever the packet holds and however the engine answers: fuel
    above the number of bytes from the starting offset to the end of the
    packet is enough, and a return is either [AVERROR_INVALIDDATA] or the
    normal exit with fewer than a length field of bytes ahead. *)
Theorem packet_loop_terminates_below_4_bytes :
  forall fuel width avpkt pts fd,
    1 <= width <= 3 ->
    (Z.to_nat (avpkt_size avpkt) < fuel)%nat ->
    exists fd' r,
      packet_nal_loop fuel width avpkt pts 0 fd = Some (fd', r)
      /\ (r = Return AVERROR_INVALIDDATA
          \/ exists pos, r = Proceed pos /\ avpkt_size avpkt < pos + width).
Proof.
  intros fuel width avpkt pts fd Hw Hf.
  destruct (packet_nal_loop_returns fuel width avpkt pts 0 fd Hw)
    as (fd' & r & Hloop); [ rewrite Z.sub_0_r; exact Hf | ].
  exists fd', r. split; [ exact Hloop | ].
  destruct r as [code | pos].
  - left. f_equal. eapply packet_nal_loop_code. exact Hloop.
  - right. exists pos. split; [ reflexivity | ].
    clear Hf. revert fd Hloop. generalize 0 as start.
    induction fuel as [ | fuel IH ]; intros start fd Hloop;
      cbn [packet_nal_loop] in Hloop; [ discriminate Hloop | ].
    destruct (Z.leb_spec (start + width) (avpkt_size avpkt)).
    + destruct (push_NAL _ _ _ _ _) as [fd1 err].
      destruct (negb (err =? DE265_OK)); [ discriminate Hloop | ].
      eapply IH. exact Hloop.
    + injection Hloop as _ <-. lia.
Qed.

(** X10: with a 4-byte length field the loop need not end.  A packet that
    begins with [ff ff ff fc] declares, in 32-bit [int] with wrap-around,
    a NAL unit of -4 bytes: the engine is handed the pointer at offset 4
    with that size, and when it accepts, the loop steps by [4 + -4 = 0]
    and reads the same length field again.  No amount of fuel lets the
    loop return. *)
Theorem packet_loop_can_spin :
  forall fuel rest pts fd,
    (forall d off size,
        snd (de265_push_NAL d (xff :: xff :: xff :: xfc :: rest) off size
               pts) = DE265_OK) ->
    packet_nal_loop fuel 4
      (packet_of (xff :: xff :: xff :: xfc :: rest) pts) pts 0 fd
    = None.
Proof.
  intros fuel rest pts fd Hacc. revert fd.
  induction fuel as [ | fuel IH ]; intro fd; [ reflexivity | ].
  cbn [packet_nal_loop]. cbn [avpkt_size avpkt_data packet_of].
  destruct (Z.leb_spec (0 + 4)
              (Z.of_nat (length (xff :: xff :: xff :: xfc :: rest))))
    as [ | Hlt ]; [ | simpl length in Hlt; lia ].
  replace (read_nal_size (xff :: xff :: xff :: xfc :: rest) (Z.to_nat 4) 0 0)
    with (-4) by reflexivity.
  unfold push_NAL.
  pose proof (Hacc (feed_decoder fd) (0 + 4) (-4)) as Hok.
  destruct (de265_push_NAL _ _ _ _ _) as [d err]. cbn [snd] in Hok.
  subst err. cbn [negb Z.eqb DE265_OK]. apply IH.
Qed.

End PacketLoopTermination.

Section RecordThenPackets.

Context {E : Engine}.

Lemma width_bits_range :
  forall b, 1 <= Z.land (u8 b) 3 + 1 <= 4.
Proof.
  intro b. pose proof (u8_range b).
  assert (0 <= Z.land (u8 b) 3 < 4).
  { split; [ apply Z.land_nonneg; lia | ].
    replace 3 with (Z.ones 2) by reflexivity.
    rewrite Z.land_ones by lia. apply Z.mod_pos_bound. lia. }
  lia.
Qed.

Lemma check_extradata_well_formed :
  forall avctx ctx fd block units,
    extradata avctx = Some block ->
    extradata_size avctx = Z.of_nat (length block) ->
    22 < extradata_size avctx < 2 ^ 28 ->
    check_extra ctx <> 0 ->
    looks_packetized avctx = true ->
    record_groups (Z.to_nat (u8 (byte_at block 22))) (skipn 23 block)
    = Some units ->
    (forall d off len, snd (de265_push_NAL d block off len 0) = DE265_OK) ->
    exists fd' subs,
      check_extradata avctx ctx fd
      = (set_framing 0 1 (Z.land (u8 (byte_at block 21)) 3 + 1) ctx, fd',
         Proceed tt)
      /\ feed_log fd' = feed_log fd ++ subs ++ [EndOfNAL]
      /\ map (nal_payload block) subs = map Some units.
Proof.
  intros avctx ctx fd block units Hblock Hsize Hrange Hce Hlooks Hrec Hacc.
  unfold check_extradata.
  destruct (Z.eqb_spec (check_extra ctx) 0) as [ | _ ]; [ contradiction | ].
  cbn [negb]. rewrite Hlooks.
  destruct (Z.gtb_spec (extradata_size avctx) 0); [ | lia ].
  destruct (Z.gtb_spec (extradata_size avctx) 22); [ | lia ].
  unfold extradata_bytes. rewrite Hblock.
  pose proof (width_bits_range (byte_at block 21)) as Hw.
  rewrite add_small by lia.
  destruct (extra_set_loop_well_formed block (extradata_size avctx)
              Hsize (proj2 Hrange) Hacc
              (Z.to_nat (u8 (byte_at block 22))) 23 fd units)
    as (pos1 & fd2 & subs & Hl & Hlog & Hsubs); [ lia | exact Hrec | ].
  rewrite Hl. exists (push_end_of_NAL fd2), subs.
  split; [ reflexivity | split; [ | exact Hsubs ] ].
  unfold push_end_of_NAL. cbn [feed_log]. rewrite Hlog, <- app_assoc.
  reflexivity.
Qed.

(** X11: the configuration record and the packets compose.  On the first
    call, with a well-formed configuration record longer than 22 bytes and a
    packet that is a sequence of records whose length fields have the width
    the record announces, the input stage submits the parameter-set units
    of the record, the end-of-NAL marker, and then the payloads of the
    packet, each on its own and in order, and leaves the context with that
    width (for an engine that accepts the units). *)
Theorem record_then_packet_demuxed :
  forall avctx fd block units records pts fuel,
    extradata avctx = Some block ->
    extradata_size avctx = Z.of_nat (length block) ->
    22 < extradata_size avctx < 2 ^ 28 ->
    looks_packetized avctx = true ->
    record_groups (Z.to_nat (u8 (byte_at block 22))) (skipn 23 block)
    = Some units ->
    records <> [] ->
    Forall (fun payload =>
              Z.of_nat (length payload)
              < 256 ^ (Z.land (u8 (byte_at block 21)) 3 + 1))
           records ->
    Z.of_nat
      (length
         (length_prefixed (Z.land (u8 (byte_at block 21)) 3 + 1) records))
    <= CInt.INT_MAX ->
    pts <> AV_NOPTS_VALUE ->
    (forall d off len, snd (de265_push_NAL d block off len 0) = DE265_OK) ->
    (forall d off len,
        snd (de265_push_NAL d
               (length_prefixed (Z.land (u8 (byte_at block 21)) 3 + 1)
                  records) off len pts) = DE265_OK) ->
    (length records < fuel)%nat ->
    exists ctx' fd' subs1 subs2,
      decode_input fuel avctx ff_libde265dec_ctx_init
        (packet_of
           (length_prefixed (Z.land (u8 (byte_at block 21)) 3 + 1) records)
           pts) fd
      = Some (ctx', fd', Proceed tt)
      /\ packetized ctx' = 1
      /\ length_size ctx' = Z.land (u8 (byte_at block 21)) 3 + 1
      /\ feed_log fd' = feed_log fd ++ subs1 ++ [EndOfNAL] ++ subs2
      /\ map (nal_payload block) subs1 = map Some units
      /\ map (nal_payload
                (length_prefixed (Z.land (u8 (byte_at block 21)) 3 + 1)
                   records)) subs2
         = map Some records.
Proof.
  intros avctx fd block units records pts fuel Hblock Hsize Hrange Hlooks
    Hrec Hne Hlen Hmax Hpts Hacc1 Hacc2 Hfuel.
  set (width := Z.land (u8 (byte_at block 21)) 3 + 1) in *.
  pose proof (width_bits_range (byte_at block 21)) as Hw. fold width in Hw.
  destruct (check_extradata_well_formed avctx ff_libde265dec_ctx_init fd
              block units Hblock Hsize Hrange ltac:(discriminate) Hlooks
              Hrec Hacc1) as (fd1 & subs1 & Hx & Hlog1 & Hsubs1).
  fold width in Hx.
  set (avpkt := packet_of (length_prefixed width records) pts).
  destruct (packet_nal_loop_records width avpkt pts Hw eq_refl Hmax Hacc2
              records [] fuel fd1 eq_refl Hlen Hfuel)
    as (fd2 & subs2 & Hloop & Hlog2 & Hsubs2).
  exists (set_framing 0 1 width ff_libde265dec_ctx_init), fd2, subs1, subs2.
  split.
  - unfold decode_input. rewrite Hx. unfold feed_packet.
    assert (Hpos : avpkt_size avpkt > 0).
    { unfold avpkt. cbn [avpkt_size packet_of].
      destruct records as [ | payload records' ]; [ contradiction | ].
      cbn [length_prefixed flat_map]. rewrite !length_app, be_bytes_length.
      lia. }
    destruct (Z.gtb_spec (avpkt_size avpkt) 0); [ | lia ].
    cbn [packetized length_size set_framing Z.eqb negb].
    replace (avpkt_pts avpkt) with pts by reflexivity.
    destruct (Z.eqb_spec pts AV_NOPTS_VALUE); [ contradiction | ].
    cbn [negb]. simpl Z.of_nat in Hloop. rewrite Hloop. reflexivity.
  - split; [ reflexivity | split; [ reflexivity | ] ].
    split; [ | split; [ exact Hsubs1 | exact Hsubs2 ] ].
    rewrite Hlog2, Hlog1, <- !app_assoc. reflexivity.
Qed.

End RecordThenPackets.

(** ** Further properties of the pools and of the allocation bridge *)

Lemma free_queue_loop_drains :
  forall (A : Type) (free : A -> pool_event) count (queue : list A),
    (length queue <= count)%nat ->
    free_queue_loop free count queue = ([], map free (rev queue)).
Proof.
  intros A free. induction count as [ | count IH ]; intros queue Hlen.
  - destruct queue; [ reflexivity | simpl in Hlen; lia ].
  - cbn [free_queue_loop].
    destruct (rev queue) as [ | entry r ] eqn:Hrev.
    + apply (f_equal (@rev A)) in Hrev. rewrite rev_involutive in Hrev.
      subst queue. reflexivity.
    + assert (Hq : queue = rev r ++ [entry]).
      { apply (f_equal (@rev A)) in Hrev. rewrite rev_involutive in Hrev.
        exact Hrev. }
      subst queue. rewrite removelast_last.
      rewrite IH
        by (rewrite length_app in Hlen; simpl in Hlen; lia).
      rewrite rev_involutive. reflexivity.
Qed.

(** X12: closing the context empties both pools and frees every pooled
    frame and every pooled descriptor exactly once, the newest first. *)
Theorem free_drains_both_pools :
  forall ctx,
    frame_queue (fst (ff_libde265dec_free ctx)) = []
    /\ spec_queue (fst (ff_libde265dec_free ctx)) = []
    /\ snd (ff_libde265dec_free ctx)
       = map EvFrameFree (rev (frame_queue ctx))
         ++ map EvSpecFree (rev (spec_queue ctx)).
Proof.
  intro ctx. unfold ff_libde265dec_free.
  rewrite (free_queue_loop_drains _ EvFrameFree _ (frame_queue ctx))
    by lia.
  cbn [set_frame_queue spec_queue].
  rewrite (free_queue_loop_drains _ EvSpecFree _ (spec_queue ctx)) by lia.
  repeat split.
Qed.

Lemma free_spec_frames :
  forall ctx spec,
    frame_queue (fst (free_spec ctx spec)) = frame_queue ctx.
Proof.
  intros ctx spec. unfold free_spec.
  destruct (spec_queue_len ctx <? MAX_SPEC_QUEUE); reflexivity.
Qed.

Lemma attach_spec_frames :
  forall host spec frame s,
    frame_queue (as_dectx (fst (attach_spec host spec frame s)))
    = frame_queue (as_dectx s).
Proof.
  intros host spec frame s. unfold attach_spec.
  destruct (_ || _); [ | reflexivity ].
  destruct (spec_queue_len (as_dectx s) >? 0); [ reflexivity | ].
  destruct (host_malloc host); reflexivity.
Qed.

Lemma frame_from_hook_context :
  forall host spec format hook s,
    as_dectx (fst (frame_from_hook host spec format hook s)) = as_dectx s
    /\ get_buffer2 (as_avctx (fst (frame_from_hook host spec format hook s)))
       = get_buffer2 (as_avctx s).
Proof.
  intros host spec format hook s. unfold frame_from_hook.
  destruct (host_frame_alloc host); [ | split; reflexivity ].
  destruct (hook _) as [ret frame].
  destruct (ret <? 0); split; reflexivity.
Qed.

Lemma bridge_buffer_hook_frames :
  forall host spec s hook,
    get_buffer2 (as_avctx s) = Some hook ->
    frame_queue (as_dectx (fst (bridge_buffer host spec s)))
    = frame_queue (as_dectx s).
Proof.
  intros host spec s hook Hh. unfold bridge_buffer.
  destruct (negotiate_format spec) as [format | ]; [ | reflexivity ].
  unfold obtain_frame. rewrite Hh.
  destruct (frame_from_hook_context host spec format hook s) as [Hc _].
  destruct (frame_from_hook host spec format hook s) as [s1 [frame | ] ];
    cbn [fst] in *; [ | congruence ].
  pose proof (attach_spec_frames host spec frame s1) as Ha.
  destruct (attach_spec host spec frame s1) as [s2 [frame' | ] ];
    cbn [fst] in *; [ | congruence ].
  destruct (register_planes _ _ _ _ _) as [img [ | ] ]; cbn; congruence.
Qed.

Section HookPools.

Context {E : Engine}.

Lemma run_pool_op_hook_frames :
  forall ctx op,
    op_uses_hook op = true ->
    frame_queue (run_pool_op ctx op) = frame_queue ctx.
Proof.
  intros ctx [host avctx img spec | avctx img | chroma picture frame] Hop;
    cbn [op_uses_hook run_pool_op] in *.
  - destruct (get_buffer2 avctx) as [hook | ] eqn:Hh; [ | discriminate Hop ].
    unfold ff_libde265dec_get_buffer.
    pose proof (bridge_buffer_hook_frames host spec
                  {| as_avctx := avctx; as_dectx := ctx; as_img := img;
                     as_events := [] |} hook Hh) as Hb.
    destruct (bridge_buffer host spec _) as [s [frame | ] ]; cbn in *;
      [ exact Hb | ].
    destruct (default_get_buffer (as_img s) spec). exact Hb.
  - destruct (get_buffer2 avctx) as [hook | ] eqn:Hh; [ | discriminate Hop ].
    unfold ff_libde265dec_release_buffer. rewrite Hh.
    destruct (de265_get_image_plane_user_data_intern img 0) as [frame | ];
      [ | reflexivity ].
    destruct (frame_opaque frame) as [spec | ]; [ | reflexivity ].
    pose proof (free_spec_frames ctx spec) as Hf.
    destruct (free_spec ctx spec). exact Hf.
  - unfold retrieve_bridged.
    destruct (frame_opaque frame) as [spec | ]; [ | reflexivity ].
    pose proof (free_spec_frames ctx spec) as Hf.
    destruct (free_spec ctx spec). exact Hf.
Qed.

(** X13: when the host supplies an allocation hook the frame pool is never
    used: after any sequence of allocate, release and retrieve calls made
    with the hook present, the frame pool is still empty (released frames
    are freed, none is queued). *)
Theorem hook_keeps_frame_pool_empty :
  forall ops,
    forallb op_uses_hook ops = true ->
    frame_queue (run_pool_ops ff_libde265dec_ctx_init ops) = [].
Proof.
  intros ops. unfold run_pool_ops.
  assert (H : forall ctx,
             forallb op_uses_hook ops = true ->
             frame_queue (fold_left run_pool_op ops ctx) = frame_queue ctx).
  { induction ops as [ | op ops IH ]; intros ctx Hall; [ reflexivity | ].
    cbn [forallb] in Hall. apply andb_prop in Hall as [Hop Hall].
    cbn [fold_left]. rewrite IH by exact Hall.
    apply run_pool_op_hook_frames. exact Hop. }
  intro Hall. rewrite H by exact Hall. reflexivity.
Qed.

End HookPools.

Lemma register_planes_done :
  forall count i0 spec frame img img',
    register_planes count i0 spec frame img = (img', true) ->
    (forall i,
        (i0 <= i < i0 + count)%nat ->
        img' i
        = Some {| plane_data := frame_data frame i;
                  plane_stride := frame_linesize frame i;
                  plane_user_data := Some frame |}
        /\ frame_data frame i mod spec_alignment spec = 0)
    /\ (forall i, ~ (i0 <= i < i0 + count)%nat -> img' i = img i).
Proof.
  induction count as [ | count IH ]; intros i0 spec frame img img' H;
    cbn [register_planes] in H.
  - injection H as <-. split; [ intros i Hi; lia | reflexivity ].
  - destruct (Z.eqb_spec (frame_data frame i0 mod spec_alignment spec) 0)
      as [Hal | ]; cbn [negb] in H; [ | discriminate H ].
    destruct (IH _ _ _ _ _ H) as [Hin Hout]. split.
    + intros i Hi. destruct (Nat.eq_dec i i0) as [-> | Hne].
      * split; [ | exact Hal ].
        rewrite Hout by lia. unfold de265_set_image_plane_intern.
        rewrite Nat.eqb_refl. reflexivity.
      * apply Hin. lia.
    + intros i Hi. rewrite Hout by lia.
      unfold de265_set_image_plane_intern.
      destruct (Nat.eqb_spec i i0); [ lia | reflexivity ].
Qed.

Lemma frame_from_hook_img :
  forall host spec format hook s,
    as_img (fst (frame_from_hook host spec format hook s)) = as_img s.
Proof.
  intros. unfold frame_from_hook.
  destruct (host_frame_alloc host); [ | reflexivity ].
  destruct (hook _) as [ret frame]. destruct (ret <? 0); reflexivity.
Qed.

Lemma obtain_frame_img :
  forall host spec format s,
    as_img (fst (obtain_frame host spec format s)) = as_img s.
Proof.
  intros host spec format s. unfold obtain_frame.
  destruct (get_buffer2 (as_avctx s)); [ apply frame_from_hook_img | ].
  unfold frame_from_pool, frame_from_alloc.
  destruct (frame_queue (as_dectx s)) as [ | frame rest ].
  - destruct (host_frame_alloc host); [ | reflexivity ].
    destruct (host_frame_get_buffer host _ _) as [ret f].
    destruct (negb (ret =? 0)); reflexivity.
  - destruct (_ || _); [ | reflexivity ].
    cbn [host_frame_alloc]. destruct (host_frame_alloc host);
      [ | reflexivity ].
    destruct (host_frame_get_buffer host _ _) as [ret f].
    destruct (negb (ret =? 0)); reflexivity.
Qed.

Lemma attach_spec_img :
  forall host spec frame s,
    as_img (fst (attach_spec host spec frame s)) = as_img s.
Proof.
  intros. unfold attach_spec.
  destruct (_ || _); [ | reflexivity ].
  destruct (spec_queue_len (as_dectx s) >? 0); [ reflexivity | ].
  destruct (host_malloc host); reflexivity.
Qed.

Lemma bridge_buffer_registered :
  forall host spec s s' frame,
    bridge_buffer host spec s = (s', Some frame) ->
    (forall i,
        (i < numplanes_of (spec_chroma spec))%nat ->
        as_img s' i
        = Some {| plane_data := frame_data frame i;
                  plane_stride := frame_linesize frame i;
                  plane_user_data := Some frame |}
        /\ frame_data frame i mod spec_alignment spec = 0)
    /\ (forall i,
           (numplanes_of (spec_chroma spec) <= i)%nat ->
           as_img s' i = as_img s i).
Proof.
  intros host spec s s' frame H. unfold bridge_buffer in H.
  destruct (negotiate_format spec) as [format | ]; [ | discriminate H ].
  pose proof (obtain_frame_img host spec format s) as Hi1.
  destruct (obtain_frame host spec format s) as [s1 [f1 | ] ];
    [ | discriminate H ].
  pose proof (attach_spec_img host spec f1 s1) as Hi2.
  destruct (attach_spec host spec f1 s1) as [s2 [f2 | ] ];
    [ | discriminate H ].
  cbn [fst] in Hi1, Hi2.
  destruct (register_planes _ _ _ _ _) as [img [ | ] ] eqn:Hreg;
    [ | discriminate H ].
  injection H as <- <-. cbn [as_img with_img].
  destruct (register_planes_done _ _ _ _ _ _ Hreg) as [Hin Hout].
  split.
  - intros i Hi. apply Hin. lia.
  - intros i Hi. rewrite Hout by lia. congruence.
Qed.

(** X14: when the allocate callback does not fall back it returns 1 and has
    registered every plane of the picture (1 for monochrome, 3 otherwise)
    with the engine: the plane's base pointer and line size are those of
    one frame, that frame is the plane's user data (so the release callback
    finds it on plane 0), and each base pointer is a multiple of the spec's
    alignment.  Planes beyond the picture's are left as they were. *)
Theorem bridged_planes_registered :
  forall (E : Engine) host avctx dectx img spec,
    alloc_fallback (ff_libde265dec_get_buffer host avctx dectx img spec)
    = false ->
    alloc_ret (ff_libde265dec_get_buffer host avctx dectx img spec) = 1
    /\ exists frame,
         de265_get_image_plane_user_data_intern
           (as_img
              (alloc_state
                 (ff_libde265dec_get_buffer host avctx dectx img spec))) 0
         = Some frame
         /\ (forall i,
                (i < numplanes_of (spec_chroma spec))%nat ->
                as_img
                  (alloc_state
                     (ff_libde265dec_get_buffer host avctx dectx img spec)) i
                = Some {| plane_data := frame_data frame i;
                          plane_stride := frame_linesize frame i;
                          plane_user_data := Some frame |}
                /\ frame_data frame i mod spec_alignment spec = 0)
         /\ (forall i,
                (numplanes_of (spec_chroma spec) <= i)%nat ->
                as_img
                  (alloc_state
                     (ff_libde265dec_get_buffer host avctx dectx img spec)) i
                = img i).
Proof.
  intros E host avctx dectx img spec. unfold ff_libde265dec_get_buffer.
  destruct (bridge_buffer host spec _) as [s [frame | ] ] eqn:Hb.
  - intros _. cbn [alloc_ret alloc_state]. split; [ reflexivity | ].
    destruct (bridge_buffer_registered _ _ _ _ _ Hb) as [Hin Hout].
    exists frame. split; [ | split; [ exact Hin | exact Hout ] ].
    unfold de265_get_image_plane_user_data_intern.
    destruct (Hin 0%nat) as [H0 _].
    { unfold numplanes_of. destruct (is_mono (spec_chroma spec)); lia. }
    rewrite H0. reflexivity.
  - destruct (default_get_buffer (as_img s) spec). discriminate.
Qed.

Lemma AVPixelFormat_eqb_refl :
  forall format, AVPixelFormat_eqb format format = true.
Proof. destruct format; reflexivity. Qed.

(** X15: the frame pool hands a released frame back.  Without an
    allocation hook, a frame released into the empty frame pool is the
    frame the next allocation obtains when its width, height and format are
    the spec's coded width, height and negotiated format: nothing is
    allocated or freed, the frame comes back with its descriptor detached
    and made writable, and the pool is empty again. *)
Theorem released_frame_is_reused :
  forall avctx ctx img frame host spec format s,
    get_buffer2 avctx = None ->
    de265_get_image_plane_user_data_intern img 0 = Some frame ->
    frame_queue ctx = [] ->
    frame_width frame = spec_width spec ->
    frame_height frame = spec_height spec ->
    frame_format frame = format ->
    get_buffer2 (as_avctx s) = None ->
    as_dectx s = fst (ff_libde265dec_release_buffer avctx ctx img) ->
    frame_queue (as_dectx s) = [set_frame_opaque None frame]
    /\ obtain_frame host spec format s
       = (with_dectx (set_frame_queue [] (as_dectx s)) s,
          Some (host_make_writable host (set_frame_opaque None frame))).
Proof.
  intros avctx ctx img frame host spec format s Hh Himg Hq Hw Hht Hfmt Hh'
    Hs.
  assert (Hpool : frame_queue (as_dectx s) = [set_frame_opaque None frame]).
  { rewrite Hs. unfold ff_libde265dec_release_buffer. rewrite Himg, Hh.
    assert (Hf : forall c ev,
               frame_queue c = [] ->
               frame_queue
                 (fst (if frame_queue_len c =? MAX_FRAME_QUEUE
                       then (c, ev ++ [EvFrameFree
                                         (set_frame_opaque None frame)])
                       else (set_frame_queue
                               (frame_queue c
                                ++ [set_frame_opaque None frame]) c, ev)))
               = [set_frame_opaque None frame]).
    { intros c ev Hc. unfold frame_queue_len. rewrite Hc. reflexivity. }
    destruct (frame_opaque frame) as [sp | ].
    - pose proof (free_spec_frames ctx sp) as Hfs.
      destruct (free_spec ctx sp) as [c ev]. cbn [fst] in Hfs.
      apply Hf. congruence.
    - apply Hf. exact Hq. }
  split; [ exact Hpool | ].
  unfold obtain_frame, frame_from_pool. rewrite Hh', Hpool.
  cbn [frame_width frame_height frame_format set_frame_opaque].
  rewrite Hw, Hht, Hfmt, !Z.eqb_refl, AVPixelFormat_eqb_refl.
  reflexivity.
Qed.

(** X16: a misaligned plane costs a pooled descriptor.  When the frame
    needs deferred cropping, the descriptor pool is not empty and a plane
    of the frame turns out misaligned, the bridge falls back after having
    taken the last descriptor from the pool: the frame is freed, but the
    descriptor is neither put back nor freed, and the pool stays one entry
    shorter. *)
Theorem misaligned_frame_loses_descriptor :
  forall host spec s format s1 frame i,
    negotiate_format spec = Some format ->
    obtain_frame host spec format s = (s1, Some frame) ->
    needs_crop spec frame = true ->
    spec_queue (as_dectx s1) <> [] ->
    (i < numplanes_of (spec_chroma spec))%nat ->
    frame_data frame i mod spec_alignment spec <> 0 ->
    exists s',
      bridge_buffer host spec s = (s', None)
      /\ spec_queue (as_dectx s') = removelast (spec_queue (as_dectx s1))
      /\ frame_queue (as_dectx s') = frame_queue (as_dectx s1)
      /\ as_events s'
         = as_events s1
           ++ [EvFrameFree (set_frame_opaque (Some spec) frame)].
Proof.
  intros host spec s format s1 frame i Hneg Hob Hcrop Hq Hi Hmis.
  unfold bridge_buffer. rewrite Hneg, Hob. unfold attach_spec.
  unfold needs_crop in Hcrop. rewrite Hcrop.
  assert (Hlen : (spec_queue_len (as_dectx s1) >? 0) = true).
  { unfold spec_queue_len.
    destruct (spec_queue (as_dectx s1)); [ contradiction | ].
    simpl length. apply Z.gtb_lt. lia. }
  rewrite Hlen.
  pose proof (register_planes_misaligned
                (numplanes_of (spec_chroma spec)) 0 spec
                (set_frame_opaque (Some spec) frame)
                (as_img
                   (with_dectx
                      (set_spec_queue (removelast (spec_queue (as_dectx s1)))
                         (as_dectx s1)) s1)) i) as Hreg.
  destruct (register_planes _ _ _ _ _) as [img ok]. cbn [snd] in Hreg.
  rewrite Hreg by (exact Hmis || lia).
  eexists. split; [ reflexivity | ]. repeat split.
Qed.

Lemma obtain_frame_coded_size :
  forall host spec format s s1 frame,
    host_keeps_size host ->
    get_buffer2 (as_avctx s) = None ->
    obtain_frame host spec format s = (s1, Some frame) ->
    frame_width frame = spec_width spec
    /\ frame_height frame = spec_height spec.
Proof.
  intros host spec format s s1 frame [Hmw Hgb] Hh H.
  unfold obtain_frame in H. rewrite Hh in H.
  assert (Halloc : forall s0,
             frame_from_alloc host spec format s0 = (s1, Some frame) ->
             frame_width frame = spec_width spec
             /\ frame_height frame = spec_height spec).
  { intros s0 Ha. unfold frame_from_alloc in Ha.
    destruct (host_frame_alloc host); [ | discriminate Ha ].
    destruct (Hgb (set_frame_dims (spec_width spec) (spec_height spec)
                     format blank_frame) (spec_alignment spec)) as [Hw Hht].
    destruct (host_frame_get_buffer host _ _) as [ret f].
    destruct (negb (ret =? 0)); [ discriminate Ha | ].
    injection Ha as _ <-. cbn [snd] in *. split; assumption. }
  unfold frame_from_pool in H.
  destruct (frame_queue (as_dectx s)) as [ | f rest ];
    [ eapply Halloc; exact H | ].
  destruct (Z.eqb_spec (frame_width f) (spec_width spec)) as [Hw | ];
    cbn [negb orb] in H; [ | eapply Halloc; exact H ].
  destruct (Z.eqb_spec (frame_height f) (spec_height spec)) as [Hht | ];
    cbn [negb orb] in H; [ | eapply Halloc; exact H ].
  destruct (negb (AVPixelFormat_eqb (frame_format f) format));
    [ eapply Halloc; exact H | ].
  injection H as _ <-. destruct (Hmw f) as [-> ->]. split; assumption.
Qed.

Lemma crop_planes_size :
  forall count i spec picture,
    frame_width (crop_planes count i spec picture) = frame_width picture
    /\ frame_height (crop_planes count i spec picture)
       = frame_height picture
    /\ frame_format (crop_planes count i spec picture)
       = frame_format picture
    /\ frame_linesize (crop_planes count i spec picture)
       = frame_linesize picture
    /\ (forall j,
           ~ (i <= j < i + count)%nat ->
           frame_data (crop_planes count i spec picture) j
           = frame_data picture j).
Proof.
  induction count as [ | count IH ]; intros i spec picture;
    cbn [crop_planes].
  - repeat split.
  - destruct (IH (S i) spec
                (set_frame_data
                   (fun j =>
                      if Nat.eqb j i
                      then frame_data picture j
                           + crop_offset spec (frame_linesize picture i) i
                      else frame_data picture j) picture))
      as (Hw & Hh & Hf & Hl & Hd).
    rewrite Hw, Hh, Hf, Hl. repeat split.
    intros j Hj. rewrite Hd by lia. cbn [frame_data set_frame_data].
    destruct (Nat.eqb_spec j i); [ lia | reflexivity ].
Qed.

(** X17: allocation and retrieval compose.  Without an allocation hook and
    with a host that keeps frame sizes, a frame the bridge delivers for a
    spec whose coded size is not its visible size carries a copy of that
    spec; retrieving the picture through that frame gives it the spec's
    visible width and height, keeps its format and line sizes, detaches the
    descriptor and hands it to [free_spec]. *)
Theorem allocate_then_retrieve_crops :
  forall host spec s s' frame ctx chroma picture,
    host_keeps_size host ->
    get_buffer2 (as_avctx s) = None ->
    bridge_buffer host spec s = (s', Some frame) ->
    spec_width spec <> visible_width spec
    \/ spec_height spec <> visible_height spec ->
    frame_opaque frame = Some spec
    /\ exists ctx' picture' frame' ev,
         retrieve_bridged ctx chroma picture frame
         = (ctx', picture', frame', ev)
         /\ frame_width picture' = visible_width spec
         /\ frame_height picture' = visible_height spec
         /\ frame_format picture' = frame_format frame
         /\ frame_linesize picture' = frame_linesize frame
         /\ frame_opaque frame' = None
         /\ (ctx', ev) = free_spec ctx spec.
Proof.
  intros host spec s s' frame ctx chroma picture Hhost Hh Hb Hcrop.
  assert (Hop : frame_opaque frame = Some spec).
  { unfold bridge_buffer in Hb.
    destruct (negotiate_format spec) as [format | ]; [ | discriminate Hb ].
    destruct (obtain_frame host spec format s) as [s1 [f1 | ] ] eqn:Hob;
      [ | discriminate Hb ].
    destruct (obtain_frame_coded_size host spec format s s1 f1 Hhost Hh Hob)
      as [Hw Hht].
    unfold attach_spec in Hb. rewrite Hw, Hht in Hb.
    assert (Hneed : negb (spec_width spec =? visible_width spec)
                    || negb (spec_height spec =? visible_height spec)
                    = true).
    { destruct (Z.eqb_spec (spec_width spec) (visible_width spec));
        destruct (Z.eqb_spec (spec_height spec) (visible_height spec));
        cbn; try reflexivity. lia. }
    rewrite Hneed in Hb.
    destruct (spec_queue_len (as_dectx s1) >? 0);
      [ | destruct (host_malloc host); [ | discriminate Hb ] ];
      (destruct (register_planes _ _ _ _ _) as [img [ | ] ];
       [ | discriminate Hb ]);
      injection Hb as _ <-; reflexivity. }
  split; [ exact Hop | ].
  unfold retrieve_bridged, av_frame_ref. rewrite Hop.
  destruct (free_spec ctx spec) as [ctx' ev].
  eexists _, _, _, _. split; [ reflexivity | ].
  destruct (crop_planes_size (numplanes_of chroma) 0 spec
              (set_frame_size (visible_width spec) (visible_height spec)
                 frame)) as (Hw & Hh' & Hf & Hl & _).
  rewrite Hw, Hh', Hf, Hl. repeat split.
Qed.

(** ** Further properties of the PlaneConverter *)

Lemma memcpy_outside :
  forall src n s d m a,
    ~ (d <= a < d + Z.max 0 n) -> memcpy src n s d m a = m a.
Proof.
  intros src n s d m a Ha. unfold memcpy.
  apply (for_each_frame (fun s d m => store8 m d (src s)) 1 1 1 ltac:(lia)).
  - intros s0 d0 m0 a0 H. apply store8_neq. lia.
  - lia.
Qed.

Lemma lines_outside :
  forall row stride linesize w h s d m a,
    0 <= w <= linesize ->
    (forall s d m a, ~ (d <= a < d + w) -> row s d m a = m a) ->
    ~ (d <= a < d + Z.of_nat h * linesize) ->
    for_each h row stride linesize s d m a = m a.
Proof.
  intros row stride linesize w h s d m a Hw Hrow Ha.
  apply (for_each_frame row stride linesize w Hw Hrow). exact Ha.
Qed.

Lemma half_size_fits :
  forall stride linesize,
    CInt.in_int stride -> CInt.in_int linesize -> 0 <= linesize ->
    0 <= 2 * Z.of_nat (Z.to_nat (CInt.div (CInt.min stride linesize) 2))
    <= linesize.
Proof.
  intros stride linesize Hs Hl H0. rewrite min_is_Zmin.
  split; [ lia | ].
  apply half_count_fits; [ | lia | exact H0 ].
  unfold CInt.in_int, CInt.INT_MIN, CInt.INT_MAX in *. lia.
Qed.

(** X18: the plane loop writes inside the plane only.  For a destination
    with a non-negative line size, one iteration of the plane loop leaves
    every byte outside the [plane_height * linesize] bytes from the plane's
    base pointer as it was, in each of its four branches, provided that in
    the 8-bit widening branch a destination line holds the widened
    samples. *)
Theorem convert_plane_stays_in_plane :
  forall src max_bits_per_pixel p dst_ptr linesize dst a,
    CInt.in_int (src_stride p) ->
    CInt.in_int linesize ->
    0 <= linesize ->
    (plane_bits_per_pixel p = 8 ->
     8 < max_bits_per_pixel ->
     2 * Z.min (src_stride p) linesize <= linesize) ->
    ~ (dst_ptr <= a < dst_ptr + Z.max 0 (plane_height p) * linesize) ->
    convert_plane src max_bits_per_pixel p dst_ptr linesize dst a = dst a.
Proof.
  intros src maxb p dst_ptr linesize dst a Hs Hl H0 Hwide Ha.
  assert (Hrange :
            ~ (dst_ptr <= a
               < dst_ptr + Z.of_nat (Z.to_nat (plane_height p)) * linesize)).
  { replace (Z.of_nat (Z.to_nat (plane_height p)))
      with (Z.max 0 (plane_height p)) by lia. exact Ha. }
  pose proof (half_size_fits (src_stride p) linesize Hs Hl H0) as Hhalf.
  unfold convert_plane.
  destruct (Z.gtb_spec (plane_bits_per_pixel p) maxb).
  { eapply lines_outside; [ exact Hhalf | | exact Hrange ].
    intros s d m x Hx.
    apply (row_frame
             (fun y => CInt.to_u16
                         (CInt.shr (load16 src y)
                            (CInt.sub (plane_bits_per_pixel p) maxb)))
             _ 2 _ (fun _ _ _ => eq_refl)). lia. }
  destruct (Z.ltb_spec (plane_bits_per_pixel p) maxb); cbn [andb].
  - destruct (Z.gtb_spec (plane_bits_per_pixel p) 8).
    { eapply lines_outside; [ exact Hhalf | | exact Hrange ].
      intros s d m x Hx.
      apply (row_frame
               (fun y => CInt.to_u16
                           (CInt.shl (load16 src y)
                              (CInt.sub maxb (plane_bits_per_pixel p))))
               _ 2 _ (fun _ _ _ => eq_refl)). lia. }
    destruct (Z.eqb_spec (plane_bits_per_pixel p) 8) as [H8 | ].
    + specialize (Hwide H8 ltac:(lia)). rewrite min_is_Zmin.
      eapply (lines_outside _ _ _
                (2 * Z.of_nat (Z.to_nat (Z.min (src_stride p) linesize))));
        [ lia | | exact Hrange ].
      intros s d m x Hx.
      apply (row_frame
               (fun y => CInt.to_u16
                           (CInt.shl (u8 (src y))
                              (CInt.sub maxb (plane_bits_per_pixel p))))
               _ 1 _ (fun _ _ _ => eq_refl)). lia.
    + unfold av_image_copy_plane.
      destruct ((dst_ptr =? 0) || (src_ptr p =? 0)); [ reflexivity | ].
      rewrite min_is_Zmin.
      eapply (lines_outside _ _ _
                (Z.max 0 (Z.min (src_stride p) linesize)));
        [ lia | | exact Hrange ].
      intros s d m x Hx. apply memcpy_outside. exact Hx.
  - unfold av_image_copy_plane.
    destruct ((dst_ptr =? 0) || (src_ptr p =? 0)); [ reflexivity | ].
    rewrite min_is_Zmin.
    eapply (lines_outside _ _ _ (Z.max 0 (Z.min (src_stride p) linesize)));
      [ lia | | exact Hrange ].
    intros s d m x Hx. apply memcpy_outside. exact Hx.
Qed.

Lemma for_each_last :
  forall count body ds dd s d m,
    for_each (S count) body ds dd s d m
    = body (s + Z.of_nat count * ds) (d + Z.of_nat count * dd)
        (for_each count body ds dd s d m).
Proof.
  induction count as [ | count IH ]; intros body ds dd s d m.
  - cbn [for_each]. f_equal; lia.
  - rewrite Nat2Z.inj_succ.
    change (for_each (S (S count)) body ds dd s d m)
      with (for_each (S count) body ds dd (s + ds) (d + dd) (body s d m)).
    rewrite IH. cbn [for_each]. f_equal; lia.
Qed.

(** X19: the 8-bit widening branch stores one 16-bit sample per source
    byte, [min (stride, linesize)] samples a line, with no regard to the
    bytes a destination line has.  On the last line of the plane every one
    of them stays: the sample at position [pos] is the source byte shifted
    left, also when [linesize <= 2 * pos], where it lies at or past the end
    of the [plane_height * linesize] bytes of the plane. *)
Theorem widening_last_line_unbounded :
  forall src max_bits_per_pixel p dst_ptr linesize dst pos,
    plane_bits_per_pixel p = 8 ->
    8 < max_bits_per_pixel <= 16 ->
    1 <= plane_height p ->
    0 <= pos < Z.min (src_stride p) linesize ->
    load16 (convert_plane src max_bits_per_pixel p dst_ptr linesize dst)
      (dst_ptr + (plane_height p - 1) * linesize + 2 * pos)
    = Z.shiftl
        (u8 (src (src_ptr p + (plane_height p - 1) * src_stride p + pos)))
        (max_bits_per_pixel - 8)
    /\ (linesize <= 2 * pos ->
        dst_ptr + plane_height p * linesize
        <= dst_ptr + (plane_height p - 1) * linesize + 2 * pos).
Proof.
  intros src maxb p dst_ptr linesize dst pos H8 Hmax Hh Hpos.
  split; [ | lia ].
  unfold convert_plane. rewrite H8, min_is_Zmin.
  destruct (Z.gtb_spec 8 maxb); [ lia | ].
  destruct (Z.ltb_spec 8 maxb); [ | lia ].
  cbn [Z.gtb Z.compare Pos.compare Pos.compare_cont Z.eqb Pos.eqb andb].
  assert (Hsub : CInt.sub maxb 8 = maxb - 8)
    by (unfold CInt.sub; apply to_int_id; int_range).
  rewrite Hsub.
  replace (Z.to_nat (plane_height p))
    with (S (Z.to_nat (plane_height p - 1))) by lia.
  rewrite for_each_last, Z2Nat.id by lia.
  pose proof (row_sample
                (fun y => CInt.to_u16 (CInt.shl (u8 (src y)) (maxb - 8)))
                (shift_left_8_16 src (maxb - 8)) 1
                (Z.to_nat (Z.min (src_stride p) linesize))
                (fun _ _ _ => eq_refl) (fun y => to_u16_range _)
                (src_ptr p + (plane_height p - 1) * src_stride p)
                (dst_ptr + (plane_height p - 1) * linesize)
                (for_each (Z.to_nat (plane_height p - 1))
                   (for_each (Z.to_nat (Z.min (src_stride p) linesize))
                      (shift_left_8_16 src (maxb - 8)) 1 2)
                   (src_stride p) linesize (src_ptr p) dst_ptr dst)
                (Z.to_nat pos) ltac:(lia)) as Hload.
  rewrite Z2Nat.id in Hload by lia. rewrite Hload.
  replace (src_ptr p + (plane_height p - 1) * src_stride p + pos * 1)
    with (src_ptr p + (plane_height p - 1) * src_stride p + pos) by lia.
  pose proof (u8_range
                (src (src_ptr p + (plane_height p - 1) * src_stride p + pos)))
    as Hu.
  destruct (shiftl_small
              (u8 (src (src_ptr p + (plane_height p - 1) * src_stride p
                        + pos)))
              (maxb - 8) ltac:(lia) ltac:(lia)) as [-> _].
  unfold CInt.to_u16. apply Z.mod_small.
  rewrite Z.shiftl_mul_pow2 by lia.
  assert (0 < 2 ^ (maxb - 8) <= 2 ^ 8)
    by (split; [ apply Z.pow_pos_nonneg; lia | apply Z.pow_le_mono_r; lia ]).
  change (2 ^ 8) with 256 in *. change (2 ^ 16) with 65536. nia.
Qed.

(** X20: which pictures reach the plane loop.  A picture is copied plane by
    plane exactly when it has three planes and their strides are not all
    equal; a monochrome picture, and a three-plane picture with equal
    strides, are handed to [av_image_copy] in one pass, whatever the bit
    depths of their planes. *)
Theorem copy_picture_gate :
  forall chroma format width height img src picture dst,
    copy_picture chroma format width height img src picture dst
    = if is_mono chroma
         || ((src_stride (img 0%nat) =? src_stride (img 1%nat))
             && (src_stride (img 1%nat) =? src_stride (img 2%nat)))
      then av_image_copy (frame_data picture) (frame_linesize picture) src
             (fun i =>
                if (i <? numplanes_of chroma)%nat then src_ptr (img i)
                else 0)
             (fun i =>
                if (i <? numplanes_of chroma)%nat then src_stride (img i)
                else 0)
             format width height dst
      else convert_planes 3 0 src (get_output_bits_per_pixel format) img
             picture dst.
Proof.
  intros chroma format width height img src picture dst.
  unfold copy_picture, numplanes_of.
  destruct (is_mono chroma); cbn [orb]; [ reflexivity | ].
  cbn [Nat.sub equal_strides_loop Nat.ltb Nat.leb].
  destruct (src_stride (img 0%nat) =? src_stride (img 1%nat));
    cbn [negb andb]; [ | reflexivity ].
  destruct (src_stride (img 1%nat) =? src_stride (img 2%nat));
    reflexivity.
Qed.

(** ** Properties of the settings, the set-up and the codec registry *)

(** X21: decoder settings are passed on only when they change.  After the
    settings step the context records the loop-filter wish (1 when
    [skip_loop_filter] is below [AVDISCARD_NONREF], else 0) and the frame
    ratio (100 when [skip_frame] is below it, else 25); a second step with
    the same wishes makes no engine call and leaves the context as it is;
    and the step never touches the framing fields or the pools. *)
Theorem settings_pushed_on_change_only :
  forall skip_loop_filter skip_frame ctx,
    deblocking (fst (update_settings skip_loop_filter skip_frame ctx))
    = (if skip_loop_filter <? AVDISCARD_NONREF then 1 else 0)
    /\ decode_ratio (fst (update_settings skip_loop_filter skip_frame ctx))
       = (if skip_frame <? AVDISCARD_NONREF then 100 else 25)
    /\ update_settings skip_loop_filter skip_frame
         (fst (update_settings skip_loop_filter skip_frame ctx))
       = (fst (update_settings skip_loop_filter skip_frame ctx), [])
    /\ set_framing (check_extra ctx) (packetized ctx) (length_size ctx)
         (fst (update_settings skip_loop_filter skip_frame ctx))
       = fst (update_settings skip_loop_filter skip_frame ctx)
    /\ frame_queue (fst (update_settings skip_loop_filter skip_frame ctx))
       = frame_queue ctx
    /\ spec_queue (fst (update_settings skip_loop_filter skip_frame ctx))
       = spec_queue ctx.
Proof.
  intros a b [ce pk ls db dr fq sq]. unfold update_settings.
  set (d := if a <? AVDISCARD_NONREF then 1 else 0).
  set (r := if b <? AVDISCARD_NONREF then 100 else 25).
  cbn [deblocking].
  destruct (Z.eqb_spec d db) as [Hd | Hd];
    cbn [negb decode_ratio set_deblocking];
    (destruct (Z.eqb_spec r dr) as [Hr | Hr]);
    try rewrite <- Hd; try rewrite <- Hr;
    repeat (cbn [negb fst snd app deblocking decode_ratio set_deblocking
                 set_decode_ratio check_extra packetized length_size
                 frame_queue spec_queue set_framing];
            rewrite ?Z.eqb_refl);
    repeat split.
Qed.

(** X22: the worker configuration.  For a processor count between 0 and
    2^28, the number of frames decoded in parallel is at least 2, never 4,
    and half the processor count (rounded down) whenever that is 2, 3 or at
    least 5; the number of worker threads is five times as many. *)
Theorem worker_configuration :
  forall cpu_count,
    0 <= cpu_count <= 2 ^ 28 ->
    2 <= frames_in_parallel cpu_count
    /\ frames_in_parallel cpu_count <> 4
    /\ (2 <= cpu_count / 2 ->
        cpu_count / 2 <> 4 ->
        frames_in_parallel cpu_count = cpu_count / 2)
    /\ worker_threads cpu_count = 5 * frames_in_parallel cpu_count.
Proof.
  intros cpu Hc. unfold worker_threads, frames_in_parallel, CInt.div,
    CInt.mul.
  rewrite Z.quot_div_nonneg by lia.
  assert (Hd : 0 <= cpu / 2 <= 2 ^ 27).
  { split; [ apply Z.div_pos; lia | ].
    apply Z.div_le_upper_bound; lia. }
  rewrite to_int_id by int_range.
  destruct (Z.leb_spec (cpu / 2) 1); cbn [Z.eqb Pos.eqb].
  - repeat split; try lia; try (rewrite to_int_id by int_range; lia).
  - destruct (Z.eqb_spec (cpu / 2) 4);
      repeat split; try lia; try (rewrite to_int_id by int_range; lia).
Qed.

Lemma unregister_loop_linked :
  forall id prev codecs,
    unregister_loop id (Some prev) codecs
    = filter (fun codec => negb (codec_id codec =? id)) codecs.
Proof.
  intros id prev codecs. revert prev.
  induction codecs as [ | codec next IH ]; intro prev; [ reflexivity | ].
  cbn [unregister_loop filter].
  destruct (codec_id codec =? id); cbn [negb];
    [ apply IH | rewrite IH; reflexivity ].
Qed.

(** X23: unregistering by id unlinks every codec with the id except the
    first codec of the registry, which stays whatever its id; the other
    codecs stay, in their order. *)
Theorem unregister_keeps_first_and_other_ids :
  forall id codecs,
    ff_libde265dec_unregister_codecs id codecs
    = match codecs with
      | [] => []
      | first :: rest =>
          first :: filter (fun codec => negb (codec_id codec =? id)) rest
      end.
Proof.
  intros id [ | first rest ]; [ reflexivity | ].
  unfold ff_libde265dec_unregister_codecs. cbn [unregister_loop].
  destruct (codec_id first =? id); rewrite unregister_loop_linked;
    reflexivity.
Qed.

(** ** Instances of the further properties *)

Lemma negotiate_format_iff_grid_point_witness :
  negotiate_format plain_spec_420 = Some AV_PIX_FMT_YUV420P.
Proof.
  apply (negotiate_format_iff_grid_point plain_spec_420 AV_PIX_FMT_YUV420P).
  split.
  - right. left. reflexivity.
  - intros _. reflexivity.
Defined.

Lemma framing_settled_by_first_call_witness :
  check_extra (set_framing 0 1 4 ff_libde265dec_ctx_init) = 0
  /\ set_framing 0 1 4 ff_libde265dec_ctx_init
     = set_framing 0 1 4 ff_libde265dec_ctx_init.
Proof.
  eapply (framing_settled_by_first_call (E := recording_engine) 8 8
            plain_avctx (with_extradata sample_record plain_avctx)
            ff_libde265dec_ctx_init truncated_packet truncated_packet
            empty_feed empty_feed); reflexivity.
Defined.

Lemma reachable_framing_in_range_witness :
  (1 <= length_size (set_framing 0 0 4 ff_libde265dec_ctx_init) <= 4
   /\ (packetized (set_framing 0 0 4 ff_libde265dec_ctx_init) = 0
       \/ packetized (set_framing 0 0 4 ff_libde265dec_ctx_init) = 1))
  /\ (frame_queue (set_framing 0 0 4 one_descriptor_ctx)
      = frame_queue one_descriptor_ctx
      /\ spec_queue (set_framing 0 0 4 one_descriptor_ctx)
         = spec_queue one_descriptor_ctx).
Proof.
  destruct (reachable_framing_in_range (E := recording_engine)
              (with_extradata start_code_block plain_avctx)) as [Hrange Hpools].
  split.
  - apply Hrange.
    apply (reachable_decode (with_extradata start_code_block plain_avctx)
             ff_libde265dec_ctx_init 8 truncated_packet empty_feed
             (set_framing 0 0 4 ff_libde265dec_ctx_init)
             {| feed_decoder :=
                  [start_code_block; [x00; x00; x00; x05; xaa]]
                  : @decoder recording_engine;
                feed_log := [PushData 0 5 0; EndOfNAL; PushData 0 5 0] |}
             (Proceed tt) (reachable_init _)).
    reflexivity.
  - apply (Hpools 8%nat one_descriptor_ctx truncated_packet empty_feed
             (set_framing 0 0 4 one_descriptor_ctx)
             {| feed_decoder :=
                  [start_code_block; [x00; x00; x00; x05; xaa]]
                  : @decoder recording_engine;
                feed_log := [PushData 0 5 0; EndOfNAL; PushData 0 5 0] |}
             (Proceed tt)).
    reflexivity.
Defined.
Lemma decode_input_error_is_invalid_data_witness :
  exists ctx' fd' code,
    decode_input (E := recording_engine) 8
      (with_extradata truncated_record plain_avctx) ff_libde265dec_ctx_init
      truncated_packet empty_feed
    = Some (ctx', fd', Return code)
    /\ code = AVERROR_INVALIDDATA.
Proof.
  eexists _, _, _. split; [ reflexivity | ].
  eapply (decode_input_error_is_invalid_data (E := recording_engine) 8
            (with_extradata truncated_record plain_avctx)
            ff_libde265dec_ctx_init truncated_packet empty_feed).
  reflexivity.
Defined.

Lemma start_code_selects_raw_framing_witness :
  exists ctx' fd',
    check_extradata (E := refusing_engine)
      (with_extradata start_code_block plain_avctx) ff_libde265dec_ctx_init
      {| feed_decoder := [] : @decoder refusing_engine; feed_log := [] |}
    = (ctx', fd', Return AVERROR_INVALIDDATA)
    /\ packetized ctx' = 0
    /\ length_size ctx' = length_size ff_libde265dec_ctx_init
    /\ feed_log fd' = [PushData 0 5 0].
Proof.
  destruct (start_code_selects_raw_framing (E := refusing_engine)
              (with_extradata start_code_block plain_avctx)
              ff_libde265dec_ctx_init
              {| feed_decoder := [] : @decoder refusing_engine;
                 feed_log := [] |} x00 [x01; x40])
    as (ctx' & fd' & Hx & Hp & Hl & Hlog & _).
  - reflexivity.
  - reflexivity.
  - vm_compute. discriminate.
  - discriminate.
  - exists ctx', fd'. repeat split; assumption.
Defined.

Lemma raw_packet_is_one_chunk_witness :
  decode_input (E := recording_engine) 0 plain_avctx
    (set_framing 0 0 4 ff_libde265dec_ctx_init) truncated_packet empty_feed
  = Some (set_framing 0 0 4 ff_libde265dec_ctx_init,
          {| feed_decoder :=
               [[x00; x00; x00; x05; xaa]] : @decoder recording_engine;
             feed_log := [PushData 0 5 0] |},
          Proceed tt).
Proof.
  apply (raw_packet_is_one_chunk (E := recording_engine) 0 plain_avctx
           (set_framing 0 0 4 ff_libde265dec_ctx_init) truncated_packet
           empty_feed); reflexivity.
Defined.

Lemma packet_loop_terminates_below_4_bytes_witness :
  exists fd' r,
    packet_nal_loop (E := recording_engine) 6 2 truncated_packet 0 0
      empty_feed = Some (fd', r)
    /\ (r = Return AVERROR_INVALIDDATA
        \/ exists pos,
             r = Proceed pos /\ avpkt_size truncated_packet < pos + 2).
Proof.
  apply (packet_loop_terminates_below_4_bytes (E := recording_engine) 6 2
           truncated_packet 0 empty_feed).
  - lia.
  - simpl. lia.
Defined.

Lemma packet_loop_can_spin_witness :
  packet_nal_loop (E := recording_engine) 1000 4
    (packet_of [xff; xff; xff; xfc; xaa] 0) 0 0 empty_feed
  = None.
Proof.
  apply (packet_loop_can_spin (E := recording_engine) 1000 [xaa] 0
           empty_feed).
  intros d off size. reflexivity.
Defined.

Lemma record_then_packet_demuxed_witness :
  exists ctx' fd' subs1 subs2,
    decode_input (E := recording_engine) 3
      (with_extradata sample_record plain_avctx) ff_libde265dec_ctx_init
      (packet_of
         (length_prefixed (Z.land (u8 (byte_at sample_record 21)) 3 + 1)
            [[xaa; xbb]; [xcc]]) 7) empty_feed
    = Some (ctx', fd', Proceed tt)
    /\ packetized ctx' = 1
    /\ length_size ctx' = Z.land (u8 (byte_at sample_record 21)) 3 + 1
    /\ feed_log fd' = feed_log empty_feed ++ subs1 ++ [EndOfNAL] ++ subs2
    /\ map (nal_payload sample_record) subs1 = map Some [[xaa; xbb]]
    /\ map (nal_payload
              (length_prefixed
                 (Z.land (u8 (byte_at sample_record 21)) 3 + 1)
                 [[xaa; xbb]; [xcc]])) subs2
       = map Some [[xaa; xbb]; [xcc]].
Proof.
  apply (record_then_packet_demuxed (E := recording_engine)
           (with_extradata sample_record plain_avctx) empty_feed
           sample_record [[xaa; xbb]] [[xaa; xbb]; [xcc]] 7 3).
  - reflexivity.
  - reflexivity.
  - split; reflexivity.
  - reflexivity.
  - reflexivity.
  - discriminate.
  - repeat constructor.
  - vm_compute. discriminate.
  - discriminate.
  - intros d off len. reflexivity.
  - intros d off len. reflexivity.
  - simpl. lia.
Defined.

Lemma hook_keeps_frame_pool_empty_witness :
  frame_queue
    (run_pool_ops (E := recording_engine) ff_libde265dec_ctx_init
       [OpReleaseBuffer hook_avctx (image_of_frame pooled_frame_420);
        OpGetBuffer (host_with_planes (fun _ => 4096)) hook_avctx
          empty_image plain_spec_420])
  = [].
Proof.
  apply (hook_keeps_frame_pool_empty (E := recording_engine)).
  reflexivity.
Defined.

Lemma bridged_planes_registered_witness :
  alloc_ret
    (ff_libde265dec_get_buffer (E := recording_engine)
       (host_with_planes (fun i => 4096 * (1 + Z.of_nat i))) plain_avctx
       ff_libde265dec_ctx_init empty_image plain_spec_420)
  = 1.
Proof.
  apply (bridged_planes_registered recording_engine
           (host_with_planes (fun i => 4096 * (1 + Z.of_nat i))) plain_avctx
           ff_libde265dec_ctx_init empty_image plain_spec_420).
  reflexivity.
Defined.

Lemma released_frame_is_reused_witness :
  frame_queue
    (as_dectx
       (plain_state
          (fst (ff_libde265dec_release_buffer plain_avctx
                  ff_libde265dec_ctx_init
                  (image_of_frame pooled_frame_420)))))
  = [set_frame_opaque None pooled_frame_420]
  /\ obtain_frame (host_with_planes (fun _ => 4096)) plain_spec_420
       AV_PIX_FMT_YUV420P
       (plain_state
          (fst (ff_libde265dec_release_buffer plain_avctx
                  ff_libde265dec_ctx_init
                  (image_of_frame pooled_frame_420))))
     = (with_dectx
          (set_frame_queue []
             (as_dectx
                (plain_state
                   (fst (ff_libde265dec_release_buffer plain_avctx
                           ff_libde265dec_ctx_init
                           (image_of_frame pooled_frame_420))))))
          (plain_state
             (fst (ff_libde265dec_release_buffer plain_avctx
                     ff_libde265dec_ctx_init
                     (image_of_frame pooled_frame_420)))),
        Some (host_make_writable (host_with_planes (fun _ => 4096))
                (set_frame_opaque None pooled_frame_420))).
Proof.
  apply (released_frame_is_reused plain_avctx ff_libde265dec_ctx_init
           (image_of_frame pooled_frame_420) pooled_frame_420
           (host_with_planes (fun _ => 4096)) plain_spec_420
           AV_PIX_FMT_YUV420P); reflexivity.
Defined.

Lemma misaligned_frame_loses_descriptor_witness :
  exists s',
    bridge_buffer (host_with_planes (fun _ => 4100)) cropped_spec_444
      (plain_state one_descriptor_ctx) = (s', None)
    /\ spec_queue (as_dectx s') = []
    /\ as_events s'
       = [EvFrameAlloc;
          EvFrameFree
            (set_frame_opaque (Some cropped_spec_444)
               (set_frame_data (fun _ => 4100)
                  (set_frame_dims 64 32 AV_PIX_FMT_YUV444P blank_frame)))].
Proof.
  destruct (misaligned_frame_loses_descriptor
              (host_with_planes (fun _ => 4100)) cropped_spec_444
              (plain_state one_descriptor_ctx) AV_PIX_FMT_YUV444P
              (emit [EvFrameAlloc] (plain_state one_descriptor_ctx))
              (set_frame_data (fun _ => 4100)
                 (set_frame_dims 64 32 AV_PIX_FMT_YUV444P blank_frame))
              0%nat)
    as (s' & Hb & Hq & _ & Hev).
  - reflexivity.
  - reflexivity.
  - reflexivity.
  - discriminate.
  - unfold numplanes_of. simpl. lia.
  - vm_compute. discriminate.
  - exists s'. split; [ exact Hb | split; [ exact Hq | exact Hev ] ].
Defined.

Lemma host_with_planes_keeps_size :
  forall data, host_keeps_size (host_with_planes data).
Proof.
  intro data. split; intros; split; reflexivity.
Qed.

Lemma allocate_then_retrieve_crops_witness :
  frame_opaque
    (set_frame_opaque (Some cropped_spec_444)
       (set_frame_data (fun _ => 4096)
          (set_frame_dims 64 32 AV_PIX_FMT_YUV444P blank_frame)))
  = Some cropped_spec_444.
Proof.
  eapply (allocate_then_retrieve_crops (host_with_planes (fun _ => 4096))
            cropped_spec_444 (plain_state ff_libde265dec_ctx_init) _ _
            ff_libde265dec_ctx_init de265_chroma_444 blank_frame).
  - apply host_with_planes_keeps_size.
  - reflexivity.
  - reflexivity.
  - left. discriminate.
Defined.

Lemma convert_plane_stays_in_plane_witness :
  convert_plane sample_memory 16 ten_bit_plane 2000 8 blank_memory 2008
  = blank_memory 2008.
Proof.
  apply (convert_plane_stays_in_plane sample_memory 16 ten_bit_plane 2000 8
           blank_memory 2008).
  - unfold CInt.in_int, CInt.INT_MIN, CInt.INT_MAX. simpl. lia.
  - unfold CInt.in_int, CInt.INT_MIN, CInt.INT_MAX. lia.
  - lia.
  - simpl. discriminate.
  - simpl. lia.
Defined.

Lemma widening_last_line_unbounded_witness :
  load16 (convert_plane sample_memory 16 wide_stride_plane 2000 4
            blank_memory)
    (2000 + (plane_height wide_stride_plane - 1) * 4 + 2 * 3)
  = Z.shiftl
      (u8 (sample_memory
             (src_ptr wide_stride_plane
              + (plane_height wide_stride_plane - 1)
                * src_stride wide_stride_plane + 3)))
      (16 - 8)
  /\ (4 <= 2 * 3 ->
      2000 + plane_height wide_stride_plane * 4
      <= 2000 + (plane_height wide_stride_plane - 1) * 4 + 2 * 3).
Proof.
  apply (widening_last_line_unbounded sample_memory 16 wide_stride_plane
           2000 4 blank_memory 3).
  - reflexivity.
  - lia.
  - simpl. lia.
  - simpl. lia.
Defined.

Lemma worker_configuration_witness :
  2 <= frames_in_parallel 8
  /\ frames_in_parallel 8 <> 4
  /\ (2 <= 8 / 2 -> 8 / 2 <> 4 -> frames_in_parallel 8 = 8 / 2)
  /\ worker_threads 8 = 5 * frames_in_parallel 8.
Proof.
  apply (worker_configuration 8). lia.
Defined.

(** ** Bounds of the configuration record's submissions *)

Lemma read_be16_range :
  forall buf pos, 0 <= pos < 2 ^ 28 -> 0 <= read_be16 buf pos < 65536.
Proof.
  intros buf pos Hpos. unfold read_be16.
  pose proof (u8_range (byte_at buf pos)) as H0.
  pose proof (u8_range (byte_at buf (CInt.add pos 1))) as H1.
  unfold CInt.shl. rewrite to_int_id.
  - rewrite lor_shiftl_8 by lia. lia.
  - rewrite Z.shiftl_mul_pow2 by lia. int_range.
Qed.

Section RecordBounds.

Context {E : Engine}.
Variable block : list byte.
Variable size : Z.

Hypothesis size_small : 0 <= size < 2 ^ 28.


Lemma extra_nal_loop_inside :
  forall count pos fd,
    0 <= pos <= size ->
    exists subs,
      feed_log (fst (extra_nal_loop block size count pos fd))
      = feed_log fd ++ subs
      /\ forallb (inside size) subs = true
      /\ (forall pos',
             snd (extra_nal_loop block size count pos fd) = Proceed pos' ->
             pos <= pos' <= size).
Proof.
  induction count as [ | count IH ]; intros pos fd Hpos;
    cbn [extra_nal_loop].
  - exists []. rewrite app_nil_r. cbn [fst snd].
    split; [ reflexivity | split; [ reflexivity | ] ].
    intros pos' Hp. injection Hp as <-. lia.
  - assert (H2 : CInt.add pos 2 = pos + 2) by (apply add_small; lia).
    rewrite H2.
    destruct (Z.gtb_spec (pos + 2) size).
    { exists []. rewrite app_nil_r. cbn [fst snd].
      split; [ reflexivity | split; [ reflexivity | ] ].
      intros pos' Hp. discriminate Hp. }
    pose proof (read_be16_range block pos ltac:(lia)) as Hn.
    assert (H3 : CInt.add (pos + 2) (read_be16 block pos)
                 = pos + 2 + read_be16 block pos)
      by (apply add_small; lia).
    assert (H4 : CInt.add pos (CInt.add 2 (read_be16 block pos))
                 = pos + 2 + read_be16 block pos)
      by (rewrite (add_small 2) by lia; rewrite add_small by lia; lia).
    rewrite H3, H4.
    destruct (Z.gtb_spec (pos + 2 + read_be16 block pos) size).
    { exists []. rewrite app_nil_r. cbn [fst snd].
      split; [ reflexivity | split; [ reflexivity | ] ].
      intros pos' Hp. discriminate Hp. }
    unfold push_NAL.
    destruct (de265_push_NAL _ _ _ _ _) as [d err]. cbv beta iota.
    assert (Hin : in_bounds size (pos + 2) (read_be16 block pos) = true).
    { unfold in_bounds.
      destruct (Z.leb_spec 0 (pos + 2)); [ | lia ].
      destruct (Z.leb_spec 0 (read_be16 block pos)); [ | lia ].
      destruct (Z.leb_spec (pos + 2 + read_be16 block pos) size);
        [ reflexivity | lia ]. }
    destruct (negb (err =? 0)).
    { exists [PushNAL (pos + 2) (read_be16 block pos) 0]. cbn [fst snd].
      split; [ reflexivity | split ].
      - cbn [forallb inside]. rewrite Hin. reflexivity.
      - intros pos' Hp. discriminate Hp. }
    destruct (IH (pos + 2 + read_be16 block pos)
                {| feed_decoder := d;
                   feed_log := feed_log fd
                               ++ [PushNAL (pos + 2) (read_be16 block pos) 0]
                |}) as (subs & Hlog & Hall & Hpos'); [ lia | ].
    exists (PushNAL (pos + 2) (read_be16 block pos) 0 :: subs).
    split; [ rewrite Hlog; cbn [feed_log]; rewrite <- app_assoc;
             reflexivity | ].
    split; [ cbn [forallb inside]; rewrite Hin; exact Hall | ].
    intros pos' Hp. specialize (Hpos' pos' Hp). lia.
Qed.

Lemma extra_set_loop_inside :
  forall count pos fd,
    0 <= pos <= size ->
    exists subs,
      feed_log (fst (extra_set_loop block size count pos fd))
      = feed_log fd ++ subs
      /\ forallb (inside size) subs = true.
Proof.
  induction count as [ | count IH ]; intros pos fd Hpos;
    cbn [extra_set_loop].
  - exists []. rewrite app_nil_r. split; reflexivity.
  - assert (H1 : CInt.add pos 1 = pos + 1) by (apply add_small; lia).
    assert (H3 : CInt.add pos 3 = pos + 3) by (apply add_small; lia).
    rewrite H1, H3.
    destruct (Z.gtb_spec (pos + 3) size).
    { exists []. rewrite app_nil_r. split; reflexivity. }
    destruct (extra_nal_loop_inside
                (Z.to_nat (read_be16 block (pos + 1))) (pos + 3) fd)
      as (subs1 & Hlog1 & Hall1 & Hpos1); [ lia | ].
    destruct (extra_nal_loop block size _ (pos + 3) fd)
      as [fd1 [code | pos1] ]; cbn [fst snd] in *.
    + exists subs1. split; assumption.
    + destruct (IH pos1 fd1) as (subs2 & Hlog2 & Hall2);
        [ specialize (Hpos1 pos1 eq_refl); lia | ].
      exists (subs1 ++ subs2). split.
      * rewrite Hlog2, Hlog1, <- app_assoc. reflexivity.
      * rewrite forallb_app, Hall1, Hall2. reflexivity.
Qed.

End RecordBounds.

(** X25: the out-of-band block is parsed within its bounds.  For a declared
    size below 2^28, whatever the block holds and whatever the engine
    answers, every range the first call hands to the engine from the block
    lies inside the block's declared size. *)
Theorem extradata_submissions_inside_block :
  forall {E : Engine} (avctx : AVCodecContext) (ctx : DE265Context)
         (fd : Feed),
    extradata_size avctx < 2 ^ 28 ->
    exists subs,
      feed_log (snd (fst (check_extradata avctx ctx fd)))
      = feed_log fd ++ subs
      /\ forallb (inside (extradata_size avctx)) subs = true.
Proof.
  intros E avctx ctx fd Hsize. unfold check_extradata.
  assert (Hnil : exists subs,
             feed_log fd = feed_log fd ++ subs
             /\ forallb (inside (extradata_size avctx)) subs = true)
    by (exists []; rewrite app_nil_r; split; reflexivity).
  assert (Hend : forall fd' subs,
             feed_log fd' = feed_log fd ++ subs ->
             forallb (inside (extradata_size avctx)) subs = true ->
             exists subs',
               feed_log (push_end_of_NAL fd') = feed_log fd ++ subs'
               /\ forallb (inside (extradata_size avctx)) subs' = true).
  { intros fd' subs Hlog Hall. exists (subs ++ [EndOfNAL]).
    cbn [push_end_of_NAL feed_log]. rewrite Hlog, <- app_assoc.
    split; [ reflexivity | ].
    rewrite forallb_app, Hall. reflexivity. }
  destruct (negb (check_extra ctx =? 0)); [ | exact Hnil ].
  destruct (Z.gtb_spec (extradata_size avctx) 0) as [Hpos | Hpos];
    [ | exact Hnil ].
  destruct (looks_packetized avctx).
  - destruct (Z.gtb_spec (extradata_size avctx) 22) as [Hbig | Hbig].
    + destruct (extra_set_loop_inside (extradata_bytes avctx)
                  (extradata_size avctx) ltac:(lia)
                  (Z.to_nat (u8 (byte_at (extradata_bytes avctx) 22)))
                  23 fd) as (subs & Hlog & Hall).
      * lia.
      * destruct (extra_set_loop _ _ _ _ _) as [fd' [code | pos] ];
          cbn [fst snd] in *.
        -- exists subs. split; assumption.
        -- apply (Hend fd' subs); assumption.
    + cbn [fst snd]. apply (Hend fd []);
        [ rewrite app_nil_r; reflexivity | reflexivity ].
  - unfold push_data.
    destruct (de265_push_data _ _ _ _ _) as [d err]. cbv beta iota.
    assert (Hin : in_bounds (extradata_size avctx) 0 (extradata_size avctx)
                  = true).
    { unfold in_bounds.
      destruct (Z.leb_spec 0 (extradata_size avctx)); [ | lia ].
      destruct (Z.leb_spec (0 + extradata_size avctx)
                  (extradata_size avctx)); [ reflexivity | lia ]. }
    destruct (negb (err =? 0)); cbn [fst snd].
    + exists [PushData 0 (extradata_size avctx) 0].
      split; [ reflexivity | ]. cbn [forallb inside]. rewrite Hin.
      reflexivity.
    + apply (Hend _ [PushData 0 (extradata_size avctx) 0]);
        [ reflexivity | ]. cbn [forallb inside]. rewrite Hin. reflexivity.
Qed.


Lemma extradata_submissions_inside_block_witness :
  exists subs,
    feed_log (snd (fst (check_extradata
                          (with_extradata sample_record plain_avctx)
                          ff_libde265dec_ctx_init
                          empty_feed)))
    = feed_log empty_feed ++ subs
    /\ forallb (inside (extradata_size
                          (with_extradata sample_record plain_avctx)))
               subs = true.
Proof.
  apply (@extradata_submissions_inside_block recording_engine).
  vm_compute. reflexivity.
Defined.

(** ** Frame accounting of the two callbacks *)

Lemma frame_balance_app :
  forall ev1 ev2,
    frame_balance (ev1 ++ ev2) = frame_balance ev1 + frame_balance ev2.
Proof.
  induction ev1 as [ | e ev1 IH ]; intros ev2; cbn [app frame_balance].
  - reflexivity.
  - destruct e; rewrite IH; lia.
Qed.

Lemma frame_from_hook_held :
  forall host spec format hook s,
    frames_held (fst (frame_from_hook host spec format hook s))
    = frames_held s + kept (snd (frame_from_hook host spec format hook s)).
Proof.
  intros host spec format hook s. unfold frame_from_hook.
  destruct (host_frame_alloc host); [ | cbn; lia ].
  destruct (hook _) as [ret frame].
  destruct (ret <? 0); unfold frames_held, frames_out; cbn [fst snd kept emit with_avctx
    as_events as_dectx]; rewrite ?frame_balance_app; cbn [frame_balance];
    lia.
Qed.

Lemma frame_from_pool_held :
  forall host spec format s,
    frames_held (fst (frame_from_pool host spec format s))
    = frames_held s + kept (snd (frame_from_pool host spec format s)).
Proof.
  intros host spec format s. unfold frame_from_pool, frames_held, frames_out.
  unfold frame_queue_len.
  destruct (frame_queue (as_dectx s)) as [ | frame rest ] eqn:Hq.
  - cbn [fst snd kept]. rewrite Hq. cbn [length]. lia.
  - destruct (_ || _);
      cbn [fst snd kept emit with_dectx as_events as_dectx set_frame_queue
           frame_queue length];
      rewrite ?frame_balance_app; cbn [frame_balance]; lia.
Qed.

Lemma frame_from_alloc_held :
  forall host spec format s,
    frames_held (fst (frame_from_alloc host spec format s))
    = frames_held s + kept (snd (frame_from_alloc host spec format s)).
Proof.
  intros host spec format s. unfold frame_from_alloc.
  destruct (host_frame_alloc host); [ | cbn; lia ].
  destruct (host_frame_get_buffer _ _ _) as [ret frame].
  destruct (negb _); unfold frames_held, frames_out; cbn [fst snd kept emit
    as_events as_dectx]; rewrite ?frame_balance_app; cbn [frame_balance];
    lia.
Qed.

Lemma obtain_frame_held :
  forall host spec format s,
    frames_held (fst (obtain_frame host spec format s))
    = frames_held s + kept (snd (obtain_frame host spec format s)).
Proof.
  intros host spec format s. unfold obtain_frame.
  destruct (get_buffer2 (as_avctx s)) as [hook | ].
  - apply frame_from_hook_held.
  - pose proof (frame_from_pool_held host spec format s) as Hpool.
    destruct (frame_from_pool host spec format s) as [s1 [frame | ] ];
      cbn [fst snd kept] in *.
    + exact Hpool.
    + rewrite frame_from_alloc_held. lia.
Qed.

Lemma attach_spec_held :
  forall host spec frame s,
    frames_held (fst (attach_spec host spec frame s))
    + 1 = frames_held s + kept (snd (attach_spec host spec frame s)).
Proof.
  intros host spec frame s. unfold attach_spec.
  destruct (_ || _); [ | cbn [fst snd kept]; lia ].
  destruct (spec_queue_len (as_dectx s) >? 0).
  - unfold frames_held, frames_out, frame_queue_len.
    cbn [fst snd kept with_dectx as_events as_dectx set_spec_queue
         frame_queue]. lia.
  - destruct (host_malloc host); unfold frames_held, frames_out;
      cbn [fst snd kept emit as_events as_dectx];
      rewrite frame_balance_app; cbn [frame_balance]; lia.
Qed.

Lemma bridge_buffer_held :
  forall host spec s,
    frames_held (fst (bridge_buffer host spec s))
    = frames_held s + kept (snd (bridge_buffer host spec s)).
Proof.
  intros host spec s. unfold bridge_buffer.
  destruct (negotiate_format spec) as [format | ];
    [ | cbn [fst snd kept]; lia ].
  pose proof (obtain_frame_held host spec format s) as H1.
  destruct (obtain_frame host spec format s) as [s1 [frame1 | ] ];
    cbn [fst snd kept] in *; [ | lia ].
  pose proof (attach_spec_held host spec frame1 s1) as H2.
  destruct (attach_spec host spec frame1 s1) as [s2 [frame2 | ] ];
    cbn [fst snd kept] in *; [ | lia ].
  destruct (register_planes _ _ _ _ _) as [img [ | ] ];
    unfold frames_held, frames_out in *;
    cbn [fst snd kept emit with_img as_events as_dectx];
    rewrite ?frame_balance_app; cbn [frame_balance]; lia.
Qed.

(** X26: the allocate callback accounts for every frame.  From any pool and
    with any host, a call that succeeds leaves exactly one more frame alive
    outside the pool (the one whose planes the engine holds), and a call
    that falls back to the engine's allocator leaves none: each frame it
    allocated or took from the pool has been freed. *)
Theorem get_buffer_accounts_for_frames :
  forall {E : Engine} (host : Host) (avctx : AVCodecContext)
         (dectx : DE265Context) (img : de265_image_intern)
         (spec : de265_image_spec),
    let a := ff_libde265dec_get_buffer host avctx dectx img spec in
    frames_out (as_events (alloc_state a)) (as_dectx (alloc_state a))
    = frames_out [] dectx + (if alloc_fallback a then 0 else 1).
Proof.
  intros E host avctx dectx img spec. cbv zeta.
  unfold ff_libde265dec_get_buffer.
  pose proof (bridge_buffer_held host spec
                {| as_avctx := avctx; as_dectx := dectx; as_img := img;
                   as_events := [] |}) as H.
  destruct (bridge_buffer _ _ _) as [s [frame | ] ];
    unfold frames_held in H; cbn [fst snd kept as_events as_dectx] in H.
  - cbn [alloc_state alloc_fallback]. exact H.
  - destruct (default_get_buffer _ _) as [img' ret].
    cbn [alloc_state alloc_fallback with_img as_events as_dectx]. exact H.
Qed.

(** X27: the release callback accounts for the frame it is given.  When the
    image carries a frame, exactly one frame leaves the set of frames alive
    outside the pool: it is freed or it joins the pool, never both and never
    neither; an image of the engine's own allocator changes nothing. *)
Theorem release_buffer_accounts_for_frame :
  forall (avctx : AVCodecContext) (dectx : DE265Context)
         (img : de265_image_intern),
    let r := ff_libde265dec_release_buffer avctx dectx img in
    frames_out (snd r) (fst r)
    = frames_out [] dectx
      - kept (de265_get_image_plane_user_data_intern img 0).
Proof.
  intros avctx dectx img. cbv zeta. unfold ff_libde265dec_release_buffer.
  destruct (de265_get_image_plane_user_data_intern img 0) as [frame | ];
    [ | cbn [fst snd kept frames_out frame_balance]; unfold frames_out;
        cbn [frame_balance]; lia ].
  assert (Hspec : forall spec,
             frame_queue (fst (free_spec dectx spec)) = frame_queue dectx
             /\ frame_balance (snd (free_spec dectx spec)) = 0).
  { intros spec. unfold free_spec.
    destruct (_ <? _); cbn [fst snd set_spec_queue frame_queue
                            frame_balance]; split; reflexivity. }
  assert (H : exists dectx1 ev1,
             match frame_opaque frame with
             | Some spec => free_spec dectx spec
             | None => (dectx, [])
             end = (dectx1, ev1)
             /\ frame_queue dectx1 = frame_queue dectx
             /\ frame_balance ev1 = 0).
  { destruct (frame_opaque frame) as [spec | ].
    - destruct (Hspec spec) as [Hq Hb].
      destruct (free_spec dectx spec) as [dectx1 ev1].
      exists dectx1, ev1. cbn [fst snd] in *. repeat split; assumption.
    - exists dectx, []. repeat split. }
  destruct H as (dectx1 & ev1 & -> & Hq & Hb). cbv beta iota.
  unfold frames_out, frame_queue_len.
  destruct (get_buffer2 avctx) as [hook | ].
  - cbn [fst snd kept]. rewrite frame_balance_app, Hb, Hq.
    cbn [frame_balance]. lia.
  - unfold frame_queue_len.
    destruct (_ =? _); cbn [fst snd kept set_frame_queue frame_queue].
    + rewrite frame_balance_app, Hb, Hq. cbn [frame_balance]. lia.
    + rewrite Hb, Hq, length_app. cbn [length frame_balance]. lia.
Qed.
